(** * Bill splitter: cost allocation, batch generation and period aggregation

    A shallow embedding of the computational core of the application:

    - [handleCalculate]        (src/app/input.tsx)        single-bill allocation,
    - [handleSaveBill]         (src/app/result.tsx)       saving a computed bill,
    - [handleBatchCreate]      (src/app/batch-create.tsx) one bill per month of a range,
    - [handleCalculateSummary] (src/app/index.tsx)        per-family totals over a period.

    Modelling conventions.

    - A JavaScript number that holds an amount of money is an exact rational
      ([Q]).  Rounding of IEEE doubles and the two infinities are outside the
      model; a text that [parseFloat] reads as an infinity is recognised
      ([Text.infinity]) and kept apart where a statement depends on it.
      [NaN] only arises as the result of a failed parse and is [None]; the
      source removes it on the spot with [|| 0].  A quotient by zero is not
      a rational: [jsDiv] returns [None] there.
    - Integers (identifiers, line counts, time values) are [Z].
    - Strings are [string] (UTF-8 bytes); comparisons are byte-wise, which for
      text of the Basic Multilingual Plane agrees with JavaScript's order.
    - The summary object is a plain object: a key that names a property of
      [Object.prototype] finds the inherited value, on which the summary
      throws.
    - A [Date] is its time value, in milliseconds since the epoch; local time
      is taken to be UTC (no zone offset, no daylight saving).
    - The persistent store holds the ["bills"] entry as an optional list
      ([None]: the key was never written); read and write failures of the
      store are not modelled.
    - The clock ([Date.now()]) is a parameter of the operations that read it. *)

From Stdlib Require Import ZArith QArith Qfield Lia Lqa Ascii String.
From stdpp Require Import base option list strings pretty gmap sorting.

Local Open Scope string_scope.
Local Open Scope list_scope.
Local Open Scope Z_scope.

(** ** Numbers read from text fields *)

Module Text.

(** White space and line terminators, as skipped by [parseFloat] and
    [parseInt] at the start of a text, in their UTF-8 form.  Of one byte:
    tab, line feed, vertical tab, form feed, carriage return, space. *)
Definition isWhiteSpace (c : ascii) : bool :=
  let n := Ascii.N_of_ascii c in
  ((9 <=? n) && (n <=? 13) || (n =? 32))%N.

(** Of two bytes: U+00A0. *)
Definition whiteSpace2 (c1 c2 : ascii) : bool :=
  ((Ascii.N_of_ascii c1 =? 194) && (Ascii.N_of_ascii c2 =? 160))%N.

(** Of three bytes: U+1680, U+2000 to U+200A, U+2028, U+2029, U+202F,
    U+205F, U+3000 and U+FEFF. *)
Definition whiteSpace3 (c1 c2 c3 : ascii) : bool :=
  let a := Ascii.N_of_ascii c1 in
  let b := Ascii.N_of_ascii c2 in
  let c := Ascii.N_of_ascii c3 in
  ((a =? 225) && (b =? 154) && (c =? 128)
   || (a =? 226) && (b =? 128)
      && ((128 <=? c) && (c <=? 138) || (c =? 168) || (c =? 169) || (c =? 175))
   || (a =? 226) && (b =? 129) && (c =? 159)
   || (a =? 227) && (b =? 128) && (c =? 128)
   || (a =? 239) && (b =? 187) && (c =? 191))%N.

Definition digitOf (c : ascii) : option Z :=
  let n := Z.of_N (Ascii.N_of_ascii c) in
  if (48 <=? n) && (n <=? 57) then Some (n - 48) else None.

Fixpoint trimStart (s : string) : string :=
  match s with
  | String c1 s1 =>
      if isWhiteSpace c1 then trimStart s1
      else
        match s1 with
        | String c2 s2 =>
            if whiteSpace2 c1 c2 then trimStart s2
            else
              match s2 with
              | String c3 s3 => if whiteSpace3 c1 c2 c3 then trimStart s3 else s
              | EmptyString => s
              end
        | EmptyString => s
        end
  | EmptyString => s
  end.

(** [digits acc n s] reads the longest run of decimal digits at the start of
    [s]: the value accumulated onto [acc], the number of digits read added
    to [n], and the rest of the text. *)
Fixpoint digits (acc : Z) (n : nat) (s : string) : Z * nat * string :=
  match s with
  | String c s' =>
      match digitOf c with
      | Some d => digits (10 * acc + d) (S n) s'
      | None => (acc, n, s)
      end
  | EmptyString => (acc, n, s)
  end.

(** An optional sign: [true] for a minus. *)
Definition sign (s : string) : bool * string :=
  match s with
  | String "-" s' => (true, s')
  | String "+" s' => (false, s')
  | _ => (false, s)
  end.

(** The exponent part [e±ddd] of a decimal literal; it is taken only when
    at least one digit follows, otherwise the literal ends before the [e]. *)
Definition exponent (s : string) : Z :=
  match s with
  | String c s' =>
      if (Ascii.eqb c "e" || Ascii.eqb c "E")%bool then
        let '(neg, s1) := sign s' in
        let '(e, n, _) := digits 0 0 s1 in
        match n with
        | O => 0
        | S _ => if neg then - e else e
        end
      else 0
  | EmptyString => 0
  end.

Definition scale (m : Z) (e : Z) : Q :=
  if 0 <=? e then inject_Z (m * 10 ^ e)
  else Qred (Qmake m (Z.to_pos (10 ^ (- e)))).

(** [parseFloat]: leading white space is skipped, then the longest prefix
    that is a decimal literal (sign, digits, fraction, exponent) is read,
    with its exact value.  [None]: no such prefix exists.  The result is
    then [NaN], unless the text is one that [infinity] below recognises. *)
Definition parseFloat (s : string) : option Q :=
  let '(neg, s1) := sign (trimStart s) in
  let '(ip, ni, s2) := digits 0 0 s1 in
  let '(m, nf, s3) :=
    match s2 with
    | String "." s' => let '(m, nf, s3) := digits ip 0 s' in (m, nf, s3)
    | _ => (ip, O, s2)
    end in
  match (ni + nf)%nat with
  | O => None
  | S _ =>
      let q := scale m (exponent s3 - Z.of_nat nf) in
      Some (if neg then Qopp q else q)
  end.

(** The least magnitude that a double does not hold: halfway between the
    largest double and [2^1024], from where on a decimal rounds to an
    infinity. *)
Definition overflow : Q := inject_Z (2 ^ 1024 - 2 ^ 970).

(** Whether [parseFloat] reads an infinity, and which ([Some true] is the
    negative one): after the leading white space and an optional sign the
    text starts with [Infinity], or its decimal literal is too large for a
    double.  An infinity is no rational, and an operation that has to store
    such an amount is outside the model there. *)
Definition infinity (s : string) : option bool :=
  let '(neg, s1) := sign (trimStart s) in
  if String.prefix "Infinity" s1 then Some neg
  else
    match parseFloat s with
    | Some q =>
        if Qle_bool overflow q || Qle_bool q (- overflow) then Some neg else None
    | None => None
    end.

(** [parseInt(s, 10)]. *)
Definition parseInt (s : string) : option Z :=
  let '(neg, s1) := sign (trimStart s) in
  let '(v, n, _) := digits 0 0 s1 in
  match n with
  | O => None
  | S _ => Some (if neg then - v else v)
  end.

(** [parseFloat(x)] at a text that may be [undefined]: the argument is
    converted to the string ["undefined"], which has no numeric prefix. *)
Definition parseFloatOpt (s : option string) : option Q :=
  match s with
  | Some s => parseFloat s
  | None => None
  end.

(** [x || 0] at a number: [NaN] and zero both give zero. *)
Definition orZeroQ (x : option Q) : Q :=
  match x with
  | Some q => q
  | None => 0%Q
  end.

Definition orZeroZ (x : option Z) : Z :=
  match x with
  | Some z => z
  | None => 0
  end.

(** [!s] at a string. *)
Definition falsy (s : string) : bool :=
  match s with
  | EmptyString => true
  | String _ _ => false
  end.

End Text.

(** A quotient of an amount by a count.  JavaScript yields an infinity or
    [NaN] when the divisor is zero, neither of which is a rational. *)
Definition jsDiv (a : Q) (n : Z) : option Q :=
  if n =? 0 then None else Some (a / inject_Z n)%Q.

(** ** Dates *)

(** The day and calendar arithmetic of ECMAScript's [Date] objects, on time
    values in milliseconds. *)
Module Calendar.

Definition msPerDay : Z := 86400000.

Definition Day (t : Z) : Z := t / msPerDay.
Definition TimeWithinDay (t : Z) : Z := t mod msPerDay.

Definition isLeap (y : Z) : bool :=
  (y mod 4 =? 0) && (negb (y mod 100 =? 0) || (y mod 400 =? 0)).

Definition DaysInYear (y : Z) : Z := if isLeap y then 366 else 365.

(** The day number of the first day of year [y]. *)
Definition DayFromYear (y : Z) : Z :=
  365 * (y - 1970) + (y - 1969) / 4 - (y - 1901) / 100 + (y - 1601) / 400.

(** The year a day falls in (the largest [y] with [DayFromYear y <= d]),
    by the usual closed form on 400-year eras that start on 1 March. *)
Definition YearFromDay (d : Z) : Z :=
  let z := d + 719468 in
  let era := z / 146097 in
  let doe := z mod 146097 in
  let yoe := (doe - doe / 1460 + doe / 36524 - doe / 146096) / 365 in
  let doy := doe - (365 * yoe + yoe / 4 - yoe / 100) in
  let mp := (5 * doy + 2) / 153 in
  yoe + era * 400 + (if mp <? 10 then 0 else 1).

Definition YearFromTime (t : Z) : Z := YearFromDay (Day t).

Definition DayWithinYear (t : Z) : Z := Day t - DayFromYear (YearFromTime t).

Definition InLeapYear (t : Z) : Z :=
  if isLeap (YearFromTime t) then 1 else 0.

(** The number of days of the year before month [m] (0 is January), in a
    year with [l] leap days. *)
Definition monthStart (l : Z) (m : Z) : Z :=
  match m with
  | 0 => 0
  | 1 => 31
  | 2 => 59 + l
  | 3 => 90 + l
  | 4 => 120 + l
  | 5 => 151 + l
  | 6 => 181 + l
  | 7 => 212 + l
  | 8 => 243 + l
  | 9 => 273 + l
  | 10 => 304 + l
  | _ => 334 + l
  end.

Definition MonthFromTime (t : Z) : Z :=
  let d := DayWithinYear t in
  let l := InLeapYear t in
  if d <? 31 then 0
  else if d <? 59 + l then 1
  else if d <? 90 + l then 2
  else if d <? 120 + l then 3
  else if d <? 151 + l then 4
  else if d <? 181 + l then 5
  else if d <? 212 + l then 6
  else if d <? 243 + l then 7
  else if d <? 273 + l then 8
  else if d <? 304 + l then 9
  else if d <? 334 + l then 10
  else 11.

Definition DateFromTime (t : Z) : Z :=
  DayWithinYear t - monthStart (InLeapYear t) (MonthFromTime t) + 1.

(** [MakeDay]: the month is first brought into 0..11 with the excess carried
    into the year; a day of the month beyond the month's length then runs
    on into the following month. *)
Definition MakeDay (year month date : Z) : Z :=
  let ym := year + month / 12 in
  let mn := month mod 12 in
  DayFromYear ym + monthStart (if isLeap ym then 1 else 0) mn + date - 1.

Definition MakeDate (day time : Z) : Z := day * msPerDay + time.

(** The number of days of month [m] (0 is January) of year [y]. *)
Definition daysInMonth (y m : Z) : Z :=
  let l := if isLeap y then 1 else 0 in
  if m =? 11 then 31 else monthStart l (m + 1) - monthStart l m.

End Calendar.

Record Date : Type := mkDate { getTime : Z }.

Definition getFullYear (d : Date) : Z := Calendar.YearFromTime (getTime d).
Definition getMonth (d : Date) : Z := Calendar.MonthFromTime (getTime d).
Definition getDate (d : Date) : Z := Calendar.DateFromTime (getTime d).

(** [d.setMonth(m)]: year, day of the month and time of day are kept. *)
Definition setMonth (d : Date) (m : Z) : Date :=
  let t := getTime d in
  mkDate (Calendar.MakeDate
            (Calendar.MakeDay (Calendar.YearFromTime t) m (Calendar.DateFromTime t))
            (Calendar.TimeWithinDay t)).

(** [new Date(year, monthIndex, day)] at midnight. *)
Definition newDate (year month day : Z) : Date :=
  mkDate (Calendar.MakeDate (Calendar.MakeDay year month day) 0).

(** [s.padStart(n, c)]. *)
Definition padStart (n : nat) (c : ascii) (s : string) : string :=
  (String.string_of_list_ascii (replicate (n - String.length s) c) ++ s)%string.

(** [formatBillMonth], the same in input.tsx, batch-create.tsx and index.tsx. *)
Definition formatBillMonth (date : option Date) : string :=
  match date with
  | None => ""
  | Some d =>
      let year := getFullYear d in
      let month := padStart 2 "0" (pretty (getMonth d + 1)) in
      (pretty year ++ "年 " ++ month ++ "月")%string
  end.

(** ** Data model *)

(** A family as the user edits it on the input screen: counts and amounts
    are still the text of their fields (input.tsx, [FamilyInBill]). *)
Module ExtraServiceInput.
Record t : Type := mk { hasService : bool; cost : string }.
End ExtraServiceInput.

Module FamilyInBill.
Record t : Type := mk {
  id : Z;
  name : string;
  lines : string;
  extraService : ExtraServiceInput.t
}.
End FamilyInBill.

(** A family's participation in a computed bill (result.tsx, [FamilyData]). *)
Module ExtraService.
Record t : Type := mk { hasService : bool; cost : Q }.
End ExtraService.

Module FamilyData.
Record t : Type := mk {
  id : Z;
  name : string;
  lines : Z;
  extraService : ExtraService.t
}.
End FamilyData.

(** A bill (result.tsx, [ResultData]; [BillData] elsewhere): [id] is [None]
    for [null], the identifier of a bill that was never saved. *)
Module ResultData.
Record t : Type := mk {
  id : option Z;
  billMonth : string;
  totalCost : Q;
  costPerLine : Q;
  families : list FamilyData.t
}.

Definition withId (i : Z) (data : t) : t :=
  mk (Some i) (billMonth data) (totalCost data) (costPerLine data) (families data).
End ResultData.

(** What [handleDuplicateBill] hands to the input screen: a bill whose [id]
    and [billMonth] are [null]. *)
Module DuplicatedData.
Record t : Type := mk {
  totalCost : Q;
  costPerLine : Q;
  families : list FamilyData.t
}.
End DuplicatedData.

(** A saved family with its members (families screen; [SavedFamily] in
    input.tsx, [FamilyData] in batch-create.tsx). *)
Module Member.
Record t : Type := mk { id : Z; name : string }.
End Member.

Module SavedFamily.
Record t : Type := mk { id : Z; name : string; members : list Member.t }.
End SavedFamily.

(** The ["bills"] entry of the persistent store. *)
Definition BillStore : Type := option (list ResultData.t).

(** [json ? JSON.parse(json) : []] *)
Definition readBills (store : BillStore) : list ResultData.t :=
  match store with
  | Some bills => bills
  | None => []
  end.

(** ** Single-bill calculation (input.tsx) *)

Module Input.

Record State : Type := mkState {
  totalCost : string;
  familiesInBill : list FamilyInBill.t;
  billDate : option Date;
  editingBillId : option Z
}.

(** The body of the [map] callback of [handleCalculate], without its two
    accumulations. *)
Definition parseFamily (family : FamilyInBill.t) : FamilyData.t :=
  let lines := Text.orZeroZ (Text.parseInt (FamilyInBill.lines family)) in
  let extraCost :=
    if ExtraServiceInput.hasService (FamilyInBill.extraService family)
    then Text.orZeroQ (Text.parseFloat (ExtraServiceInput.cost (FamilyInBill.extraService family)))
    else 0%Q in
  FamilyData.mk (FamilyInBill.id family) (FamilyInBill.name family) lines
    (ExtraService.mk (ExtraServiceInput.hasService (FamilyInBill.extraService family)) extraCost).

Definition familiesWithParsedNumbers (st : State) : list FamilyData.t :=
  map parseFamily (familiesInBill st).

(** [totalExtraServiceCost += extraCost], once per family in order, from 0. *)
Definition totalExtraServiceCost (st : State) : Q :=
  fold_left (fun acc f => (acc + ExtraService.cost (FamilyData.extraService f))%Q)
    (familiesWithParsedNumbers st) 0%Q.

(** [totalLines += lines], once per family in order, from 0. *)
Definition totalLines (st : State) : Z :=
  fold_left (fun acc f => acc + FamilyData.lines f) (familiesWithParsedNumbers st) 0.

Definition parsedTotalCost (st : State) : Q :=
  Text.orZeroQ (Text.parseFloat (totalCost st)).

Definition totalLineCost (st : State) : Q :=
  (parsedTotalCost st - totalExtraServiceCost st)%Q.

(** [totalLines > 0 ? totalLineCost / totalLines : 0] *)
Definition costPerLine (st : State) : option Q :=
  if 0 <? totalLines st then jsDiv (totalLineCost st) (totalLines st) else Some 0%Q.

(** [handleCalculate]: the bill handed to the result screen; [None] only if
    a quotient by zero were taken. *)
Definition handleCalculate (st : State) : option ResultData.t :=
  rate ← costPerLine st;
  Some (ResultData.mk
          (editingBillId st)
          (match billDate st with
           | Some d => formatBillMonth (Some d)
           | None => "N/A"
           end)
          (parsedTotalCost st)
          rate
          (familiesWithParsedNumbers st)).

(** [s.split(sep)] for a separator of one character. *)
Fixpoint split (sep : ascii) (s : string) : list string :=
  match s with
  | EmptyString => [EmptyString]
  | String c s' =>
      if Ascii.eqb c sep then EmptyString :: split sep s'
      else
        match split sep s' with
        | seg :: segs => String c seg :: segs
        | [] => [String c EmptyString]
        end
  end.

(** The rest of [s] after the prefix [pat], if [s] starts with [pat]. *)
Fixpoint dropPrefix (pat s : string) : option string :=
  match pat, s with
  | EmptyString, _ => Some s
  | String p pat', String c s' => if Ascii.eqb p c then dropPrefix pat' s' else None
  | String _ _, EmptyString => None
  end.

(** [s.replace(pat, '')] for a text pattern: its first occurrence is
    removed. *)
Fixpoint removeFirst (pat s : string) : string :=
  match dropPrefix pat s with
  | Some rest => rest
  | None =>
      match s with
      | EmptyString => EmptyString
      | String c s' => String c (removeFirst pat s')
      end
  end.

(** [new Date(year, monthIndex)]: the first day of the month at midnight; a
    year from 0 to 99 stands for 1900 to 1999. *)
Definition newDateYM (year month : Z) : Date :=
  let yr := if (0 <=? year) && (year <=? 99) then 1900 + year else year in
  mkDate (Calendar.MakeDate (Calendar.MakeDay yr month 1) 0).

(** [parseBillMonth]: [None] when the text has no space, in which case
    [monthPart] is [undefined] and [monthPart.replace] throws; [Some None] is
    the invalid date made from a year or month that is not a number. *)
Definition parseBillMonth (monthString : string) : option (option Date) :=
  match split " " monthString with
  | yearPart :: monthPart :: _ =>
      let year := Text.parseInt (removeFirst "年" yearPart) in
      let month := Text.parseInt (removeFirst "月" monthPart) in
      Some match year, month with
           | Some y, Some m => Some (newDateYM y (m - 1))
           | _, _ => None
           end
  | _ => None
  end.

(** [handleSelectFamily]: a saved family joins the bill once, with one line
    per member and no extra service. *)
Definition handleSelectFamily (family : SavedFamily.t)
    (familiesInBill : list FamilyInBill.t) : list FamilyInBill.t :=
  if existsb (fun f => FamilyInBill.id f =? SavedFamily.id family) familiesInBill
  then familiesInBill
  else
    familiesInBill
      ++ [FamilyInBill.mk (SavedFamily.id family) (SavedFamily.name family)
            (pretty (Z.of_nat (length (SavedFamily.members family))))
            (ExtraServiceInput.mk false "")].

(** [removeFamilyFromBill] *)
Definition removeFamilyFromBill (id : Z) (familiesInBill : list FamilyInBill.t)
  : list FamilyInBill.t :=
  List.filter (fun family => negb (FamilyInBill.id family =? id)) familiesInBill.

(** The two fields of the extra service that [updateFamilyExtraService]
    sets, with the value for each. *)
Inductive ExtraServiceField : Type :=
| SetHasService (value : bool)
| SetCost (value : string).

(** [{ ...extraService, [field]: value }] *)
Definition setExtraService (field : ExtraServiceField) (e : ExtraServiceInput.t)
  : ExtraServiceInput.t :=
  match field with
  | SetHasService value => ExtraServiceInput.mk value (ExtraServiceInput.cost e)
  | SetCost value => ExtraServiceInput.mk (ExtraServiceInput.hasService e) value
  end.

(** [updateFamilyExtraService] *)
Definition updateFamilyExtraService (id : Z) (field : ExtraServiceField)
    (familiesInBill : list FamilyInBill.t) : list FamilyInBill.t :=
  map (fun family =>
         if FamilyInBill.id family =? id
         then FamilyInBill.mk (FamilyInBill.id family) (FamilyInBill.name family)
                (FamilyInBill.lines family)
                (setExtraService field (FamilyInBill.extraService family))
         else family)
    familiesInBill.

(** The setter of the [familiesInBill] field. *)
Definition setFamiliesInBill (families : list FamilyInBill.t) (st : State) : State :=
  mkState (totalCost st) families (billDate st) (editingBillId st).

(** The callback of [data.families.map] in the effect that fills the form:
    counts and amounts become the text of their fields.  [toString] is
    [Number.prototype.toString] at an amount, a parameter of the model: an
    amount is a rational here and has no text of its own.  A line count is
    an integer, whose text is its decimal numeral. *)
Definition familyWithStringValues (toString : Q -> string) (f : FamilyData.t)
  : FamilyInBill.t :=
  FamilyInBill.mk (FamilyData.id f) (FamilyData.name f)
    (pretty (FamilyData.lines f))
    (ExtraServiceInput.mk
       (ExtraService.hasService (FamilyData.extraService f))
       (toString (ExtraService.cost (FamilyData.extraService f)))).

(** How the effect ends when the screen is opened with [billToModify]. *)
Inductive EffectOutcome : Type :=
| Throws                 (* [parseBillMonth] throws a TypeError *)
| InvalidDate            (* the bill date becomes an invalid [Date] *)
| Filled (st : State).

(** The effect, first branch: the screen was opened with [billToModify].
    The parameter travels as JSON, which gives the bill back as it was. *)
Definition loadBillToModify (toString : Q -> string) (data : ResultData.t) : EffectOutcome :=
  match parseBillMonth (ResultData.billMonth data) with
  | None => Throws
  | Some None => InvalidDate
  | Some (Some billDate) =>
      let familiesWithStringValues :=
        map (familyWithStringValues toString) (ResultData.families data) in
      Filled (mkState (toString (ResultData.totalCost data)) familiesWithStringValues
                (Some billDate) (ResultData.id data))
  end.

(** The effect, second branch: the screen was opened with [duplicatedData];
    the bill date of the form is left as it is. *)
Definition loadDuplicatedData (toString : Q -> string) (data : DuplicatedData.t)
    (st : State) : State :=
  let familiesWithStringValues :=
    map (familyWithStringValues toString) (DuplicatedData.families data) in
  mkState (toString (DuplicatedData.totalCost data)) familiesWithStringValues
    (billDate st) None.

End Input.

(** ** Result screen (result.tsx) *)

Module Result.

(** The amounts shown for one family of a bill. *)
Definition familyLineCost (data : ResultData.t) (family : FamilyData.t) : Q :=
  (inject_Z (FamilyData.lines family) * ResultData.costPerLine data)%Q.

Definition familyTotalCost (data : ResultData.t) (family : FamilyData.t) : Q :=
  (familyLineCost data family + ExtraService.cost (FamilyData.extraService family))%Q.

(** [existingBills.findIndex(bill => bill.id === data.id)] *)
Fixpoint findIndex (i : Z) (bills : list ResultData.t) : option nat :=
  match bills with
  | [] => None
  | bill :: rest =>
      if decide (ResultData.id bill = Some i) then Some O
      else S <$> findIndex i rest
  end.

(** [handleSaveBill]: a bill that carries the identifier of a stored bill
    replaces it; any other bill is appended under the current time. *)
Definition handleSaveBill (now : Z) (data : ResultData.t) (store : BillStore) : BillStore :=
  let existingBills := readBills store in
  match ResultData.id data with
  | Some i =>
      if i =? 0 then Some (existingBills ++ [ResultData.withId now data])
      else
        match findIndex i existingBills with
        | Some billIndex => Some (<[billIndex := data]> existingBills)
        | None => Some (existingBills ++ [ResultData.withId now data])
        end
  | None => Some (existingBills ++ [ResultData.withId now data])
  end.

End Result.

(** ** Batch creation (batch-create.tsx) *)

Module Batch.

Record State : Type := mkState {
  allFamilies : list SavedFamily.t;
  selectedFamilyIds : gset Z;
  extraServiceCosts : gmap Z string;
  totalCost : string;
  startDate : option Date;
  endDate : option Date
}.

(** The setter of the [totalCost] field. *)
Definition setTotalCost (text : string) (st : State) : State :=
  mkState (allFamilies st) (selectedFamilyIds st) (extraServiceCosts st) text
    (startDate st) (endDate st).

(** What the user is told. *)
Inductive Alert : Type :=
| Incomplete          (* 信息不完整 *)
| DateError           (* 日期错误 *)
| AmountError         (* 金额错误 *)
| Created (n : nat).  (* 创建成功, with the number of bills *)

Definition selectedFamilies (st : State) : list SavedFamily.t :=
  filter (fun f => SavedFamily.id f ∈ selectedFamilyIds st) (allFamilies st).

Definition parsedTotalCost (st : State) : Q :=
  Text.orZeroQ (Text.parseFloat (totalCost st)).

(** [parseFloat(extraServiceCosts[f.id]) || 0] *)
Definition extraCost (st : State) (f : SavedFamily.t) : Q :=
  Text.orZeroQ (Text.parseFloatOpt (extraServiceCosts st !! SavedFamily.id f)).

Definition familyForBill (st : State) (f : SavedFamily.t) : FamilyData.t :=
  FamilyData.mk (SavedFamily.id f) (SavedFamily.name f)
    (Z.of_nat (length (SavedFamily.members f)))
    (ExtraService.mk (negb (Qle_bool (extraCost st f) 0)) (extraCost st f)).

Definition familiesForBill (st : State) : list FamilyData.t :=
  map (familyForBill st) (selectedFamilies st).

Definition totalExtraServiceCost (st : State) : Q :=
  fold_left (fun acc f => (acc + ExtraService.cost (FamilyData.extraService f))%Q)
    (familiesForBill st) 0%Q.

Definition totalLineCost (st : State) : Q :=
  (parsedTotalCost st - totalExtraServiceCost st)%Q.

(** [familiesForBill.reduce((sum, f) => sum + f.lines, 0)] *)
Definition totalLines (st : State) : Z :=
  fold_left (fun sum f => sum + FamilyData.lines f) (familiesForBill st) 0.

Definition costPerLine (st : State) : option Q :=
  if 0 <? totalLines st then jsDiv (totalLineCost st) (totalLines st) else Some 0%Q.

(** The bill pushed by one round of the loop; [now] is the clock read in
    that round. *)
Definition newBill (st : State) (rate : Q) (now : Z) (currentDate : Date) : ResultData.t :=
  ResultData.mk
    (Some (now + getTime currentDate))
    (formatBillMonth (Some currentDate))
    (parsedTotalCost st)
    rate
    (familiesForBill st).

(** [while (currentDate <= endDate) { push; currentDate.setMonth(getMonth() + 1) }]:
    the values [currentDate] takes at the pushes.  [fuel] bounds the number
    of rounds. *)
Fixpoint monthsLoop (fuel : nat) (currentDate endDate : Date) : list Date :=
  match fuel with
  | O => []
  | S fuel' =>
      if getTime currentDate <=? getTime endDate
      then currentDate
             :: monthsLoop fuel' (setMonth currentDate (getMonth currentDate + 1)) endDate
      else []
  end.

(** A number of rounds the loop cannot exceed: every round moves
    [currentDate] forward by 28 days or more ([monthsLoop_fuel] below). *)
Definition rounds (startDate endDate : Date) : nat :=
  Z.to_nat ((getTime endDate - getTime startDate) / (28 * Calendar.msPerDay) + 1).

Definition months (startDate endDate : Date) : list Date :=
  monthsLoop (rounds startDate endDate) startDate endDate.

(** [newBills]: round [i] reads the clock as [clock i]. *)
Definition newBills (st : State) (rate : Q) (clock : nat -> Z)
    (startDate endDate : Date) : list ResultData.t :=
  imap (fun i currentDate => newBill st rate (clock i) currentDate)
    (months startDate endDate).

(** [handleBatchCreate]: the alert shown and the store afterwards; [None]
    only if a quotient by zero were taken. *)
Definition handleBatchCreate (st : State) (clock : nat -> Z) (store : BillStore)
  : option (Alert * BillStore) :=
  match startDate st, endDate st with
  | Some startDate, Some endDate =>
      if bool_decide (size (selectedFamilyIds st) = 0%nat) || Text.falsy (totalCost st)
      then Some (Incomplete, store)
      else if getTime endDate <? getTime startDate
      then Some (DateError, store)
      else if Qlt_le_dec (totalLineCost st) 0
      then Some (AmountError, store)
      else
        rate ← costPerLine st;
        let newBills := newBills st rate clock startDate endDate in
        let existingBills := readBills store in
        let updatedBills := existingBills ++ newBills in
        Some (Created (length newBills), Some updatedBills)
  | _, _ => Some (Incomplete, store)
  end.

(** [toggleFamilySelection] *)
Definition toggleFamilySelection (familyId : Z) (st : State) : State :=
  mkState (allFamilies st)
    (if decide (familyId ∈ selectedFamilyIds st)
     then selectedFamilyIds st ∖ {[familyId]}
     else selectedFamilyIds st ∪ {[familyId]})
    (extraServiceCosts st) (totalCost st) (startDate st) (endDate st).

(** [handleExtraServiceChange] *)
Definition handleExtraServiceChange (familyId : Z) (cost : string) (st : State) : State :=
  mkState (allFamilies st) (selectedFamilyIds st)
    (<[familyId := cost]> (extraServiceCosts st))
    (totalCost st) (startDate st) (endDate st).

End Batch.

(** ** Objects used as string-keyed maps *)

(** A plain JavaScript object ([{}]) used as a map from strings: its own
    data properties in creation order, and, behind them, the properties it
    inherits from [Object.prototype]. *)
Module JsObject.

Section Ops.
Context {V : Type}.

Definition t : Type := list (string * V).

(** The own property [k] of [o], if there is one. *)
Fixpoint get (k : string) (o : t) : option V :=
  match o with
  | [] => None
  | (k', v) :: o' => if decide (k' = k) then Some v else get k o'
  end.

(** [o[k] = v]: an existing property keeps its place. *)
Fixpoint set (k : string) (v : V) (o : t) : t :=
  match o with
  | [] => [(k, v)]
  | (k', v') :: o' =>
      if decide (k' = k) then (k', v) :: o' else (k', v') :: set k v o'
  end.
End Ops.

Arguments t : clear implicits.

(** The names of the properties of [Object.prototype], which every plain
    object inherits. *)
Definition inherited (k : string) : bool :=
  bool_decide
    (k ∈ ["constructor"; "hasOwnProperty"; "isPrototypeOf"; "propertyIsEnumerable";
          "toLocaleString"; "toString"; "valueOf"; "__proto__";
          "__defineGetter__"; "__defineSetter__"; "__lookupGetter__";
          "__lookupSetter__"]).

(** What [o[k]] finds: an own property, else an inherited one (a function,
    or the prototype itself under [__proto__]; truthy in either case), else
    [undefined]. *)
Inductive Found (V : Type) : Type :=
| Own (v : V)
| Inherited
| Undefined.

Arguments Own {V} v.
Arguments Inherited {V}.
Arguments Undefined {V}.

(** [o[k]] *)
Definition lookup {V : Type} (k : string) (o : t V) : Found V :=
  match get k o with
  | Some v => Own v
  | None => if inherited k then Inherited else Undefined
  end.

(** The value of an array index key: the canonical decimal text of a
    natural number below [2^32 - 1]. *)
Definition arrayIndex (k : string) : option N :=
  let '(v, n, rest) := Text.digits 0 0 k in
  match n, rest with
  | S _, EmptyString =>
      if decide (pretty v = k) then
        if v <? 4294967295 then Some (Z.to_N v) else None
      else None
  | _, _ => None
  end.

Definition indexLe (a b : string) : Prop :=
  match arrayIndex a, arrayIndex b with
  | Some x, Some y => (x <= y)%N
  | _, _ => True
  end.

#[global] Instance indexLe_dec a b : Decision (indexLe a b).
Proof. unfold indexLe. destruct (arrayIndex a), (arrayIndex b); apply _. Defined.

(** [Object.keys(o)]: array index keys in ascending numeric order, then the
    other keys in creation order. *)
Definition keys {V : Type} (o : t V) : list string :=
  let ks := map fst o in
  merge_sort indexLe (filter (fun k => is_Some (arrayIndex k)) ks)
    ++ filter (fun k => ¬ is_Some (arrayIndex k)) ks.

End JsObject.

(** ** Period summary (index.tsx) *)

Module Home.

Module Breakdown.
Record t : Type := mk { month : string; cost : Q }.
End Breakdown.

(** [Omit<SummaryResult, 'name'>], the values of the [summary] object. *)
Module Totals.
Record t : Type := mk {
  extraServiceCost : Q;
  lines : Z;
  monthlyBill : Q;
  totalCost : Q;
  monthlyBreakdown : list Breakdown.t
}.

Definition empty : t := mk 0%Q 0 0%Q 0%Q [].

(** [e.totalCost += c; e.monthlyBreakdown.push({ month, cost: c })] *)
Definition add (month : string) (c : Q) (e : t) : t :=
  mk (extraServiceCost e) (lines e) (monthlyBill e)
     (totalCost e + c)%Q
     (monthlyBreakdown e ++ [Breakdown.mk month c]).
End Totals.

Module SummaryResult.
Record t : Type := mk { name : string; totals : Totals.t }.
End SummaryResult.

Record State : Type := mkState {
  startDate : option Date;
  endDate : option Date;
  allBills : list ResultData.t
}.

Inductive Outcome : Type :=
| Hint                  (* 提示: a month or the bill history is missing *)
| NoData                (* 无数据: no bill in the range *)
| Summary (summaryData : list SummaryResult.t) (dateRange : string)
| Throws.               (* a TypeError leaves the handler: no summary is shown *)

(** [family.name || `家庭 ${family.id}`] *)
Definition familyName (family : FamilyData.t) : string :=
  if Text.falsy (FamilyData.name family)
  then ("家庭 " ++ pretty (FamilyData.id family))%string
  else FamilyData.name family.

Definition familyTotalCost (bill : ResultData.t) (family : FamilyData.t) : Q :=
  (inject_Z (FamilyData.lines family) * ResultData.costPerLine bill
   + ExtraService.cost (FamilyData.extraService family))%Q.

(** The body of the inner [forEach]; [None] when it throws.  [summary] is a
    plain object.  Under a name that it inherits from [Object.prototype] and
    has no entry of its own for, [summary[familyName]] is the inherited
    value, which is truthy: no entry is made, [totalCost] is set on the
    inherited value, and [push] is called on its [monthlyBreakdown], which
    is [undefined]: a TypeError. *)
Definition addFamily (bill : ResultData.t)
    (summary : JsObject.t Totals.t) (family : FamilyData.t)
  : option (JsObject.t Totals.t) :=
  let familyName := familyName family in
  let familyTotalCost := familyTotalCost bill family in
  let summary :=
    match JsObject.lookup familyName summary with
    | JsObject.Undefined => JsObject.set familyName Totals.empty summary
    | _ => summary
    end in
  match JsObject.lookup familyName summary with
  | JsObject.Own e =>
      Some (JsObject.set familyName
              (Totals.add (ResultData.billMonth bill) familyTotalCost e) summary)
  | _ => None
  end.

(** [bill.families.forEach(...)]: a throw ends the loop. *)
Definition addBill (summary : JsObject.t Totals.t) (bill : ResultData.t)
  : option (JsObject.t Totals.t) :=
  fold_left (fun acc family => summary ← acc; addFamily bill summary family)
    (ResultData.families bill) (Some summary).

(** [filteredBills.forEach(...)] from the empty object. *)
Definition summarize (filteredBills : list ResultData.t)
  : option (JsObject.t Totals.t) :=
  fold_left (fun acc bill => summary ← acc; addBill summary bill)
    filteredBills (Some []).

Definition inRange (startMonthStr endMonthStr : string) (bill : ResultData.t) : bool :=
  String.leb startMonthStr (ResultData.billMonth bill)
  && String.leb (ResultData.billMonth bill) endMonthStr.

Definition filteredBills (startMonthStr endMonthStr : string)
    (allBills : list ResultData.t) : list ResultData.t :=
  List.filter (inRange startMonthStr endMonthStr) allBills.

Definition summaryArray (summary : JsObject.t Totals.t) : list SummaryResult.t :=
  omap (fun name => SummaryResult.mk name <$> JsObject.get name summary)
    (JsObject.keys summary).

Definition handleCalculateSummary (st : State) : Outcome :=
  match startDate st, endDate st, allBills st with
  | Some startDate, Some endDate, _ :: _ =>
      let startMonthStr := formatBillMonth (Some startDate) in
      let endMonthStr := formatBillMonth (Some endDate) in
      let filteredBills := filteredBills startMonthStr endMonthStr (allBills st) in
      match filteredBills with
      | [] => NoData
      | _ :: _ =>
          match summarize filteredBills with
          | Some summary =>
              Summary (summaryArray summary)
                (startMonthStr ++ " 至 " ++ endMonthStr)%string
          | None => Throws
          end
      end
  | _, _, _ => Hint
  end.

(** [applyFilters]: the bills shown in the history.  A family filter that is
    [null] (or 0) and a minimum amount that is not a positive number are not
    applied.  The minimum is only compared, never stored, so the two
    infinities are within the model here: no total cost reaches [Infinity],
    and [-Infinity] is not above 0. *)
Definition applyFilters (allBills : list ResultData.t) (filterFamilyId : option Z)
    (filterMinAmount : string) : list ResultData.t :=
  let billsToFilter :=
    match filterFamilyId with
    | Some id =>
        if id =? 0 then allBills
        else
          List.filter
            (fun bill => existsb (fun f => FamilyData.id f =? id) (ResultData.families bill))
            allBills
    | None => allBills
    end in
  match Text.infinity filterMinAmount with
  | Some false => List.filter (fun bill => false) billsToFilter
  | Some true => billsToFilter
  | None =>
      match Text.parseFloat filterMinAmount with
      | Some minAmount =>
          if negb (Qle_bool minAmount 0)
          then List.filter (fun bill => Qle_bool minAmount (ResultData.totalCost bill))
                 billsToFilter
          else billsToFilter
      | None => billsToFilter
      end
  end.

(** [toggleBillSelection] *)
Definition toggleBillSelection (billId : Z) (selectedBillIds : gset Z) : gset Z :=
  if decide (billId ∈ selectedBillIds)
  then selectedBillIds ∖ {[billId]}
  else selectedBillIds ∪ {[billId]}.

(** [selectedBillIds.has(b.id)] *)
Definition isSelected (selectedBillIds : gset Z) (b : ResultData.t) : bool :=
  match ResultData.id b with
  | Some i => bool_decide (i ∈ selectedBillIds)
  | None => false
  end.

(** The bills kept by [handleBulkDelete], written to the store and shown. *)
Definition handleBulkDelete (selectedBillIds : gset Z) (allBills : list ResultData.t)
  : list ResultData.t :=
  List.filter (fun b => negb (isSelected selectedBillIds b)) allBills.

(** The bills kept by [handleDeleteBill], written to the store and shown. *)
Definition handleDeleteBill (billToDelete : ResultData.t) (allBills : list ResultData.t)
  : list ResultData.t :=
  List.filter
    (fun b => negb (bool_decide (ResultData.id b = ResultData.id billToDelete)))
    allBills.

(** [handleDuplicateBill]: [{ ...billToDuplicate, id: null, billMonth: null }] *)
Definition handleDuplicateBill (billToDuplicate : ResultData.t) : DuplicatedData.t :=
  DuplicatedData.mk (ResultData.totalCost billToDuplicate)
    (ResultData.costPerLine billToDuplicate) (ResultData.families billToDuplicate).

(** [totalAmount] of [generateSummaryPdfHtml]: the last row of the report. *)
Definition totalAmount (summaryData : list SummaryResult.t) : Q :=
  fold_left (fun sum item => (sum + Totals.totalCost (SummaryResult.totals item))%Q)
    summaryData 0%Q.

End Home.

(** ** The families screen (FamiliesScreen) *)

Module Families.

(** The three-byte UTF-8 forms of white space and line terminators: U+1680,
    U+2000 to U+200A, U+2028, U+2029, U+202F, U+205F, U+3000 and U+FEFF. *)
Definition whiteSpace3 (a b c : N) : bool :=
  ((a =? 225) && (b =? 154) && (c =? 128)
   || (a =? 226) && (b =? 128)
      && ((128 <=? c) && (c <=? 138) || (c =? 168) || (c =? 169) || (c =? 175))
   || (a =? 226) && (b =? 129) && (c =? 159)
   || (a =? 227) && (b =? 128) && (c =? 128)
   || (a =? 239) && (b =? 187) && (c =? 191))%N.

(** [s.trim() === '']: the text holds nothing but white space and line
    terminators (tab to carriage return, space, U+00A0 and the three-byte
    forms above). *)
Fixpoint blank (s : string) : bool :=
  match s with
  | EmptyString => true
  | String c1 s1 =>
      let a := Ascii.N_of_ascii c1 in
      if ((9 <=? a) && (a <=? 13) || (a =? 32))%N then blank s1
      else
        match s1 with
        | EmptyString => false
        | String c2 s2 =>
            let b := Ascii.N_of_ascii c2 in
            if ((a =? 194) && (b =? 160))%N then blank s2
            else
              match s2 with
              | EmptyString => false
              | String c3 s3 =>
                  if whiteSpace3 a b (Ascii.N_of_ascii c3) then blank s3 else false
              end
        end
  end.

(** The family being edited has its three fields: it is a stored family or
    the new one of [openModal], and the setters keep the fields. *)
Record State : Type := mkState {
  families : list SavedFamily.t;
  isModalVisible : bool;
  currentFamily : option SavedFamily.t
}.

(** [openModal]; [now1] and [now2] are the two readings of the clock, for
    the family and for its first member. *)
Definition openModal (family : option SavedFamily.t) (now1 now2 : Z) (st : State) : State :=
  mkState (families st) true
    (Some match family with
          | Some f => f
          | None => SavedFamily.mk now1 "" [Member.mk now2 ""]
          end).

Definition closeModal (st : State) : State :=
  mkState (families st) false None.

(** [onChangeText] of the name field, while a family is edited. *)
Definition setName (name : string) (st : State) : State :=
  match currentFamily st with
  | Some cur =>
      mkState (families st) (isModalVisible st)
        (Some (SavedFamily.mk (SavedFamily.id cur) name (SavedFamily.members cur)))
  | None => st
  end.

(** [newFamilies.findIndex(f => f.id === finalFamily.id)] *)
Fixpoint findIndex (id : Z) (fs : list SavedFamily.t) : option nat :=
  match fs with
  | [] => None
  | f :: rest => if SavedFamily.id f =? id then Some O else S <$> findIndex id rest
  end.

(** The family written by [handleSaveFamily]: members whose name is blank
    are dropped. *)
Definition finalFamily (cur : SavedFamily.t) : SavedFamily.t :=
  SavedFamily.mk (SavedFamily.id cur) (SavedFamily.name cur)
    (List.filter (fun m => negb (blank (Member.name m))) (SavedFamily.members cur)).

Inductive SaveOutcome : Type :=
| NameMissing            (* 提示: 请输入家庭名称。 *)
| Saved (st : State).

(** [handleSaveFamily]: the list is written to the store and shown, and the
    form is closed. *)
Definition handleSaveFamily (st : State) : SaveOutcome :=
  match currentFamily st with
  | None => NameMissing
  | Some cur =>
      if Text.falsy (SavedFamily.name cur) then NameMissing
      else
        let finalFamily := finalFamily cur in
        let newFamilies :=
          match findIndex (SavedFamily.id finalFamily) (families st) with
          | Some existingIndex => <[existingIndex := finalFamily]> (families st)
          | None => families st ++ [finalFamily]
          end in
        Saved (closeModal (mkState newFamilies (isModalVisible st) (currentFamily st)))
  end.

(** The families kept by [handleDeleteFamily] once the deletion is
    confirmed. *)
Definition handleDeleteFamily (familyId : Z) (families : list SavedFamily.t)
  : list SavedFamily.t :=
  List.filter (fun f => negb (SavedFamily.id f =? familyId)) families.

(** [setCurrentFamily({ ...currentFamily, members })] *)
Definition setMembers (members : list Member.t) (cur : SavedFamily.t) (st : State) : State :=
  mkState (families st) (isModalVisible st)
    (Some (SavedFamily.mk (SavedFamily.id cur) (SavedFamily.name cur) members)).

(** [updateMemberName] *)
Definition updateMemberName (memberId : Z) (name : string) (st : State) : State :=
  match currentFamily st with
  | None => st
  | Some cur =>
      let updatedMembers :=
        map (fun m => if Member.id m =? memberId then Member.mk (Member.id m) name else m)
          (SavedFamily.members cur) in
      setMembers updatedMembers cur st
  end.

(** [addMemberField]; [now] is the reading of the clock. *)
Definition addMemberField (now : Z) (st : State) : State :=
  match currentFamily st with
  | None => st
  | Some cur =>
      let newMember := Member.mk now "" in
      setMembers (SavedFamily.members cur ++ [newMember]) cur st
  end.

(** [removeMemberField] *)
Definition removeMemberField (memberId : Z) (st : State) : State :=
  match currentFamily st with
  | None => st
  | Some cur =>
      setMembers
        (List.filter (fun m => negb (Member.id m =? memberId)) (SavedFamily.members cur))
        cur st
  end.

End Families.

(** ** Notions used in the statements *)

(** [xs.reduce((sum, x) => sum + x, 0)] *)
Definition Qsum (xs : list Q) : Q := fold_left Qplus xs 0%Q.

Definition sumLines (fs : list FamilyData.t) : Z :=
  fold_left (fun acc f => acc + FamilyData.lines f) fs 0.

Definition extraCostOf (f : FamilyData.t) : Q :=
  ExtraService.cost (FamilyData.extraService f).

(** The allocation of section 4.1 of the specification, step 5: the extra
    cost counts only when the service is enabled. *)
Module Spec.
Definition perFamilyTotal (costPerLine : Q) (f : FamilyData.t) : Q :=
  (inject_Z (FamilyData.lines f) * costPerLine
   + (if ExtraService.hasService (FamilyData.extraService f)
      then ExtraService.cost (FamilyData.extraService f)
      else 0))%Q.
End Spec.

(** The value of [totalLines > 0 ? c / totalLines : 0] once the quotient is
    known to exist. *)
Definition guardedRate (c : Q) (n : Z) : Q :=
  if 0 <? n then (c / inject_Z n)%Q else 0%Q.




(** The day number of the first day of the month of index [M] (months
    counted from January of year 0). *)
Definition firstDay (M : Z) : Z := Calendar.MakeDay 0 M 1.

(** The calendar month of a date, counted from January of year 0. *)
Definition monthIndex (d : Date) : Z := 12 * getFullYear d + getMonth d.

(** The token of the month with a given index. *)
Definition monthToken (M : Z) : string :=
  (pretty (M / 12) ++ "年 " ++ padStart 2 "0" (pretty (M mod 12 + 1)) ++ "月")%string.

(** The place of a date within its month: the day of the month, then the
    time of day. *)
Definition notLaterInMonth (a b : Date) : Prop :=
  getDate a < getDate b \/
  (getDate a = getDate b /\
   Calendar.TimeWithinDay (getTime a) <= Calendar.TimeWithinDay (getTime b)).

(** A clock that never runs backwards. *)
Definition monotone (clock : nat -> Z) : Prop :=
  forall i j : nat, (i <= j)%nat -> clock i <= clock j.

(** The participations of a list of bills, in the order the two nested
    [forEach] of the summary visit them. *)
Definition participations (bills : list ResultData.t)
  : list (ResultData.t * FamilyData.t) :=
  flat_map (fun bill => map (pair bill) (ResultData.families bill)) bills.

(** The participations that the summary files under [key]. *)
Definition filedUnder (key : string) (ps : list (ResultData.t * FamilyData.t))
  : list (ResultData.t * FamilyData.t) :=
  filter (fun p => Home.familyName p.2 = key) ps.

(** What one participation adds to its family's entry: the bill's month and
    the line charge plus the stored extra cost. *)
Definition contribution (p : ResultData.t * FamilyData.t) : Home.Breakdown.t :=
  Home.Breakdown.mk (ResultData.billMonth p.1)
    (inject_Z (FamilyData.lines p.2) * ResultData.costPerLine p.1
     + ExtraService.cost (FamilyData.extraService p.2))%Q.

Definition addContribution (e : Home.Totals.t) (p : ResultData.t * FamilyData.t)
  : Home.Totals.t :=
  Home.Totals.add (Home.Breakdown.month (contribution p))
    (Home.Breakdown.cost (contribution p)) e.

(** What one participation does to the summary object when nothing throws:
    its contribution goes to the entry under its family's key, which is made
    first if there is none. *)
Definition addParticipation (summary : JsObject.t Home.Totals.t)
    (p : ResultData.t * FamilyData.t) : JsObject.t Home.Totals.t :=
  JsObject.set (Home.familyName p.2)
    (addContribution
       (default Home.Totals.empty (JsObject.get (Home.familyName p.2) summary)) p)
    summary.

(** The summary object of a list of bills when nothing throws. *)
Definition summaryObject (bills : list ResultData.t) : JsObject.t Home.Totals.t :=
  fold_left addParticipation (participations bills) [].

(** A participation on which the summary throws: its family's key names a
    property of [Object.prototype]. *)
Definition throwsOn (p : ResultData.t * FamilyData.t) : bool :=
  JsObject.inherited (Home.familyName p.2).

(** One round of the two nested loops of the summary, after a possible
    throw. *)
Definition addParticipationOrThrow (acc : option (JsObject.t Home.Totals.t))
    (p : ResultData.t * FamilyData.t) : option (JsObject.t Home.Totals.t) :=
  summary ← acc; Home.addFamily p.1 summary p.2.

(** The bills a summary request covers. *)
Definition billsInRange (st : Home.State) : list ResultData.t :=
  match Home.startDate st, Home.endDate st with
  | Some startDate, Some endDate =>
      Home.filteredBills (formatBillMonth (Some startDate))
        (formatBillMonth (Some endDate)) (Home.allBills st)
  | _, _ => []
  end.

(** A text of decimal digits. *)
Fixpoint allDigits (s : string) : bool :=
  match s with
  | EmptyString => true
  | String c s' =>
      match Text.digitOf c with
      | Some _ => allDigits s'
      | None => false
      end
  end.

(** Whether the character [c] occurs in [s]. *)
Fixpoint occurs (c : ascii) (s : string) : bool :=
  match s with
  | EmptyString => false
  | String c' s' => Ascii.eqb c' c || occurs c s'
  end.

(** The sum of the totals held in a summary object. *)
Definition objectTotal (o : JsObject.t Home.Totals.t) : Q :=
  Qsum (map (fun kv => Home.Totals.totalCost kv.2) o).

(** The total held under a key, 0 when there is none. *)
Definition totalUnder (o : JsObject.t Home.Totals.t) (k : string) : Q :=
  match JsObject.get k o with
  | Some e => Home.Totals.totalCost e
  | None => 0%Q
  end.

(** Every name of a list once, at the place where it first appears. *)
Fixpoint firstSeen (names : list string) : list string :=
  match names with
  | [] => []
  | k :: rest => k :: filter (fun k' => k' <> k) (firstSeen rest)
  end.

(** Linear arithmetic with quotients and remainders by constants. *)
Local Ltac divmod := Z.div_mod_to_equations; lia.

(** * Properties *)

(** ** Arithmetic of the accumulations *)

Section Sums.
Context {A : Type}.

Lemma fold_left_Qplus_shift (g : A -> Q) (l : list A) (a : Q) :
  (fold_left (fun acc x => acc + g x) l a
   == a + fold_left (fun acc x => acc + g x) l 0)%Q.
Proof.
  revert a. induction l as [|x l IH]; intros a; simpl.
  - ring.
  - rewrite (IH (a + g x)%Q), (IH (0 + g x)%Q). ring.
Qed.

Lemma fold_left_Zplus_shift (g : A -> Z) (l : list A) (a : Z) :
  fold_left (fun acc x => acc + g x) l a
  = a + fold_left (fun acc x => acc + g x) l 0.
Proof.
  revert a. induction l as [|x l IH]; intros a; simpl.
  - lia.
  - rewrite (IH (a + g x)), (IH (0 + g x)). lia.
Qed.

Lemma Qsum_map_fold (g : A -> Q) (l : list A) :
  Qsum (map g l) = fold_left (fun acc x => acc + g x)%Q l 0%Q.
Proof.
  unfold Qsum. generalize 0%Q. induction l as [|x l IH]; intros a; simpl; auto.
Qed.

Lemma Qsum_map_cons (g : A -> Q) (x : A) (l : list A) :
  (Qsum (map g (x :: l)) == g x + Qsum (map g l))%Q.
Proof.
  rewrite !Qsum_map_fold. simpl. rewrite fold_left_Qplus_shift. ring.
Qed.
End Sums.

Lemma sumLines_cons (f : FamilyData.t) (fs : list FamilyData.t) :
  sumLines (f :: fs) = FamilyData.lines f + sumLines fs.
Proof. unfold sumLines. simpl. rewrite fold_left_Zplus_shift. lia. Qed.

(** Line charges at a common rate add up to the rate times the line count. *)
Lemma Qsum_line_charges (rate : Q) (fs : list FamilyData.t) :
  (Qsum (map (fun f => inject_Z (FamilyData.lines f) * rate + extraCostOf f) fs)
   == inject_Z (sumLines fs) * rate + Qsum (map extraCostOf fs))%Q.
Proof.
  induction fs as [|f fs IH].
  - unfold Qsum, sumLines. simpl. ring.
  - rewrite !Qsum_map_cons, IH, sumLines_cons, inject_Z_plus. ring.
Qed.

(** With the rate [c / n] for [n] lines in all, the charges add up to [c]
    and the extra costs. *)
Lemma Qsum_allocation (c : Q) (fs : list FamilyData.t) :
  sumLines fs <> 0 ->
  (Qsum (map (fun f => inject_Z (FamilyData.lines f) * (c / inject_Z (sumLines fs))
                       + extraCostOf f) fs)
   == c + Qsum (map extraCostOf fs))%Q.
Proof.
  intros Hn. rewrite Qsum_line_charges.
  assert (~ inject_Z (sumLines fs) == 0)%Q as Hq.
  { unfold Qeq. simpl. lia. }
  field. exact Hq.
Qed.

(** ** The guarded quotient *)

Lemma jsDiv_pos (a : Q) (n : Z) : 0 < n -> jsDiv a n = Some (a / inject_Z n)%Q.
Proof. intros H. unfold jsDiv. destruct (Z.eqb_spec n 0); [lia | reflexivity]. Qed.

Lemma Input_costPerLine_eq (st : Input.State) :
  Input.costPerLine st = Some (guardedRate (Input.totalLineCost st) (Input.totalLines st)).
Proof.
  unfold Input.costPerLine, guardedRate.
  destruct (Z.ltb_spec 0 (Input.totalLines st)); [apply jsDiv_pos; assumption | reflexivity].
Qed.

Lemma handleCalculate_eq (st : Input.State) :
  Input.handleCalculate st =
  Some (ResultData.mk (Input.editingBillId st)
          (match Input.billDate st with
           | Some d => formatBillMonth (Some d)
           | None => "N/A"
           end)
          (Input.parsedTotalCost st)
          (guardedRate (Input.totalLineCost st) (Input.totalLines st))
          (Input.familiesWithParsedNumbers st)).
Proof. unfold Input.handleCalculate. rewrite Input_costPerLine_eq. reflexivity. Qed.

Lemma Batch_costPerLine_eq (st : Batch.State) :
  Batch.costPerLine st = Some (guardedRate (Batch.totalLineCost st) (Batch.totalLines st)).
Proof.
  unfold Batch.costPerLine, guardedRate.
  destruct (Z.ltb_spec 0 (Batch.totalLines st)); [apply jsDiv_pos; assumption | reflexivity].
Qed.

(** ** Saving a bill *)

Lemma findIndex_lt (i : Z) (bills : list ResultData.t) (n : nat) :
  Result.findIndex i bills = Some n -> (n < length bills)%nat.
Proof.
  revert n. induction bills as [|b bills IH]; intros n; simpl; [discriminate|].
  destruct (decide (ResultData.id b = Some i)).
  - intros [= <-]. lia.
  - destruct (Result.findIndex i bills) as [k|]; simpl; [|discriminate].
    intros [= <-]. specialize (IH k eq_refl). lia.
Qed.

(** Saving keeps everything but, for a new bill, the identifier. *)
Lemma handleSaveBill_stores (now : Z) (data : ResultData.t) (store : BillStore) :
  exists saved,
    saved ∈ readBills (Result.handleSaveBill now data store) /\
    ResultData.billMonth saved = ResultData.billMonth data /\
    ResultData.totalCost saved = ResultData.totalCost data /\
    ResultData.costPerLine saved = ResultData.costPerLine data /\
    ResultData.families saved = ResultData.families data.
Proof.
  assert (exists saved,
             saved ∈ readBills store ++ [ResultData.withId now data] /\
             ResultData.billMonth saved = ResultData.billMonth data /\
             ResultData.totalCost saved = ResultData.totalCost data /\
             ResultData.costPerLine saved = ResultData.costPerLine data /\
             ResultData.families saved = ResultData.families data) as Hpush.
  { exists (ResultData.withId now data). split; [|auto].
    apply elem_of_app. right. left. }
  unfold Result.handleSaveBill.
  destruct (ResultData.id data) as [i|]; [|exact Hpush].
  destruct (i =? 0); [exact Hpush|].
  destruct (Result.findIndex i (readBills store)) as [n|] eqn:E; [|exact Hpush].
  exists data. split; [|auto]. simpl.
  apply list_elem_of_lookup. exists n.
  apply list_lookup_insert_eq. eapply findIndex_lt, E.
Qed.

(** ** Calendar arithmetic *)

Section CalendarFacts.
Import Calendar.

Lemma DayFromYear_succ (y : Z) :
DayFromYear (y + 1) = DayFromYear y + (if isLeap y then 366 else 365).
Proof.
unfold DayFromYear, isLeap.
replace (y + 1 - 1970) with (y - 1969) by lia.
replace (y + 1 - 1969) with (y - 1968) by lia.
replace (y + 1 - 1901) with (y - 1900) by lia.
replace (y + 1 - 1601) with (y - 1600) by lia.
destruct (Z.eqb_spec (y mod 4) 0), (Z.eqb_spec (y mod 100) 0), (Z.eqb_spec (y mod 400) 0);
  simpl; divmod.
Qed.

Lemma MonthFromTime_range (t : Z) : 0 <= MonthFromTime t <= 11.
Proof.
unfold MonthFromTime.
repeat match goal with |- context [ ?a <? ?b ] => destruct (Z.ltb_spec a b) end; lia.
Qed.

Lemma monthStart_step (l m : Z) :
0 <= l <= 1 -> 0 <= m <= 10 -> 28 <= monthStart l (m + 1) - monthStart l m <= 31.
Proof.
intros Hl Hm.
assert (m = 0 \/ m = 1 \/ m = 2 \/ m = 3 \/ m = 4 \/ m = 5 \/ m = 6 \/ m = 7
        \/ m = 8 \/ m = 9 \/ m = 10) as Hc by lia.
repeat (destruct Hc as [-> | Hc]); try subst m; simpl; lia.
Qed.

Lemma MakeDay_next_month (t : Z) :
28 <= MakeDay (YearFromTime t) (MonthFromTime t + 1) (DateFromTime t) - Day t <= 31.
Proof.
pose proof (MonthFromTime_range t) as Hm.
unfold MakeDay, DateFromTime, DayWithinYear, InLeapYear.
set (y := YearFromTime t) in *. set (m := MonthFromTime t) in *.
destruct (decide (m = 11)) as [-> | Hne].
- change ((11 + 1) / 12) with 1. change ((11 + 1) mod 12) with 0.
  rewrite DayFromYear_succ. destruct (isLeap y); simpl; lia.
- assert (0 <= m <= 10) as Hm' by lia.
  assert ((m + 1) / 12 = 0) as -> by (apply Z.div_small; lia).
  assert ((m + 1) mod 12 = m + 1) as -> by (apply Z.mod_small; lia).
  rewrite Z.add_0_r.
  pose proof (monthStart_step (if isLeap y then 1 else 0) m) as Hs.
  destruct (isLeap y); lia.
Qed.

Lemma setMonth_next_advances (d : Date) :
getTime d + 28 * msPerDay <= getTime (setMonth d (getMonth d + 1)).
Proof.
unfold setMonth, getMonth, MakeDate. simpl.
pose proof (MakeDay_next_month (getTime d)) as H.
unfold Day, TimeWithinDay in *. unfold msPerDay in *.
Z.div_mod_to_equations. lia.
Qed.

Lemma YearFromDay_spec (d : Z) :
  DayFromYear (YearFromDay d) <= d < DayFromYear (YearFromDay d + 1).
Proof.
  unfold YearFromDay, DayFromYear. cbv zeta.
  match goal with |- context [ ?a <? 10 ] => destruct (Z.ltb_spec a 10) end; divmod.
Qed.

Lemma DayFromYear_mono (a b : Z) : a <= b -> DayFromYear a <= DayFromYear b.
Proof. intros H. unfold DayFromYear. divmod. Qed.

(** [YearFromDay] is the year of the specification: the one whose days
    include [d]. *)
Lemma YearFromDay_unique (y d : Z) :
  DayFromYear y <= d < DayFromYear (y + 1) -> YearFromDay d = y.
Proof.
  intros H. pose proof (YearFromDay_spec d) as Hs.
  destruct (Z.lt_trichotomy (YearFromDay d) y) as [Hlt|[Heq|Hgt]]; [|exact Heq|].
  - pose proof (DayFromYear_mono (YearFromDay d + 1) y ltac:(lia)). lia.
  - pose proof (DayFromYear_mono (y + 1) (YearFromDay d) ltac:(lia)). lia.
Qed.

(** A time value built from a calendar date reads back as that date. *)
Lemma fields_MakeDate (y m d time : Z) :
  0 <= m <= 11 -> 1 <= d <= daysInMonth y m -> 0 <= time < msPerDay ->
  let t := MakeDate (MakeDay y m d) time in
  YearFromTime t = y /\ MonthFromTime t = m /\ DateFromTime t = d
  /\ TimeWithinDay t = time.
Proof.
  intros Hm Hd Ht t.
  assert (Day t = MakeDay y m d) as HD.
  { unfold t, Day, MakeDate, msPerDay in *. divmod. }
  assert (TimeWithinDay t = time) as HT.
  { unfold t, TimeWithinDay, MakeDate, msPerDay in *. divmod. }
  assert (MakeDay y m d = DayFromYear y + monthStart (if isLeap y then 1 else 0) m + d - 1)
    as HM.
  { unfold MakeDay. rewrite Z.div_small, Z.mod_small, Z.add_0_r by lia. reflexivity. }
  assert (YearFromTime t = y) as HY.
  { unfold YearFromTime. rewrite HD, HM. apply YearFromDay_unique.
    rewrite DayFromYear_succ. unfold daysInMonth in Hd.
    assert (m = 0 \/ m = 1 \/ m = 2 \/ m = 3 \/ m = 4 \/ m = 5 \/ m = 6 \/ m = 7
            \/ m = 8 \/ m = 9 \/ m = 10 \/ m = 11) as Hc by lia.
    destruct (isLeap y);
      repeat (destruct Hc as [-> | Hc]); try subst m; simpl in *; lia. }
  assert (DayWithinYear t = monthStart (if isLeap y then 1 else 0) m + d - 1) as HW.
  { unfold DayWithinYear. rewrite HY, HD, HM. lia. }
  assert (InLeapYear t = if isLeap y then 1 else 0) as HL.
  { unfold InLeapYear. rewrite HY. reflexivity. }
  assert (MonthFromTime t = m) as HMo.
  { unfold MonthFromTime. rewrite HW, HL. unfold daysInMonth in Hd.
    assert (m = 0 \/ m = 1 \/ m = 2 \/ m = 3 \/ m = 4 \/ m = 5 \/ m = 6 \/ m = 7
            \/ m = 8 \/ m = 9 \/ m = 10 \/ m = 11) as Hc by lia.
    destruct (isLeap y);
      repeat (destruct Hc as [-> | Hc]); try subst m; simpl in *;
      repeat match goal with |- context [ ?a <? ?b ] => destruct (Z.ltb_spec a b) end;
      lia. }
  split; [exact HY|]. split; [exact HMo|]. split; [|exact HT].
  unfold DateFromTime. rewrite HW, HL, HMo. lia.
Qed.

(** The calendar date of a time value is a valid date, and builds the time
    value back. *)
Lemma fields_valid (t : Z) :
  let y := YearFromTime t in
  let m := MonthFromTime t in
  let d := DateFromTime t in
  0 <= m <= 11 /\ 1 <= d <= daysInMonth y m /\
  0 <= TimeWithinDay t < msPerDay /\
  t = MakeDate (MakeDay y m d) (TimeWithinDay t).
Proof.
  intros y m d.
  pose proof (YearFromDay_spec (Day t)) as Hs. rewrite DayFromYear_succ in Hs.
  fold (YearFromTime t) in Hs. fold y in Hs.
  assert (0 <= DayWithinYear t < (if isLeap y then 366 else 365)) as Hw.
  { unfold DayWithinYear. fold y. lia. }
  assert (InLeapYear t = if isLeap y then 1 else 0) as HL by reflexivity.
  split; [apply MonthFromTime_range|]. split; [|split].
  - unfold d, DateFromTime, daysInMonth, m, MonthFromTime. rewrite HL.
    destruct (isLeap y);
      repeat match goal with |- context [ ?a <? ?b ] => destruct (Z.ltb_spec a b) end;
      simpl; lia.
  - unfold TimeWithinDay, msPerDay. divmod.
  - unfold MakeDate, MakeDay.
    pose proof (MonthFromTime_range t) as Hm. fold m in Hm.
    rewrite Z.div_small, Z.mod_small, Z.add_0_r by lia.
    unfold d, DateFromTime. rewrite HL. fold y. fold m.
    unfold DayWithinYear. fold y.
    unfold Day, TimeWithinDay, msPerDay. divmod.
Qed.

(** From a day of the month that every month has, [setMonth] to the next
    month index lands in the next calendar month, on the same day. *)
Lemma setMonth_next_small_day (d : Date) :
  getDate d <= 28 ->
  let next := setMonth d (getMonth d + 1) in
  getFullYear next = getFullYear d + (getMonth d + 1) / 12 /\
  getMonth next = (getMonth d + 1) mod 12 /\
  getDate next = getDate d /\
  TimeWithinDay (getTime next) = TimeWithinDay (getTime d).
Proof.
  intros Hd next.
  destruct (fields_valid (getTime d)) as (Hm & Hdate & Htime & _).
  unfold getDate, getMonth, getFullYear in *.
  set (y := YearFromTime (getTime d)) in *.
  set (m := MonthFromTime (getTime d)) in *.
  set (dt := DateFromTime (getTime d)) in *.
  assert (MakeDay y (m + 1) dt = MakeDay (y + (m + 1) / 12) ((m + 1) mod 12) dt) as HM.
  { unfold MakeDay.
    rewrite (Z.div_small ((m + 1) mod 12)), (Z.mod_small ((m + 1) mod 12)), Z.add_0_r
      by (apply Z.mod_pos_bound; lia).
    reflexivity. }
  assert (getTime next
          = MakeDate (MakeDay (y + (m + 1) / 12) ((m + 1) mod 12) dt)
              (TimeWithinDay (getTime d))) as Hn.
  { unfold next, setMonth. simpl. fold y. fold dt. rewrite HM. reflexivity. }
  rewrite Hn.
  destruct (fields_MakeDate (y + (m + 1) / 12) ((m + 1) mod 12) dt
              (TimeWithinDay (getTime d))) as (HY & HMo & HD & HT).
  - pose proof (Z.mod_pos_bound (m + 1) 12). lia.
  - split; [lia|]. unfold daysInMonth.
    assert (0 <= (m + 1) mod 12 <= 11) as Hr by (pose proof (Z.mod_pos_bound (m + 1) 12); lia).
    set (m' := (m + 1) mod 12) in *.
    assert (m' = 0 \/ m' = 1 \/ m' = 2 \/ m' = 3 \/ m' = 4 \/ m' = 5 \/ m' = 6 \/ m' = 7
            \/ m' = 8 \/ m' = 9 \/ m' = 10 \/ m' = 11) as Hc by lia.
    destruct (isLeap _);
      repeat (destruct Hc as [-> | Hc]); try subst m'; try rewrite Hc; simpl; lia.
  - exact Htime.
  - auto.
Qed.

Lemma firstDay_succ (M : Z) :
  firstDay (M + 1) = firstDay M + daysInMonth (M / 12) (M mod 12).
Proof.
  unfold firstDay, MakeDay, daysInMonth. rewrite !Z.add_0_l.
  pose proof (Z.mod_pos_bound M 12 ltac:(lia)) as Hr.
  destruct (Z.eqb_spec (M mod 12) 11) as [H11|Hne].
  - assert ((M + 1) / 12 = M / 12 + 1) as -> by divmod.
    assert ((M + 1) mod 12 = 0) as -> by divmod.
    rewrite DayFromYear_succ, H11. destruct (isLeap (M / 12)), (isLeap (M / 12 + 1)); simpl; lia.
  - assert ((M + 1) / 12 = M / 12) as -> by divmod.
    assert ((M + 1) mod 12 = M mod 12 + 1) as -> by divmod.
    lia.
Qed.

Lemma daysInMonth_ge (y m : Z) : 0 <= m <= 11 -> 28 <= daysInMonth y m.
Proof.
  intros Hm. unfold daysInMonth.
  assert (m = 0 \/ m = 1 \/ m = 2 \/ m = 3 \/ m = 4 \/ m = 5 \/ m = 6 \/ m = 7
          \/ m = 8 \/ m = 9 \/ m = 10 \/ m = 11) as Hc by lia.
  destruct (isLeap y); repeat (destruct Hc as [-> | Hc]); try subst m; simpl; lia.
Qed.

Lemma firstDay_mono (M N : Z) : M <= N -> firstDay M <= firstDay N.
Proof.
  intros H. replace N with (M + Z.of_nat (Z.to_nat (N - M))) by lia.
  induction (Z.to_nat (N - M)) as [|n IH]; [rewrite Z.add_0_r; lia|].
  replace (M + Z.of_nat (S n)) with (M + Z.of_nat n + 1) by lia.
  rewrite firstDay_succ.
  pose proof (daysInMonth_ge ((M + Z.of_nat n) / 12) ((M + Z.of_nat n) mod 12)
                ltac:(pose proof (Z.mod_pos_bound (M + Z.of_nat n) 12); lia)).
  lia.
Qed.

(** A time value, from the index of its month and its place in the month. *)
Lemma getTime_monthIndex (d : Date) :
  getTime d
  = (firstDay (monthIndex d) + getDate d - 1) * msPerDay + TimeWithinDay (getTime d).
Proof.
  destruct (fields_valid (getTime d)) as (Hm & _ & _ & Ht).
  rewrite Ht at 1. unfold MakeDate. f_equal. f_equal.
  unfold monthIndex, getFullYear, getMonth, getDate, firstDay, MakeDay.
  set (y := YearFromTime (getTime d)) in *. set (m := MonthFromTime (getTime d)) in *.
  rewrite (Z.div_small m), (Z.mod_small m) by lia.
  assert ((12 * y + m) / 12 = y) as -> by divmod.
  assert ((12 * y + m) mod 12 = m) as -> by divmod.
  rewrite Z.add_0_r, Z.add_0_l. lia.
Qed.

(** Two dates of which the first is not later in its month than the second
    are ordered as their months are. *)
Lemma getTime_le_monthIndex (a b : Date) :
  notLaterInMonth a b ->
  (getTime a <= getTime b <-> monthIndex a <= monthIndex b).
Proof.
  intros Hpos.
  rewrite (getTime_monthIndex a), (getTime_monthIndex b).
  destruct (fields_valid (getTime a)) as (_ & Hda & Hta & _).
  destruct (fields_valid (getTime b)) as (Hmb & Hdb & Htb & _).
  fold (getDate a) in Hda. fold (getDate b) in Hdb.
  unfold notLaterInMonth in Hpos. unfold msPerDay in *.
  split.
  - intros Hle. destruct (Z.le_gt_cases (monthIndex a) (monthIndex b)) as [|Hgt]; [assumption|].
    exfalso.
    pose proof (firstDay_mono (monthIndex b + 1) (monthIndex a) ltac:(lia)) as Hfd.
    rewrite firstDay_succ in Hfd.
    assert (monthIndex b / 12 = YearFromTime (getTime b)) as Hy.
    { unfold monthIndex, getFullYear, getMonth. divmod. }
    assert (monthIndex b mod 12 = MonthFromTime (getTime b)) as Hmo.
    { unfold monthIndex, getFullYear, getMonth. divmod. }
    rewrite Hy, Hmo in Hfd. nia.
  - intros Hle. pose proof (firstDay_mono _ _ Hle). nia.
Qed.

Lemma formatBillMonth_monthToken (d : Date) :
  formatBillMonth (Some d) = monthToken (monthIndex d).
Proof.
  pose proof (MonthFromTime_range (getTime d)) as Hm.
  unfold formatBillMonth, monthToken, monthIndex, getFullYear, getMonth in *.
  set (y := YearFromTime (getTime d)) in *. set (m := MonthFromTime (getTime d)) in *.
  assert ((12 * y + m) / 12 = y) as -> by divmod.
  assert ((12 * y + m) mod 12 = m) as -> by divmod.
  reflexivity.
Qed.

End CalendarFacts.

(** ** The month loop *)

Section MonthsLoop.
Import Batch.

Lemma rounds_past (c e : Date) : getTime e < getTime c -> rounds c e = 0%nat.
Proof.
intros H. unfold rounds, Calendar.msPerDay.
assert ((getTime e - getTime c) / (28 * 86400000) < 0) by (Z.div_mod_to_equations; lia).
lia.
Qed.

Lemma rounds_next (c e : Date) :
getTime c <= getTime e ->
(S (rounds (setMonth c (getMonth c + 1)) e) <= rounds c e)%nat.
Proof.
intros H. pose proof (setMonth_next_advances c) as Hs.
unfold rounds, Calendar.msPerDay in *.
set (n := getTime (setMonth c (getMonth c + 1))) in *.
assert ((getTime e - n) / (28 * 86400000) + 1 <= (getTime e - getTime c) / (28 * 86400000))
  by (Z.div_mod_to_equations; lia).
assert (0 <= (getTime e - getTime c) / (28 * 86400000)) by (Z.div_mod_to_equations; lia).
lia.
Qed.

(** Fuel beyond [rounds] is never used: the loop ends because its condition
  fails. *)
Lemma monthsLoop_fuel (f1 f2 : nat) (c e : Date) :
(rounds c e <= f1)%nat -> (rounds c e <= f2)%nat ->
monthsLoop f1 c e = monthsLoop f2 c e.
Proof.
revert f2 c. induction f1 as [|f1 IH]; intros f2 c H1 H2.
- assert (getTime e < getTime c) as Hlt.
  { destruct (Z.lt_ge_cases (getTime e) (getTime c)) as [|Hle]; [assumption|].
    pose proof (rounds_next c e Hle). lia. }
  destruct f2; simpl; [reflexivity|].
  destruct (Z.leb_spec (getTime c) (getTime e)); [lia | reflexivity].
- simpl. destruct (Z.leb_spec (getTime c) (getTime e)) as [Hle|Hlt].
  + pose proof (rounds_next c e Hle).
    destruct f2 as [|f2]; [lia|]. simpl.
    destruct (Z.leb_spec (getTime c) (getTime e)); [|lia].
    f_equal. apply IH; lia.
  + destruct f2; simpl; [reflexivity|].
    destruct (Z.leb_spec (getTime c) (getTime e)); [lia | reflexivity].
Qed.

Lemma months_unfold (c e : Date) :
months c e =
if getTime c <=? getTime e
then c :: months (setMonth c (getMonth c + 1)) e
else [].
Proof.
unfold months. destruct (Z.leb_spec (getTime c) (getTime e)) as [Hle|Hlt].
- pose proof (rounds_next c e Hle).
  destruct (rounds c e) as [|r] eqn:Hr; [lia|]. simpl.
  destruct (Z.leb_spec (getTime c) (getTime e)); [|lia].
  f_equal. apply monthsLoop_fuel; lia.
- rewrite rounds_past by assumption. reflexivity.
Qed.

Lemma monthsLoop_lookup_ge (fuel : nat) (c e d : Date) (i : nat) :
monthsLoop fuel c e !! i = Some d -> getTime c <= getTime d <= getTime e.
Proof.
revert c i. induction fuel as [|fuel IH]; intros c i; simpl; [discriminate|].
destruct (Z.leb_spec (getTime c) (getTime e)) as [Hle|]; [|discriminate].
destruct i as [|i]; simpl.
- intros [= <-]. lia.
- intros H. apply IH in H. pose proof (setMonth_next_advances c).
  unfold Calendar.msPerDay in *. lia.
Qed.

Lemma monthsLoop_lookup_lt (fuel : nat) (c e di dj : Date) (i j : nat) :
(i < j)%nat ->
monthsLoop fuel c e !! i = Some di -> monthsLoop fuel c e !! j = Some dj ->
getTime di < getTime dj.
Proof.
revert c i j. induction fuel as [|fuel IH]; intros c i j Hij; simpl; [discriminate|].
destruct (Z.leb_spec (getTime c) (getTime e)) as [Hle|]; [|discriminate].
destruct j as [|j]; [lia|]. destruct i as [|i]; simpl.
- intros [= <-] H. apply monthsLoop_lookup_ge in H.
  pose proof (setMonth_next_advances c). unfold Calendar.msPerDay in *. lia.
- apply IH. lia.
Qed.

Lemma monthIndex_next_small_day (d : Date) :
  getDate d <= 28 ->
  monthIndex (setMonth d (getMonth d + 1)) = monthIndex d + 1.
Proof.
  intros Hd. destruct (setMonth_next_small_day d Hd) as (HY & HM & _).
  pose proof (MonthFromTime_range (getTime d)) as Hm. fold (getMonth d) in Hm.
  unfold monthIndex. rewrite HY, HM. divmod.
Qed.

(** From a day of the month that every month has, to an end that is not
    earlier in its month: the loop visits every month from the start's to the
    end's, once each and in order. *)
Lemma months_aligned (startDate endDate : Date) :
  getDate startDate <= 28 ->
  notLaterInMonth startDate endDate ->
  map (fun d => formatBillMonth (Some d)) (months startDate endDate)
  = map monthToken
      (seqZ (monthIndex startDate) (monthIndex endDate - monthIndex startDate + 1)).
Proof.
  remember (Z.to_nat (monthIndex endDate - monthIndex startDate + 1)) as n eqn:Hn.
  revert startDate Hn. induction n as [|n IH]; intros c Hn Hd Hpos.
  - rewrite seqZ_nil by lia. rewrite months_unfold.
    destruct (Z.leb_spec (getTime c) (getTime endDate)) as [Hle|]; [|reflexivity].
    apply (getTime_le_monthIndex c endDate Hpos) in Hle. lia.
  - rewrite seqZ_cons by lia. rewrite months_unfold.
    destruct (Z.leb_spec (getTime c) (getTime endDate)) as [Hle|Hgt].
    + destruct (setMonth_next_small_day c Hd) as (_ & _ & HD & HT).
      pose proof (monthIndex_next_small_day c Hd) as HM.
      cbn [map]. rewrite formatBillMonth_monthToken. f_equal.
      rewrite IH.
      * rewrite HM. f_equal. f_equal; lia.
      * rewrite HM. lia.
      * rewrite HD. exact Hd.
      * unfold notLaterInMonth in *. rewrite HD, HT. exact Hpos.
    + exfalso.
      assert (monthIndex c <= monthIndex endDate) as Hle by lia.
      apply (getTime_le_monthIndex c endDate Hpos) in Hle. lia.
Qed.

End MonthsLoop.

(** ** Batch creation, case by case *)

Lemma handleBatchCreate_eq (st : Batch.State) (clock : nat -> Z) (store : BillStore) :
  Batch.handleBatchCreate st clock store =
  Some
    match Batch.startDate st, Batch.endDate st with
    | Some startDate, Some endDate =>
        if bool_decide (size (Batch.selectedFamilyIds st) = 0%nat)
           || Text.falsy (Batch.totalCost st)
        then (Batch.Incomplete, store)
        else if getTime endDate <? getTime startDate
        then (Batch.DateError, store)
        else if Qlt_le_dec (Batch.totalLineCost st) 0
        then (Batch.AmountError, store)
        else
          let newBills :=
            Batch.newBills st
              (guardedRate (Batch.totalLineCost st) (Batch.totalLines st))
              clock startDate endDate in
          (Batch.Created (length newBills), Some (readBills store ++ newBills))
    | _, _ => (Batch.Incomplete, store)
    end.
Proof.
  unfold Batch.handleBatchCreate.
  destruct (Batch.startDate st) as [s|], (Batch.endDate st) as [e|]; try reflexivity.
  destruct (_ || _); [reflexivity|].
  destruct (_ <? _); [reflexivity|].
  destruct (Qlt_le_dec _ _); [reflexivity|].
  rewrite Batch_costPerLine_eq. reflexivity.
Qed.

(** A run that reports success appended its new bills to the stored ones. *)
Lemma handleBatchCreate_created (st : Batch.State) (clock : nat -> Z)
    (store store' : BillStore) (n : nat) :
  Batch.handleBatchCreate st clock store = Some (Batch.Created n, store') ->
  exists startDate endDate,
    Batch.startDate st = Some startDate /\ Batch.endDate st = Some endDate /\
    let newBills :=
      Batch.newBills st (guardedRate (Batch.totalLineCost st) (Batch.totalLines st))
        clock startDate endDate in
    n = length newBills /\ store' = Some (readBills store ++ newBills).
Proof.
  rewrite handleBatchCreate_eq. intros [= H].
  destruct (Batch.startDate st) as [s|], (Batch.endDate st) as [e|]; try discriminate.
  destruct (_ || _); [discriminate|].
  destruct (_ <? _); [discriminate|].
  destruct (Qlt_le_dec _ _); [discriminate|].
  injection H as <- <-. exists s, e. auto.
Qed.

Lemma newBills_costPerLine (st : Batch.State) (rate : Q) (clock : nat -> Z)
    (startDate endDate : Date) (bill : ResultData.t) :
  bill ∈ Batch.newBills st rate clock startDate endDate ->
  ResultData.costPerLine bill = rate /\
  ResultData.families bill = Batch.familiesForBill st /\
  ResultData.totalCost bill = Batch.parsedTotalCost st.
Proof.
  unfold Batch.newBills. intros H.
  apply list_elem_of_lookup in H as [i H].
  rewrite list_lookup_imap in H.
  destruct (Batch.months startDate endDate !! i); simpl in H; [|discriminate].
  injection H as <-. auto.
Qed.

(** ** Allocation *)

(** C2.  In the single-bill path and in the batch path the rate per line is
    exactly 0 whenever the participants' lines add up to zero, whatever the
    total cost and the extra costs; and the quotient by the line count is
    guarded: neither handler ever takes a quotient by zero, on any input. *)
Theorem costPerLine_guarded :
  (forall st : Input.State,
      exists data,
        Input.handleCalculate st = Some data /\
        (Input.totalLines st = 0 -> ResultData.costPerLine data = 0%Q))
  /\
  (forall (st : Batch.State) (clock : nat -> Z) (store : BillStore),
      (exists out, Batch.handleBatchCreate st clock store = Some out) /\
      (Batch.totalLines st = 0 ->
       Batch.costPerLine st = Some 0%Q /\
       forall n store',
         Batch.handleBatchCreate st clock store = Some (Batch.Created n, store') ->
         exists newBills,
           store' = Some (readBills store ++ newBills) /\
           length newBills = n /\
           forall bill, bill ∈ newBills -> ResultData.costPerLine bill = 0%Q)).
Proof.
  split.
  - intros st. eexists. split; [apply handleCalculate_eq|].
    intros H. simpl. unfold guardedRate. rewrite H. reflexivity.
  - intros st clock store. split.
    + rewrite handleBatchCreate_eq. eauto.
    + intros H0. split.
      * rewrite Batch_costPerLine_eq. unfold guardedRate. rewrite H0. reflexivity.
      * intros n store' H.
        apply handleBatchCreate_created in H as (s & e & _ & _ & Hn & Hs).
        eexists. split; [exact Hs|]. split; [symmetry; exact Hn|].
        intros bill Hb. apply newBills_costPerLine in Hb as [-> _].
        unfold guardedRate. rewrite H0. reflexivity.
Qed.

(** C9.  A bill computed by the single-bill path stores the extra cost 0 for
    every family whose extra service is switched off (a blank or unreadable
    amount is stored as 0 as well), so that the totals shown on the result
    screen and summed by the period summary, which add the stored extra cost
    without looking at the switch, are the totals of the allocation of
    section 4.1; saving the bill keeps its families and its rate. *)
Theorem handleCalculate_disabled_extra_is_zero (st : Input.State) :
  exists data,
    Input.handleCalculate st = Some data /\
    ResultData.families data = map Input.parseFamily (Input.familiesInBill st) /\
    (forall f, f ∈ Input.familiesInBill st ->
      (ExtraServiceInput.hasService (FamilyInBill.extraService f) = false \/
       Text.parseFloat (ExtraServiceInput.cost (FamilyInBill.extraService f)) = None) ->
      ExtraService.cost (FamilyData.extraService (Input.parseFamily f)) = 0%Q) /\
    (forall family, family ∈ ResultData.families data ->
      (ExtraService.hasService (FamilyData.extraService family) = false ->
       ExtraService.cost (FamilyData.extraService family) = 0%Q) /\
      Result.familyTotalCost data family
        = Spec.perFamilyTotal (ResultData.costPerLine data) family /\
      Home.familyTotalCost data family
        = Spec.perFamilyTotal (ResultData.costPerLine data) family) /\
    (forall (now : Z) (store : BillStore),
      exists saved,
        saved ∈ readBills (Result.handleSaveBill now data store) /\
        ResultData.costPerLine saved = ResultData.costPerLine data /\
        ResultData.families saved = ResultData.families data).
Proof.
  eexists. split; [apply handleCalculate_eq|]. split; [reflexivity|]. split; [|split].
  - intros f _ H. unfold Input.parseFamily. simpl.
    destruct (ExtraServiceInput.hasService (FamilyInBill.extraService f)); [|reflexivity].
    destruct H as [H|H]; [discriminate|]. rewrite H. reflexivity.
  - intros family Hin. simpl in Hin.
    unfold Input.familiesWithParsedNumbers in Hin.
    apply list_elem_of_fmap in Hin as (f & -> & _).
    unfold Result.familyTotalCost, Result.familyLineCost, Home.familyTotalCost,
      Spec.perFamilyTotal, Input.parseFamily. simpl.
    destruct (ExtraServiceInput.hasService (FamilyInBill.extraService f));
      split; (discriminate || auto).
  - intros now store.
    destruct (handleSaveBill_stores now
                (ResultData.mk (Input.editingBillId st)
                   (match Input.billDate st with
                    | Some d => formatBillMonth (Some d)
                    | None => "N/A"
                    end)
                   (Input.parsedTotalCost st)
                   (guardedRate (Input.totalLineCost st) (Input.totalLines st))
                   (Input.familiesWithParsedNumbers st)) store)
      as (saved & Hin & _ & _ & Hr & Hf).
    exists saved. auto.
Qed.

Lemma Input_totalLines_sumLines (st : Input.State) :
  Input.totalLines st = sumLines (Input.familiesWithParsedNumbers st).
Proof. reflexivity. Qed.

Lemma Batch_totalLines_sumLines (st : Batch.State) :
  Batch.totalLines st = sumLines (Batch.familiesForBill st).
Proof. reflexivity. Qed.

(** C1, amended.  When the participants' lines add up to a positive count,
    the per-family totals of a computed bill, taken as the summary takes
    them (lines times rate plus the stored extra cost), add up to the line
    cost the calculation used (total cost minus the extra costs it counted)
    plus the stored extra costs; in the single-bill path and for every bill
    of a batch.  Amounts are exact rationals. *)
Theorem allocation_total_preserving :
  (forall st : Input.State,
      0 < Input.totalLines st ->
      exists data,
        Input.handleCalculate st = Some data /\
        (Qsum (map (Home.familyTotalCost data) (ResultData.families data))
         == Input.totalLineCost st + Qsum (map extraCostOf (ResultData.families data)))%Q)
  /\
  (forall st : Batch.State,
      0 < Batch.totalLines st ->
      exists rate,
        Batch.costPerLine st = Some rate /\
        forall (now : Z) (currentDate : Date),
          let bill := Batch.newBill st rate now currentDate in
          (Qsum (map (Home.familyTotalCost bill) (ResultData.families bill))
           == Batch.totalLineCost st + Qsum (map extraCostOf (ResultData.families bill)))%Q).
Proof.
  split.
  - intros st Hpos. eexists. split; [apply handleCalculate_eq|]. simpl.
    unfold guardedRate. destruct (Z.ltb_spec 0 (Input.totalLines st)); [|lia].
    rewrite Input_totalLines_sumLines in *.
    apply (Qsum_allocation (Input.totalLineCost st)). lia.
  - intros st Hpos. eexists. split; [apply Batch_costPerLine_eq|].
    intros now currentDate. simpl.
    unfold guardedRate. destruct (Z.ltb_spec 0 (Batch.totalLines st)); [|lia].
    rewrite Batch_totalLines_sumLines in *.
    apply (Qsum_allocation (Batch.totalLineCost st)). lia.
Qed.

(** C1 as stated fails when there is no line to charge: the rate is then 0
    and the line cost is allocated to nobody.  Total cost 100, one family
    with 0 lines and no extra service: the totals add up to 0, not 100. *)
Lemma allocation_loses_line_cost_without_lines :
  let st := Input.mkState "100"
              [FamilyInBill.mk 1 "A" "0" (ExtraServiceInput.mk false "")]
              (Some (newDate 2024 0 15)) None in
  exists data,
    Input.handleCalculate st = Some data /\
    (Qsum (map (Home.familyTotalCost data) (ResultData.families data)) == 0)%Q /\
    (Input.totalLineCost st + Qsum (map extraCostOf (ResultData.families data)) == 100)%Q /\
    ~ (Qsum (map (Home.familyTotalCost data) (ResultData.families data))
       == Input.totalLineCost st + Qsum (map extraCostOf (ResultData.families data)))%Q.
Proof.
  intros st. eexists. split; [apply handleCalculate_eq|].
  split; [reflexivity|]. split; [reflexivity|].
  vm_compute. discriminate.
Qed.

Lemma allocation_total_preserving_witness :
  let st := Input.mkState "300"
              [FamilyInBill.mk 1 "A" "2" (ExtraServiceInput.mk false "0");
               FamilyInBill.mk 2 "B" "1" (ExtraServiceInput.mk true "30")]
              (Some (newDate 2024 0 15)) None in
  let bst := Batch.mkState
               [SavedFamily.mk 1 "A" [Member.mk 1 "a"; Member.mk 2 "b"];
                SavedFamily.mk 2 "B" [Member.mk 3 "c"]]
               {[1; 2]} {[2 := "30"]} "300"
               (Some (newDate 2024 0 1)) (Some (newDate 2024 2 1)) in
  (0 < Input.totalLines st /\
   exists data,
     Input.handleCalculate st = Some data /\
     (Qsum (map (Home.familyTotalCost data) (ResultData.families data))
      == Input.totalLineCost st + Qsum (map extraCostOf (ResultData.families data)))%Q)
  /\
  (0 < Batch.totalLines bst /\
   exists rate,
     Batch.costPerLine bst = Some rate /\
     forall (now : Z) (currentDate : Date),
       let bill := Batch.newBill bst rate now currentDate in
       (Qsum (map (Home.familyTotalCost bill) (ResultData.families bill))
        == Batch.totalLineCost bst + Qsum (map extraCostOf (ResultData.families bill)))%Q).
Proof.
  intros st bst. destruct allocation_total_preserving as [H1 H2].
  split.
  - assert (0 < Input.totalLines st) as Hpos by (vm_compute; reflexivity).
    split; [exact Hpos | exact (H1 st Hpos)].
  - assert (0 < Batch.totalLines bst) as Hpos by (vm_compute; reflexivity).
    split; [exact Hpos | exact (H2 bst Hpos)].
Defined.

Lemma costPerLine_guarded_witness :
  let st := Input.mkState "100"
              [FamilyInBill.mk 1 "A" "0" (ExtraServiceInput.mk true "20")]
              (Some (newDate 2024 0 15)) None in
  let bst := Batch.mkState [SavedFamily.mk 1 "A" []] {[1]} ∅ "100"
               (Some (newDate 2024 0 1)) (Some (newDate 2024 0 1)) in
  (Input.totalLines st = 0 /\
   exists data,
     Input.handleCalculate st = Some data /\ ResultData.costPerLine data = 0%Q)
  /\
  (Batch.totalLines bst = 0 /\
   Batch.costPerLine bst = Some 0%Q /\
   exists newBills,
     Batch.handleBatchCreate bst (fun _ => 1700000000000) None
       = Some (Batch.Created 1, Some newBills) /\
     forall bill, bill ∈ newBills -> ResultData.costPerLine bill = 0%Q).
Proof.
  intros st bst. destruct costPerLine_guarded as [H1 H2].
  split.
  - assert (Input.totalLines st = 0) as H0 by reflexivity.
    split; [exact H0|].
    destruct (H1 st) as (data & Hd & Hz). exists data. auto.
  - assert (Batch.totalLines bst = 0) as H0 by reflexivity.
    destruct (H2 bst (fun _ => 1700000000000) None) as [_ Hz].
    destruct (Hz H0) as [Hr Hb].
    split; [exact H0|]. split; [exact Hr|].
    assert (exists store', Batch.handleBatchCreate bst (fun _ => 1700000000000) None
              = Some (Batch.Created 1, store')) as [store' Hrun].
    { eexists. vm_compute. reflexivity. }
    destruct (Hb _ _ Hrun) as (newBills & -> & _ & Hall).
    exists newBills. auto.
Defined.

Lemma handleCalculate_disabled_extra_is_zero_witness :
  let st := Input.mkState "300"
              [FamilyInBill.mk 1 "A" "2" (ExtraServiceInput.mk false "45");
               FamilyInBill.mk 2 "B" "1" (ExtraServiceInput.mk true "30")]
              (Some (newDate 2024 0 15)) None in
  exists data family,
    Input.handleCalculate st = Some data /\
    family ∈ ResultData.families data /\
    FamilyData.id family = 1 /\
    ExtraService.hasService (FamilyData.extraService family) = false /\
    ExtraService.cost (FamilyData.extraService family) = 0%Q /\
    Home.familyTotalCost data family
      = Spec.perFamilyTotal (ResultData.costPerLine data) family.
Proof.
  intros st.
  destruct (handleCalculate_disabled_extra_is_zero st) as (data & Hd & Hall).
  pose proof Hd as Hd'. rewrite handleCalculate_eq in Hd'. injection Hd' as Hd'.
  set (family := Input.parseFamily (FamilyInBill.mk 1 "A" "2" (ExtraServiceInput.mk false "45"))).
  assert (family ∈ ResultData.families data) as Hin.
  { rewrite <- Hd'. simpl. left. }
  destruct Hall as (_ & _ & Hall & _).
  destruct (Hall family Hin) as (Hz & _ & Ht).
  exists data, family. repeat split; auto.
Defined.

(** ** Batch creation *)

(** A range that starts and ends at the same instant has one month. *)
Lemma months_single (d : Date) : Batch.months d d = [d].
Proof.
  rewrite months_unfold, Z.leb_refl. f_equal.
  rewrite months_unfold.
  pose proof (setMonth_next_advances d) as H. unfold Calendar.msPerDay in H.
  destruct (Z.leb_spec (getTime (setMonth d (getMonth d + 1))) (getTime d)); [lia | reflexivity].
Qed.

(** From the first of January to the first of March: three months. *)
Lemma months_january_to_march :
  map (fun d => formatBillMonth (Some d))
    (Batch.months (newDate 2024 0 1) (newDate 2024 2 1))
  = ["2024年 01月"; "2024年 02月"; "2024年 03月"].
Proof. vm_compute. reflexivity. Qed.

Lemma newBills_billMonth (st : Batch.State) (rate : Q) (clock : nat -> Z)
    (startDate endDate : Date) :
  map ResultData.billMonth (Batch.newBills st rate clock startDate endDate)
  = map (fun d => formatBillMonth (Some d)) (Batch.months startDate endDate).
Proof.
  unfold Batch.newBills. generalize (Batch.months startDate endDate) as l.
  intros l. revert clock. induction l as [|d l IH]; intros clock; [reflexivity|].
  simpl. f_equal. apply (IH (fun i => clock (S i))).
Qed.

(** What the code does when the day of the month plays no part: from a day
    that every month has, to an end that is not earlier in its month, a
    successful run creates one bill for every calendar month from the
    start's to the end's, in order, all at the same rate. *)
Lemma handleBatchCreate_one_bill_per_month (st : Batch.State) (clock : nat -> Z)
    (store store' : BillStore) (n : nat) (startDate endDate : Date) :
  Batch.startDate st = Some startDate -> Batch.endDate st = Some endDate ->
  getDate startDate <= 28 -> notLaterInMonth startDate endDate ->
  Batch.handleBatchCreate st clock store = Some (Batch.Created n, store') ->
  exists newBills,
    store' = Some (readBills store ++ newBills) /\
    length newBills = n /\
    map ResultData.billMonth newBills
    = map monthToken
        (seqZ (monthIndex startDate) (monthIndex endDate - monthIndex startDate + 1)) /\
    forall bill, bill ∈ newBills ->
      ResultData.costPerLine bill
      = guardedRate (Batch.totalLineCost st) (Batch.totalLines st).
Proof.
  intros Hs He Hd Hpos Hrun.
  apply handleBatchCreate_created in Hrun as (s & e & Hs' & He' & Hn & Hst).
  assert (s = startDate) as -> by congruence. assert (e = endDate) as -> by congruence.
  eexists. split; [exact Hst|]. split; [symmetry; exact Hn|]. split.
  - rewrite newBills_billMonth. by apply months_aligned.
  - intros bill Hb. by apply newBills_costPerLine in Hb as [-> _].
Qed.

(** From 15 January to 10 March: the loop stops at 15 March, which is
    after the end, and March gets no bill. *)
Lemma months_end_earlier_in_month :
  map (fun d => formatBillMonth (Some d))
    (Batch.months (newDate 2024 0 15) (newDate 2024 2 10))
  = ["2024年 01月"; "2024年 02月"].
Proof. vm_compute. reflexivity. Qed.

(** C3 at an input on which the code misses a month.  From 31 January 2024
    to 31 March 2024, [setMonth] turns 31 January into "31 February", which
    is 2 March: the run creates two bills, for January and for March, and
    none for February. *)
Theorem handleBatchCreate_skips_february (clock : nat -> Z) (store : BillStore) :
  let st := Batch.mkState
              [SavedFamily.mk 1 "A" [Member.mk 1 "a"; Member.mk 2 "b"];
               SavedFamily.mk 2 "B" [Member.mk 3 "c"]]
              {[1; 2]} {[2 := "30"]} "300"
              (Some (newDate 2024 0 31)) (Some (newDate 2024 2 31)) in
  exists bill1 bill2,
    Batch.handleBatchCreate st clock store
      = Some (Batch.Created 2, Some (readBills store ++ [bill1; bill2])) /\
    ResultData.billMonth bill1 = "2024年 01月" /\
    ResultData.billMonth bill2 = "2024年 03月".
Proof.
  intros st. rewrite handleBatchCreate_eq.
  assert (Batch.months (newDate 2024 0 31) (newDate 2024 2 31)
          = [newDate 2024 0 31; newDate 2024 2 2]) as Hm by (vm_compute; reflexivity).
  cbn [Batch.startDate Batch.endDate st].
  assert (orb (bool_decide (size (Batch.selectedFamilyIds st) = 0%nat))
            (Text.falsy (Batch.totalCost st)) = false) as -> by (vm_compute; reflexivity).
  assert ((getTime (newDate 2024 2 31) <? getTime (newDate 2024 0 31)) = false) as ->
    by (vm_compute; reflexivity).
  destruct (Qlt_le_dec (Batch.totalLineCost st) 0) as [Hlt|_].
  { exfalso. revert Hlt. vm_compute. discriminate. }
  unfold Batch.newBills. rewrite Hm. cbn [imap length].
  do 2 eexists. split; [reflexivity|]. split; vm_compute; reflexivity.
Qed.

Lemma falsy_empty (s : string) : Text.falsy s = true <-> s = "".
Proof. destruct s; simpl; split; congruence. Qed.





(** Batch creation looks at the text of the total cost twice only: whether
    it is empty, and the number read from it. *)
Lemma handleBatchCreate_totalCost_ext (st : Batch.State) (text : string)
    (clock : nat -> Z) (store : BillStore) :
  Text.falsy text = Text.falsy (Batch.totalCost st) ->
  Text.orZeroQ (Text.parseFloat text) = Batch.parsedTotalCost st ->
  Batch.handleBatchCreate (Batch.setTotalCost text st) clock store
  = Batch.handleBatchCreate st clock store.
Proof.
  intros Hf Hp. rewrite !handleBatchCreate_eq. f_equal.
  assert (Batch.parsedTotalCost (Batch.setTotalCost text st) = Batch.parsedTotalCost st)
    as Hp' by exact Hp.
  assert (Batch.totalLineCost (Batch.setTotalCost text st) = Batch.totalLineCost st) as Hl.
  { unfold Batch.totalLineCost. rewrite Hp'. reflexivity. }
  assert (forall rate s e,
             Batch.newBills (Batch.setTotalCost text st) rate clock s e
             = Batch.newBills st rate clock s e) as Hn.
  { intros rate s e. unfold Batch.newBills, Batch.newBill. rewrite Hp'. reflexivity. }
  cbn [Batch.setTotalCost Batch.startDate Batch.endDate Batch.selectedFamilyIds Batch.totalCost].
  rewrite Hf.
  destruct (Batch.startDate st), (Batch.endDate st); try reflexivity.
  fold (Batch.setTotalCost text st). rewrite Hl, Hn. reflexivity.
Qed.

(** C7, amended.  Batch creation checks, before creating any bill, that the
    total cost is filled in: an empty field is rejected and nothing is
    stored.  A text that is not empty and does not read as a number (for
    which [parseFloat] gives [NaN]: no decimal literal and no [Infinity]
    follows the leading white space) is not rejected; it counts as 0, and
    the run goes as if "0" had been typed. *)
Theorem handleBatchCreate_checks_totalCost_filled (st : Batch.State)
    (clock : nat -> Z) (store : BillStore) :
  (Batch.totalCost st = "" ->
   Batch.handleBatchCreate st clock store = Some (Batch.Incomplete, store))
  /\
  (Batch.totalCost st <> "" ->
   Text.parseFloat (Batch.totalCost st) = None ->
   Text.infinity (Batch.totalCost st) = None ->
   Batch.parsedTotalCost st = 0%Q /\
   Batch.handleBatchCreate st clock store
   = Batch.handleBatchCreate (Batch.setTotalCost "0" st) clock store).
Proof.
  split.
  - intros H. rewrite handleBatchCreate_eq, H. simpl. rewrite orb_true_r.
    destruct (Batch.startDate st), (Batch.endDate st); reflexivity.
  - intros Hne Hnan _.
    assert (Batch.parsedTotalCost st = 0%Q) as Hz.
    { unfold Batch.parsedTotalCost. rewrite Hnan. reflexivity. }
    split; [exact Hz|]. symmetry. apply handleBatchCreate_totalCost_ext.
    + destruct (Batch.totalCost st); [congruence | reflexivity].
    + rewrite Hz. reflexivity.
Qed.

(** C7 as stated fails: with the total cost "abc", which is not a number, a
    bill is created all the same, with total cost 0. *)
Lemma handleBatchCreate_accepts_unparseable_totalCost :
  let st := Batch.mkState [SavedFamily.mk 1 "A" [Member.mk 1 "a"]] {[1]} ∅ "abc"
              (Some (newDate 2024 0 1)) (Some (newDate 2024 0 1)) in
  Text.parseFloat (Batch.totalCost st) = None /\
  Text.infinity (Batch.totalCost st) = None /\
  Batch.handleBatchCreate st (fun _ => 1700000000000) None
  = Some (Batch.Created 1,
          Some [ResultData.mk (Some 3404067200000) "2024年 01月" 0 0
                  [FamilyData.mk 1 "A" 1 (ExtraService.mk false 0)]]).
Proof. split; [|split]; vm_compute; reflexivity. Qed.

Lemma handleBatchCreate_checks_totalCost_filled_witness :
  let blank := Batch.mkState [SavedFamily.mk 1 "A" [Member.mk 1 "a"]] {[1]} ∅ ""
                 (Some (newDate 2024 0 1)) (Some (newDate 2024 0 1)) in
  let st := Batch.setTotalCost "abc" blank in
  let clock := fun _ : nat => 1700000000000 in
  (Batch.totalCost blank = "" /\
   Batch.handleBatchCreate blank clock None = Some (Batch.Incomplete, None))
  /\
  (Batch.totalCost st <> "" /\
   Text.parseFloat (Batch.totalCost st) = None /\
   Text.infinity (Batch.totalCost st) = None /\
   Batch.parsedTotalCost st = 0%Q /\
   Batch.handleBatchCreate st clock None
   = Batch.handleBatchCreate (Batch.setTotalCost "0" st) clock None).
Proof.
  intros blank st clock. split.
  - split; [reflexivity|].
    apply (proj1 (handleBatchCreate_checks_totalCost_filled blank clock None)).
    reflexivity.
  - assert (Batch.totalCost st <> "") as Hne by discriminate.
    assert (Text.parseFloat (Batch.totalCost st) = None) as Hnan by reflexivity.
    assert (Text.infinity (Batch.totalCost st) = None) as Hfin by reflexivity.
    split; [exact Hne|]. split; [exact Hnan|]. split; [exact Hfin|].
    exact (proj2 (handleBatchCreate_checks_totalCost_filled st clock None) Hne Hnan Hfin).
Defined.

(** Within one run the identifiers grow strictly, as long as the clock does
    not run backwards. *)
Lemma newBills_ids_NoDup (st : Batch.State) (rate : Q) (clock : nat -> Z)
    (startDate endDate : Date) :
  monotone clock ->
  NoDup (map ResultData.id (Batch.newBills st rate clock startDate endDate)).
Proof.
  intros Hmono. apply NoDup_alt. intros i j x Hi Hj.
  unfold Batch.newBills, Batch.months in *.
  rewrite list_lookup_fmap, list_lookup_imap in Hi, Hj.
  destruct (Batch.monthsLoop _ _ _ !! i) as [di|] eqn:Ei; [|discriminate].
  destruct (Batch.monthsLoop _ _ _ !! j) as [dj|] eqn:Ej; [|discriminate].
  simpl in Hi, Hj. rewrite <- Hi in Hj. injection Hj as Hj.
  destruct (Nat.lt_trichotomy i j) as [Hlt|[Heq|Hgt]]; [|exact Heq|]; exfalso.
  - pose proof (monthsLoop_lookup_lt _ _ _ _ _ _ _ Hlt Ei Ej).
    pose proof (Hmono i j ltac:(lia)). lia.
  - pose proof (monthsLoop_lookup_lt _ _ _ _ _ _ _ Hgt Ej Ei).
    pose proof (Hmono j i ltac:(lia)). lia.
Qed.

(** C8, amended.  The identifiers of the bills created by one run are
    pairwise distinct provided the clock does not run backwards during the
    run.  They are not compared with the identifiers already in the store:
    the stored identifiers are pairwise distinct after the run exactly when
    they were before and none of them is one of the new identifiers. *)
Theorem handleBatchCreate_ids_distinct_within_run (st : Batch.State)
    (clock : nat -> Z) (store store' : BillStore) (n : nat) :
  monotone clock ->
  Batch.handleBatchCreate st clock store = Some (Batch.Created n, store') ->
  exists newBills,
    store' = Some (readBills store ++ newBills) /\
    length newBills = n /\
    NoDup (map ResultData.id newBills) /\
    (NoDup (map ResultData.id (readBills store ++ newBills)) <->
     NoDup (map ResultData.id (readBills store)) /\
     forall i, i ∈ map ResultData.id (readBills store) ->
               i ∉ map ResultData.id newBills).
Proof.
  intros Hmono Hrun.
  apply handleBatchCreate_created in Hrun as (s & e & _ & _ & Hn & Hs).
  eexists. split; [exact Hs|]. split; [symmetry; exact Hn|].
  pose proof (newBills_ids_NoDup st
                (guardedRate (Batch.totalLineCost st) (Batch.totalLines st))
                clock s e Hmono) as Hnd.
  split; [exact Hnd|].
  rewrite map_app, NoDup_app. tauto.
Qed.

(** C8 as stated fails.  A run on 14 November 2023 creates the bill of
    February 2024; a second run exactly 31 days later creates the bill of
    January 2024 under the same identifier. *)
Lemma handleBatchCreate_id_collides_with_stored :
  let run month now store :=
    Batch.handleBatchCreate
      (Batch.mkState [SavedFamily.mk 1 "A" [Member.mk 1 "a"]] {[1]} ∅ "100"
         (Some (newDate 2024 month 1)) (Some (newDate 2024 month 1)))
      (fun _ => now) store in
  let families := [FamilyData.mk 1 "A" 1 (ExtraService.mk false 0)] in
  let february := ResultData.mk (Some 3406745600000) "2024年 02月" 100 (100 # 1) families in
  let january := ResultData.mk (Some 3406745600000) "2024年 01月" 100 (100 # 1) families in
  run 1 1700000000000 None = Some (Batch.Created 1, Some [february]) /\
  NoDup (map ResultData.id [february]) /\
  run 0 (1700000000000 + 31 * Calendar.msPerDay) (Some [february])
    = Some (Batch.Created 1, Some [february; january]) /\
  ~ NoDup (map ResultData.id [february; january]).
Proof.
  intros run families february january.
  split; [vm_compute; reflexivity|].
  split; [apply NoDup_singleton|].
  split; [vm_compute; reflexivity|].
  intros H. apply NoDup_cons in H as [H _]. apply H. left.
Qed.

Lemma handleBatchCreate_ids_distinct_within_run_witness :
  let st := Batch.mkState
              [SavedFamily.mk 1 "A" [Member.mk 1 "a"; Member.mk 2 "b"];
               SavedFamily.mk 2 "B" [Member.mk 3 "c"]]
              {[1; 2]} {[2 := "30"]} "300"
              (Some (newDate 2024 0 1)) (Some (newDate 2024 2 1)) in
  let clock := fun i : nat => 1700000000000 + Z.of_nat i in
  let families :=
    [FamilyData.mk 1 "A" 2 (ExtraService.mk false 0);
     FamilyData.mk 2 "B" 1 (ExtraService.mk true 30)] in
  let newBills :=
    [ResultData.mk (Some 3404067200000) "2024年 01月" 300 (270 # 3) families;
     ResultData.mk (Some 3406745600001) "2024年 02月" 300 (270 # 3) families;
     ResultData.mk (Some 3409251200002) "2024年 03月" 300 (270 # 3) families] in
  monotone clock /\
  Batch.handleBatchCreate st clock None = Some (Batch.Created 3, Some newBills) /\
  NoDup (map ResultData.id newBills).
Proof.
  intros st clock families newBills.
  assert (monotone clock) as Hmono by (intros i j Hij; unfold clock; lia).
  assert (Batch.handleBatchCreate st clock None = Some (Batch.Created 3, Some newBills))
    as Hrun by (vm_compute; reflexivity).
  split; [exact Hmono|]. split; [exact Hrun|].
  destruct (handleBatchCreate_ids_distinct_within_run st clock None _ 3 Hmono Hrun)
    as (bills & [= <-] & _ & Hnd & _).
  exact Hnd.
Defined.

(** ** Objects as maps *)
Section JsObjectFacts.
Context {V : Type}.
Implicit Types (o : JsObject.t V) (k : string) (v : V).

Lemma get_set_eq k v o : JsObject.get k (JsObject.set k v o) = Some v.
Proof.
  induction o as [|[k' v'] o IH]; simpl.
  - destruct (decide (k = k)); congruence.
  - destruct (decide (k' = k)) as [->|Hne]; simpl.
    + destruct (decide (k = k)); congruence.
    + destruct (decide (k' = k)); [congruence | exact IH].
Qed.

Lemma get_set_ne k k' v o :
  k <> k' -> JsObject.get k' (JsObject.set k v o) = JsObject.get k' o.
Proof.
  intros Hne. induction o as [|[k0 v0] o IH]; simpl.
  - destruct (decide (k = k')); congruence.
  - destruct (decide (k0 = k)) as [->|Hne0]; simpl.
    + destruct (decide (k = k')); congruence.
    + destruct (decide (k0 = k')); [reflexivity | exact IH].
Qed.

Lemma get_Some_elem k v o : JsObject.get k o = Some v -> k ∈ map fst o.
Proof.
  induction o as [|[k' v'] o IH]; simpl; [discriminate|].
  destruct (decide (k' = k)) as [->|Hne]; intros H.
  - left.
  - right. auto.
Qed.

Lemma get_None_elem k o : JsObject.get k o = None -> k ∉ map fst o.
Proof.
  induction o as [|[k' v'] o IH]; simpl.
  - intros _ H. inversion H.
  - destruct (decide (k' = k)) as [->|Hne]; [discriminate|].
    intros H Hin. apply IH in H. inversion Hin; subst; congruence.
Qed.

Lemma elem_get_is_Some k o : k ∈ map fst o -> is_Some (JsObject.get k o).
Proof.
  intros Hin. destruct (JsObject.get k o) eqn:E; [eauto|].
  apply get_None_elem in E. contradiction.
Qed.

Lemma set_keys k v o :
  map fst (JsObject.set k v o)
  = match JsObject.get k o with
    | Some _ => map fst o
    | None => map fst o ++ [k]
    end.
Proof.
  induction o as [|[k' v'] o IH]; simpl; [reflexivity|].
  destruct (decide (k' = k)) as [->|Hne]; simpl; [reflexivity|].
  rewrite IH. destruct (JsObject.get k o); reflexivity.
Qed.

Lemma set_keys_NoDup k v o :
  NoDup (map fst o) -> NoDup (map fst (JsObject.set k v o)).
Proof.
  intros Hnd. rewrite set_keys. destruct (JsObject.get k o) eqn:E; [assumption|].
  apply NoDup_app. split; [assumption|]. split.
  - intros x Hx Hk. apply list_elem_of_singleton in Hk. subst x.
    apply get_None_elem in E. contradiction.
  - apply NoDup_singleton.
Qed.

Lemma keys_Permutation o : JsObject.keys o ≡ₚ map fst o.
Proof.
  unfold JsObject.keys. rewrite merge_sort_Permutation.
  induction (map fst o) as [|k ks IH]; [reflexivity|].
  rewrite !filter_cons.
  destruct (decide (is_Some (JsObject.arrayIndex k))); simpl.
  - rewrite decide_False by tauto. simpl. by rewrite IH.
  - rewrite decide_True by tauto.
    rewrite <- Permutation_middle. by rewrite IH.
Qed.
End JsObjectFacts.

(** ** The summary object *)

Lemma set_set {V : Type} (k : string) (v v' : V) (o : JsObject.t V) :
  JsObject.set k v (JsObject.set k v' o) = JsObject.set k v o.
Proof.
  induction o as [|[k0 v0] o IH]; simpl.
  - rewrite decide_True by reflexivity. reflexivity.
  - destruct (decide (k0 = k)) as [->|Hne]; simpl.
    + rewrite decide_True by reflexivity. reflexivity.
    + rewrite decide_False by assumption. f_equal. exact IH.
Qed.

(** The body of the loop on an object none of whose own keys is inherited:
    it throws exactly under an inherited name. *)
Lemma addFamily_eq (bill : ResultData.t) (summary : JsObject.t Home.Totals.t)
    (family : FamilyData.t) :
  (forall k, k ∈ map fst summary -> JsObject.inherited k = false) ->
  Home.addFamily bill summary family
  = if throwsOn (bill, family) then None
    else Some (addParticipation summary (bill, family)).
Proof.
  intros Hinv. unfold Home.addFamily, addParticipation, throwsOn, JsObject.lookup.
  cbv zeta. cbn [fst snd].
  destruct (JsObject.get (Home.familyName family) summary) as [e|] eqn:E.
  - pose proof (Hinv _ (get_Some_elem _ _ _ E)) as Hn.
    rewrite E, Hn. reflexivity.
  - destruct (JsObject.inherited (Home.familyName family)) eqn:I.
    + rewrite E. reflexivity.
    + rewrite get_set_eq, set_set. reflexivity.
Qed.

Lemma addParticipation_keys_in (summary : JsObject.t Home.Totals.t)
    (p : ResultData.t * FamilyData.t) (k : string) :
  k ∈ map fst (addParticipation summary p) ->
  k ∈ map fst summary \/ k = Home.familyName p.2.
Proof.
  unfold addParticipation. rewrite set_keys.
  destruct (JsObject.get _ summary); [tauto|].
  rewrite elem_of_app, list_elem_of_singleton. tauto.
Qed.

Lemma fold_addParticipationOrThrow_None (ps : list (ResultData.t * FamilyData.t)) :
  fold_left addParticipationOrThrow ps None = None.
Proof. induction ps as [|p ps IH]; [reflexivity | exact IH]. Qed.

Lemma fold_addParticipationOrThrow (ps : list (ResultData.t * FamilyData.t))
    (summary : JsObject.t Home.Totals.t) :
  (forall k, k ∈ map fst summary -> JsObject.inherited k = false) ->
  fold_left addParticipationOrThrow ps (Some summary)
  = if existsb throwsOn ps then None
    else Some (fold_left addParticipation ps summary).
Proof.
  revert summary. induction ps as [|[bill family] ps IH]; intros summary Hinv;
    [reflexivity|].
  cbn [fold_left existsb]. unfold addParticipationOrThrow at 2. cbn [mbind option_bind fst snd].
  rewrite addFamily_eq by assumption.
  destruct (throwsOn (bill, family)) eqn:T.
  - apply fold_addParticipationOrThrow_None.
  - cbn [orb]. apply IH. intros k Hk.
    apply addParticipation_keys_in in Hk as [Hk| ->]; [by apply Hinv | exact T].
Qed.

Lemma addBill_participations (bill : ResultData.t)
    (acc : option (JsObject.t Home.Totals.t)) :
  (summary ← acc; Home.addBill summary bill)
  = fold_left addParticipationOrThrow (map (pair bill) (ResultData.families bill)) acc.
Proof.
  destruct acc as [summary|]; cbn [mbind option_bind].
  - unfold Home.addBill. generalize (Some summary) as acc.
    induction (ResultData.families bill) as [|f fs IH]; intros acc; [reflexivity|].
    cbn [fold_left map]. apply IH.
  - symmetry. apply fold_addParticipationOrThrow_None.
Qed.

Lemma summarize_participations (bills : list ResultData.t) :
  Home.summarize bills = fold_left addParticipationOrThrow (participations bills) (Some []).
Proof.
  unfold Home.summarize, participations.
  generalize (Some (@nil (string * Home.Totals.t))) as acc.
  induction bills as [|bill bills IH]; intros acc; [reflexivity|].
  cbn [fold_left flat_map]. rewrite fold_left_app, <- addBill_participations. apply IH.
Qed.

(** The summary throws exactly when a participation carries an inherited
    name; otherwise it builds the summary object. *)
Lemma summarize_eq (bills : list ResultData.t) :
  Home.summarize bills
  = if existsb throwsOn (participations bills) then None
    else Some (summaryObject bills).
Proof.
  rewrite summarize_participations. apply fold_addParticipationOrThrow.
  intros k Hk. inversion Hk.
Qed.

Lemma addParticipation_get (summary : JsObject.t Home.Totals.t)
    (p : ResultData.t * FamilyData.t) (key : string) :
  JsObject.get key (addParticipation summary p)
  = if decide (Home.familyName p.2 = key)
    then Some (addContribution (default Home.Totals.empty (JsObject.get key summary)) p)
    else JsObject.get key summary.
Proof.
  unfold addParticipation.
  destruct (decide (Home.familyName p.2 = key)) as [<-|Hne].
  - apply get_set_eq.
  - by apply get_set_ne.
Qed.

Lemma addParticipation_keys_NoDup (summary : JsObject.t Home.Totals.t)
    (p : ResultData.t * FamilyData.t) :
  NoDup (map fst summary) -> NoDup (map fst (addParticipation summary p)).
Proof. intros H. unfold addParticipation. by apply set_keys_NoDup. Qed.

Lemma fold_addParticipation_get (ps : list (ResultData.t * FamilyData.t))
    (summary : JsObject.t Home.Totals.t) (key : string) :
  JsObject.get key (fold_left addParticipation ps summary)
  = match filedUnder key ps with
    | [] => JsObject.get key summary
    | mine =>
        Some (fold_left addContribution mine
                (default Home.Totals.empty (JsObject.get key summary)))
    end.
Proof.
  revert summary. induction ps as [|p ps IH]; intros summary; [reflexivity|].
  simpl. rewrite IH, addParticipation_get. unfold filedUnder. rewrite filter_cons.
  destruct (decide (Home.familyName p.2 = key)) as [Hk|Hk]; simpl.
  - destruct (filter _ ps); reflexivity.
  - reflexivity.
Qed.

Lemma fold_addParticipation_keys_NoDup (ps : list (ResultData.t * FamilyData.t))
    (summary : JsObject.t Home.Totals.t) :
  NoDup (map fst summary) -> NoDup (map fst (fold_left addParticipation ps summary)).
Proof.
  revert summary. induction ps as [|p ps IH]; intros summary H; simpl; [assumption|].
  apply IH. by apply addParticipation_keys_NoDup.
Qed.

Lemma fold_addContribution (mine : list (ResultData.t * FamilyData.t)) (e : Home.Totals.t) :
  fold_left addContribution mine e
  = Home.Totals.mk (Home.Totals.extraServiceCost e) (Home.Totals.lines e)
      (Home.Totals.monthlyBill e)
      (fold_left Qplus (map (fun p => Home.Breakdown.cost (contribution p)) mine)
         (Home.Totals.totalCost e))
      (Home.Totals.monthlyBreakdown e ++ map contribution mine).
Proof.
  revert e. induction mine as [|p mine IH]; intros e; simpl.
  - rewrite app_nil_r. destruct e; reflexivity.
  - rewrite IH. simpl. rewrite <- app_assoc. reflexivity.
Qed.

(** The entry of the summary object under a key: absent when no
    participation is filed under it, otherwise the running total and the
    breakdown of the participations filed under it, in order. *)
Lemma summaryObject_get (bills : list ResultData.t) (key : string) :
  JsObject.get key (summaryObject bills)
  = match filedUnder key (participations bills) with
    | [] => None
    | mine =>
        Some (Home.Totals.mk 0%Q 0 0%Q
                (Qsum (map (fun p => Home.Breakdown.cost (contribution p)) mine))
                (map contribution mine))
    end.
Proof.
  unfold summaryObject. rewrite fold_addParticipation_get.
  destruct (filedUnder key (participations bills)) as [|p mine]; [reflexivity|].
  rewrite fold_addContribution. reflexivity.
Qed.

Lemma summaryObject_keys_NoDup (bills : list ResultData.t) :
  NoDup (map fst (summaryObject bills)).
Proof. apply fold_addParticipation_keys_NoDup. constructor. Qed.

(** ** The summary array *)

Lemma summaryArray_elem (summary : JsObject.t Home.Totals.t) (entry : Home.SummaryResult.t) :
  entry ∈ Home.summaryArray summary
  <-> JsObject.get (Home.SummaryResult.name entry) summary
      = Some (Home.SummaryResult.totals entry).
Proof.
  unfold Home.summaryArray. rewrite list_elem_of_omap. split.
  - intros (k & _ & Hk).
    destruct (JsObject.get k summary) as [t|] eqn:E; simpl in Hk; [|discriminate].
    injection Hk as <-. exact E.
  - intros H. exists (Home.SummaryResult.name entry). split.
    + rewrite keys_Permutation. eapply get_Some_elem, H.
    + rewrite H. destruct entry; reflexivity.
Qed.

Lemma summaryArray_names (summary : JsObject.t Home.Totals.t) :
  map Home.SummaryResult.name (Home.summaryArray summary) = JsObject.keys summary.
Proof.
  unfold Home.summaryArray.
  assert (forall k, k ∈ JsObject.keys summary -> is_Some (JsObject.get k summary)) as H.
  { intros k Hk. rewrite keys_Permutation in Hk. by apply elem_get_is_Some. }
  induction (JsObject.keys summary) as [|k ks IH]; [reflexivity|].
  simpl. destruct (H k) as [t Ht]; [left|]. rewrite Ht. simpl. f_equal.
  apply IH. intros k' Hk'. apply H. by right.
Qed.

Lemma summaryArray_names_NoDup (bills : list ResultData.t) :
  NoDup (map Home.SummaryResult.name (Home.summaryArray (summaryObject bills))).
Proof.
  rewrite summaryArray_names, keys_Permutation. apply summaryObject_keys_NoDup.
Qed.

(** A summary is shown for the bills in range, when there are some and no
    participation of theirs carries an inherited name. *)
Lemma handleCalculateSummary_shown (st : Home.State)
    (summaryData : list Home.SummaryResult.t) (dateRange : string) :
  Home.handleCalculateSummary st = Home.Summary summaryData dateRange ->
  summaryData = Home.summaryArray (summaryObject (billsInRange st)) /\
  existsb throwsOn (participations (billsInRange st)) = false.
Proof.
  unfold Home.handleCalculateSummary, billsInRange.
  destruct (Home.startDate st) as [s|], (Home.endDate st) as [e|],
    (Home.allBills st) as [|b bs]; try discriminate.
  destruct (Home.filteredBills _ _ _) as [|b' bs'] eqn:E; [discriminate|].
  rewrite summarize_eq.
  destruct (existsb throwsOn _); [discriminate|].
  intros [= <- _]. split; reflexivity.
Qed.

Lemma handleCalculateSummary_total (st : Home.State) (startDate endDate : Date) :
  Home.startDate st = Some startDate -> Home.endDate st = Some endDate ->
  billsInRange st <> [] ->
  Home.handleCalculateSummary st
  = if existsb throwsOn (participations (billsInRange st)) then Home.Throws
    else
      Home.Summary (Home.summaryArray (summaryObject (billsInRange st)))
        (formatBillMonth (Some startDate) ++ " 至 " ++ formatBillMonth (Some endDate))%string.
Proof.
  unfold Home.handleCalculateSummary, billsInRange. intros -> -> Hne.
  destruct (Home.allBills st) as [|b bs]; [contradiction|].
  destruct (Home.filteredBills _ _ _) as [|b' bs'] eqn:E; [contradiction|].
  rewrite summarize_eq. destruct (existsb throwsOn _); reflexivity.
Qed.


(** The entry that holds a participation. *)
Lemma summary_entry_of (bills : list ResultData.t) (p : ResultData.t * FamilyData.t) :
  p ∈ participations bills ->
  exists entry,
    entry ∈ Home.summaryArray (summaryObject bills) /\
    Home.SummaryResult.name entry = Home.familyName p.2 /\
    contribution p ∈ Home.Totals.monthlyBreakdown (Home.SummaryResult.totals entry).
Proof.
  intros Hp.
  assert (p ∈ filedUnder (Home.familyName p.2) (participations bills)) as Hmine.
  { unfold filedUnder. apply list_elem_of_filter. auto. }
  pose proof (summaryObject_get bills (Home.familyName p.2)) as Hget.
  destruct (filedUnder _ _) as [|q mine] eqn:E; [inversion Hmine|].
  eexists (Home.SummaryResult.mk (Home.familyName p.2) _).
  split; [apply summaryArray_elem; exact Hget|]. split; [reflexivity|].
  simpl. apply (list_elem_of_fmap_2 contribution) in Hmine. exact Hmine.
Qed.

(** What an entry holds. *)
Lemma summary_entry_content (bills : list ResultData.t) (entry : Home.SummaryResult.t) :
  entry ∈ Home.summaryArray (summaryObject bills) ->
  let mine := filedUnder (Home.SummaryResult.name entry) (participations bills) in
  mine <> [] /\
  Home.SummaryResult.totals entry
  = Home.Totals.mk 0%Q 0 0%Q
      (Qsum (map (fun p => Home.Breakdown.cost (contribution p)) mine))
      (map contribution mine).
Proof.
  intros He mine. apply summaryArray_elem in He.
  rewrite summaryObject_get in He. fold mine in He.
  destruct mine; [discriminate|]. injection He as <-. split; [discriminate | reflexivity].
Qed.

Lemma summary_entry_unique (bills : list ResultData.t) (e1 e2 : Home.SummaryResult.t) :
  e1 ∈ Home.summaryArray (summaryObject bills) ->
  e2 ∈ Home.summaryArray (summaryObject bills) ->
  Home.SummaryResult.name e1 = Home.SummaryResult.name e2 -> e1 = e2.
Proof.
  intros H1 H2 Hn. apply summaryArray_elem in H1, H2. rewrite Hn in H1.
  destruct e1, e2; simpl in *. congruence.
Qed.

(** ** The key a family is filed under *)

Lemma familyName_named (family : FamilyData.t) :
  FamilyData.name family <> "" -> Home.familyName family = FamilyData.name family.
Proof.
  unfold Home.familyName. destruct (FamilyData.name family); [congruence | reflexivity].
Qed.

Lemma familyName_unnamed (family : FamilyData.t) :
  FamilyData.name family = "" ->
  Home.familyName family = ("家庭 " ++ pretty (FamilyData.id family))%string.
Proof. unfold Home.familyName. intros ->. reflexivity. Qed.

Lemma familyName_not_empty (family : FamilyData.t) : Home.familyName family <> "".
Proof.
  unfold Home.familyName. destruct (FamilyData.name family) eqn:E; simpl; discriminate.
Qed.

Lemma filedUnder_empty (ps : list (ResultData.t * FamilyData.t)) :
  filedUnder "" ps = [].
Proof.
  unfold filedUnder. induction ps as [|p ps IH]; [reflexivity|].
  rewrite filter_cons, decide_False by apply familyName_not_empty. exact IH.
Qed.

Lemma familyName_unnamed_inj (f1 f2 : FamilyData.t) :
  FamilyData.name f1 = "" -> FamilyData.name f2 = "" ->
  Home.familyName f1 = Home.familyName f2 -> FamilyData.id f1 = FamilyData.id f2.
Proof.
  intros H1 H2. rewrite !familyName_unnamed by assumption.
  intros H. apply (inj (String.app "家庭 ")) in H. by apply (inj pretty) in H.
Qed.

(** ** Period summary *)


(** C10.  A participation whose name is empty is filed under the key made of
    "家庭 " and its identifier, never under the empty name: two unnamed
    participations with different identifiers have different entries, and
    neither entry holds the other's contribution. *)
Theorem unnamed_families_keyed_by_id (st : Home.State)
    (summaryData : list Home.SummaryResult.t) (dateRange : string)
    (p1 p2 : ResultData.t * FamilyData.t) :
  Home.handleCalculateSummary st = Home.Summary summaryData dateRange ->
  p1 ∈ participations (billsInRange st) ->
  p2 ∈ participations (billsInRange st) ->
  FamilyData.name p1.2 = "" -> FamilyData.name p2.2 = "" ->
  FamilyData.id p1.2 <> FamilyData.id p2.2 ->
  (forall entry, entry ∈ summaryData -> Home.SummaryResult.name entry <> "") /\
  exists e1 e2,
    e1 ∈ summaryData /\ e2 ∈ summaryData /\ e1 <> e2 /\
    Home.SummaryResult.name e1 = ("家庭 " ++ pretty (FamilyData.id p1.2))%string /\
    Home.SummaryResult.name e2 = ("家庭 " ++ pretty (FamilyData.id p2.2))%string /\
    contribution p1 ∈ Home.Totals.monthlyBreakdown (Home.SummaryResult.totals e1) /\
    contribution p2 ∈ Home.Totals.monthlyBreakdown (Home.SummaryResult.totals e2) /\
    Home.Totals.monthlyBreakdown (Home.SummaryResult.totals e1)
    = map contribution
        (filedUnder (Home.SummaryResult.name e1) (participations (billsInRange st))) /\
    Home.Totals.monthlyBreakdown (Home.SummaryResult.totals e2)
    = map contribution
        (filedUnder (Home.SummaryResult.name e2) (participations (billsInRange st))) /\
    (p2 ∉ filedUnder (Home.SummaryResult.name e1) (participations (billsInRange st))) /\
    (p1 ∉ filedUnder (Home.SummaryResult.name e2) (participations (billsInRange st))).
Proof.
  intros Hrun Hp1 Hp2 Hn1 Hn2 Hid.
  apply handleCalculateSummary_shown in Hrun as [-> _]. split.
  - intros entry He Hempty.
    destruct (summary_entry_content _ _ He) as [Hmine _]. rewrite Hempty in Hmine.
    apply Hmine, filedUnder_empty.
  - destruct (summary_entry_of _ _ Hp1) as (e1 & He1 & Hk1 & Hc1).
    destruct (summary_entry_of _ _ Hp2) as (e2 & He2 & Hk2 & Hc2).
    assert (Home.familyName p1.2 <> Home.familyName p2.2) as Hkeys.
    { intros H. apply Hid. by apply familyName_unnamed_inj. }
    exists e1, e2. split; [exact He1|]. split; [exact He2|].
    split; [intros ->; congruence|].
    split; [by rewrite Hk1, familyName_unnamed|].
    split; [by rewrite Hk2, familyName_unnamed|].
    split; [exact Hc1|]. split; [exact Hc2|].
    destruct (summary_entry_content _ _ He1) as [_ ->].
    destruct (summary_entry_content _ _ He2) as [_ ->]. simpl.
    split; [reflexivity|]. split; [reflexivity|].
    unfold filedUnder. rewrite !list_elem_of_filter, Hk1, Hk2.
    split; intros [H _]; congruence.
Qed.

(** C6, amended.  When a summary is shown, participations that carry a name
    are grouped by that name and by nothing else: two of them with the same
    name, whatever their identifiers, share one entry, the only entry of that
    name, whose total is the sum of the contributions filed under the name;
    two with different names have different entries, and neither entry holds
    the other's contribution.  (A participation with an empty name is filed
    under a key made from its identifier instead; and no summary is shown,
    the handler throwing, when a participation in range is named like a
    property of [Object.prototype].) *)
Theorem named_families_grouped_by_name (st : Home.State)
    (summaryData : list Home.SummaryResult.t) (dateRange : string)
    (p1 p2 : ResultData.t * FamilyData.t) :
  Home.handleCalculateSummary st = Home.Summary summaryData dateRange ->
  p1 ∈ participations (billsInRange st) ->
  p2 ∈ participations (billsInRange st) ->
  FamilyData.name p1.2 <> "" -> FamilyData.name p2.2 <> "" ->
  exists e1 e2,
    e1 ∈ summaryData /\ e2 ∈ summaryData /\
    Home.SummaryResult.name e1 = FamilyData.name p1.2 /\
    Home.SummaryResult.name e2 = FamilyData.name p2.2 /\
    contribution p1 ∈ Home.Totals.monthlyBreakdown (Home.SummaryResult.totals e1) /\
    contribution p2 ∈ Home.Totals.monthlyBreakdown (Home.SummaryResult.totals e2) /\
    (forall e, e ∈ summaryData ->
               Home.SummaryResult.name e = FamilyData.name p1.2 -> e = e1) /\
    Home.Totals.totalCost (Home.SummaryResult.totals e1)
    = Qsum (map (fun p => Home.Breakdown.cost (contribution p))
              (filedUnder (FamilyData.name p1.2) (participations (billsInRange st)))) /\
    (FamilyData.name p1.2 = FamilyData.name p2.2 -> e1 = e2) /\
    (FamilyData.name p1.2 <> FamilyData.name p2.2 ->
     e1 <> e2 /\
     (p2 ∉ filedUnder (Home.SummaryResult.name e1) (participations (billsInRange st))) /\
     (p1 ∉ filedUnder (Home.SummaryResult.name e2) (participations (billsInRange st)))).
Proof.
  intros Hrun Hp1 Hp2 Hn1 Hn2.
  apply handleCalculateSummary_shown in Hrun as [-> _].
  destruct (summary_entry_of _ _ Hp1) as (e1 & He1 & Hk1 & Hc1).
  destruct (summary_entry_of _ _ Hp2) as (e2 & He2 & Hk2 & Hc2).
  rewrite familyName_named in Hk1, Hk2 by assumption.
  exists e1, e2. split; [exact He1|]. split; [exact He2|].
  split; [exact Hk1|]. split; [exact Hk2|]. split; [exact Hc1|]. split; [exact Hc2|].
  split; [|split; [|split]].
  - intros e He Hk. apply (summary_entry_unique _ _ _ He He1). congruence.
  - destruct (summary_entry_content _ _ He1) as [_ ->]. simpl. rewrite Hk1. reflexivity.
  - intros Hsame. apply (summary_entry_unique _ _ _ He1 He2). congruence.
  - intros Hdiff. split; [intros ->; congruence|].
    unfold filedUnder. rewrite !list_elem_of_filter, Hk1, Hk2.
    rewrite !familyName_named by assumption.
    split; intros [H _]; congruence.
Qed.


Lemma unnamed_families_keyed_by_id_witness :
  let f1 := FamilyData.mk 1700000000001 "" 1 (ExtraService.mk false 0) in
  let f2 := FamilyData.mk 1700000000002 "" 2 (ExtraService.mk false 0) in
  let bill := ResultData.mk (Some 1700000000000) "2024年 01月" 30 10 [f1; f2] in
  let st := Home.mkState (Some (newDate 2024 0 1)) (Some (newDate 2024 0 1)) [bill] in
  let e1 :=
    Home.SummaryResult.mk "家庭 1700000000001"
      (Home.Totals.mk 0 0 0 10 [Home.Breakdown.mk "2024年 01月" 10]) in
  let e2 :=
    Home.SummaryResult.mk "家庭 1700000000002"
      (Home.Totals.mk 0 0 0 20 [Home.Breakdown.mk "2024年 01月" 20]) in
  Home.handleCalculateSummary st = Home.Summary [e1; e2] "2024年 01月 至 2024年 01月" /\
  (bill, f1) ∈ participations (billsInRange st) /\
  (bill, f2) ∈ participations (billsInRange st) /\
  FamilyData.name f1 = "" /\ FamilyData.name f2 = "" /\
  FamilyData.id f1 <> FamilyData.id f2 /\
  (forall entry, entry ∈ [e1; e2] -> Home.SummaryResult.name entry <> "") /\
  exists e1' e2',
    e1' ∈ [e1; e2] /\ e2' ∈ [e1; e2] /\ e1' <> e2' /\
    Home.SummaryResult.name e1' = "家庭 1700000000001" /\
    Home.SummaryResult.name e2' = "家庭 1700000000002".
Proof.
  intros f1 f2 bill st e1 e2.
  assert (Home.handleCalculateSummary st
          = Home.Summary [e1; e2] "2024年 01月 至 2024年 01月") as Hrun
    by (vm_compute; reflexivity).
  assert (participations (billsInRange st) = [(bill, f1); (bill, f2)]) as Hps
    by (vm_compute; reflexivity).
  assert ((bill, f1) ∈ participations (billsInRange st)) as H1 by (rewrite Hps; left).
  assert ((bill, f2) ∈ participations (billsInRange st)) as H2
    by (rewrite Hps; right; left).
  assert (FamilyData.id f1 <> FamilyData.id f2) as Hid by (simpl; lia).
  destruct (unnamed_families_keyed_by_id st _ _ (bill, f1) (bill, f2)
              Hrun H1 H2 eq_refl eq_refl Hid)
    as (Hne & e1' & e2' & He1 & He2 & Hdiff & Hk1 & Hk2 & _).
  repeat (split; [assumption || reflexivity|]).
  exists e1', e2'.
  split; [exact He1|]. split; [exact He2|]. split; [exact Hdiff|].
  split; [rewrite Hk1 | rewrite Hk2]; vm_compute; reflexivity.
Defined.

Lemma named_families_grouped_by_name_witness :
  let g1 := FamilyData.mk 1700000000001 "Li" 1 (ExtraService.mk false 0) in
  let g2 := FamilyData.mk 1700000000002 "Li" 2 (ExtraService.mk true 5) in
  let g3 := FamilyData.mk 1700000000003 "Wang" 3 (ExtraService.mk false 0) in
  let bill := ResultData.mk (Some 1700000000000) "2024年 01月" 65 10 [g1; g2; g3] in
  let st := Home.mkState (Some (newDate 2024 0 1)) (Some (newDate 2024 0 1)) [bill] in
  let li :=
    Home.SummaryResult.mk "Li"
      (Home.Totals.mk 0 0 0 35
         [Home.Breakdown.mk "2024年 01月" 10; Home.Breakdown.mk "2024年 01月" 25]) in
  let wang :=
    Home.SummaryResult.mk "Wang"
      (Home.Totals.mk 0 0 0 30 [Home.Breakdown.mk "2024年 01月" 30]) in
  Home.handleCalculateSummary st = Home.Summary [li; wang] "2024年 01月 至 2024年 01月" /\
  (FamilyData.name g1 = FamilyData.name g2 /\ FamilyData.id g1 <> FamilyData.id g2 /\
   exists e,
     e ∈ [li; wang] /\ Home.SummaryResult.name e = "Li" /\
     contribution (bill, g1) ∈ Home.Totals.monthlyBreakdown (Home.SummaryResult.totals e) /\
     contribution (bill, g2) ∈ Home.Totals.monthlyBreakdown (Home.SummaryResult.totals e))
  /\
  (FamilyData.name g1 <> FamilyData.name g3 /\
   exists e1 e3,
     e1 ∈ [li; wang] /\ e3 ∈ [li; wang] /\ e1 <> e3 /\
     Home.SummaryResult.name e1 = "Li" /\ Home.SummaryResult.name e3 = "Wang").
Proof.
  intros g1 g2 g3 bill st li wang.
  assert (Home.handleCalculateSummary st
          = Home.Summary [li; wang] "2024年 01月 至 2024年 01月") as Hrun
    by (vm_compute; reflexivity).
  assert (participations (billsInRange st) = [(bill, g1); (bill, g2); (bill, g3)]) as Hps
    by (vm_compute; reflexivity).
  assert ((bill, g1) ∈ participations (billsInRange st)) as H1 by (rewrite Hps; left).
  assert ((bill, g2) ∈ participations (billsInRange st)) as H2
    by (rewrite Hps; right; left).
  assert ((bill, g3) ∈ participations (billsInRange st)) as H3
    by (rewrite Hps; right; right; left).
  assert (FamilyData.name g1 <> "") as N1 by discriminate.
  assert (FamilyData.name g2 <> "") as N2 by discriminate.
  assert (FamilyData.name g3 <> "") as N3 by discriminate.
  split; [exact Hrun|]. split.
  - destruct (named_families_grouped_by_name st _ _ (bill, g1) (bill, g2)
                Hrun H1 H2 N1 N2)
      as (e1 & e2 & He1 & He2 & Hk1 & Hk2 & Hc1 & Hc2 & _ & _ & Hsame & _).
    split; [reflexivity|]. split; [simpl; lia|].
    exists e1. rewrite (Hsame eq_refl) in *. auto.
  - destruct (named_families_grouped_by_name st _ _ (bill, g1) (bill, g3)
                Hrun H1 H3 N1 N3)
      as (e1 & e3 & He1 & He3 & Hk1 & Hk3 & _ & _ & _ & _ & _ & Hdiff).
    assert (FamilyData.name g1 <> FamilyData.name g3) as Hne by discriminate.
    split; [exact Hne|]. destruct (Hdiff Hne) as [Hd _].
    exists e1, e3. auto.
Defined.

(** C6 as stated fails at the empty name.  Two participations named "" with
    identifiers 1 and 2 get the entries "家庭 1" and "家庭 2": same name, not
    merged; and the participation named "家庭 1" shares the entry of the
    unnamed one with identifier 1: different names, merged. *)
Lemma empty_name_not_grouped_by_name :
  let f1 := FamilyData.mk 1 "" 1 (ExtraService.mk false 0) in
  let f2 := FamilyData.mk 2 "" 2 (ExtraService.mk false 0) in
  let f3 := FamilyData.mk 3 "家庭 1" 3 (ExtraService.mk false 0) in
  let bill := ResultData.mk (Some 1700000000000) "2024年 01月" 60 10 [f1; f2; f3] in
  let st := Home.mkState (Some (newDate 2024 0 1)) (Some (newDate 2024 0 1)) [bill] in
  let e1 :=
    Home.SummaryResult.mk "家庭 1"
      (Home.Totals.mk 0 0 0 40
         [Home.Breakdown.mk "2024年 01月" 10; Home.Breakdown.mk "2024年 01月" 30]) in
  let e2 :=
    Home.SummaryResult.mk "家庭 2"
      (Home.Totals.mk 0 0 0 20 [Home.Breakdown.mk "2024年 01月" 20]) in
  Home.handleCalculateSummary st = Home.Summary [e1; e2] "2024年 01月 至 2024年 01月" /\
  FamilyData.name f1 = FamilyData.name f2 /\
  FamilyData.name f1 <> FamilyData.name f3 /\
  ~ (exists e, e ∈ [e1; e2] /\
        contribution (bill, f1) ∈ Home.Totals.monthlyBreakdown (Home.SummaryResult.totals e) /\
        contribution (bill, f2) ∈ Home.Totals.monthlyBreakdown (Home.SummaryResult.totals e)) /\
  (exists e, e ∈ [e1; e2] /\
        contribution (bill, f1) ∈ Home.Totals.monthlyBreakdown (Home.SummaryResult.totals e) /\
        contribution (bill, f3) ∈ Home.Totals.monthlyBreakdown (Home.SummaryResult.totals e)).
Proof.
  intros f1 f2 f3 bill st e1 e2.
  split; [vm_compute; reflexivity|]. split; [reflexivity|]. split; [discriminate|].
  assert (contribution (bill, f1) = Home.Breakdown.mk "2024年 01月" 10) as -> by reflexivity.
  assert (contribution (bill, f2) = Home.Breakdown.mk "2024年 01月" 20) as -> by reflexivity.
  assert (contribution (bill, f3) = Home.Breakdown.mk "2024年 01月" 30) as -> by reflexivity.
  split.
  - intros (e & He & H1 & H2).
    apply list_elem_of_In in He. destruct He as [<-|[<-|[]]]; simpl in H1, H2.
    + apply list_elem_of_In in H2. destruct H2 as [H|[H|[]]]; discriminate.
    + apply list_elem_of_In in H1. destruct H1 as [H|[]]; discriminate.
  - exists e1. split; [left|]. split; [left | right; left].
Qed.

(** ** Texts of numbers *)

Lemma append_cons (c : ascii) (a b : string) :
  (String c a ++ b)%string = String c (a ++ b)%string.
Proof. reflexivity. Qed.

Lemma append_nil_l (b : string) : ("" ++ b)%string = b.
Proof. reflexivity. Qed.

Lemma append_nil_r (a : string) : (a ++ "")%string = a.
Proof.
  induction a as [|x a IH]; [reflexivity|]. rewrite append_cons, IH. reflexivity.
Qed.

Lemma append_assoc (a b c : string) :
  ((a ++ b) ++ c)%string = (a ++ (b ++ c))%string.
Proof.
  induction a as [|x a IH]; [reflexivity|]. rewrite !append_cons, IH. reflexivity.
Qed.

Lemma length_append (a b : string) :
  String.length (a ++ b)%string = (String.length a + String.length b)%nat.
Proof.
  induction a as [|x a IH]; [reflexivity|]. rewrite append_cons. simpl. rewrite IH. reflexivity.
Qed.

Lemma digitOf_pretty_N_char (d : N) :
  (d < 10)%N -> Text.digitOf (pretty_N_char d) = Some (Z.of_N d).
Proof.
  intros H.
  assert (d = 0 \/ d = 1 \/ d = 2 \/ d = 3 \/ d = 4 \/ d = 5 \/ d = 6 \/ d = 7
          \/ d = 8 \/ d = 9)%N as Hc by lia.
  repeat (destruct Hc as [-> | Hc]); try subst d; reflexivity.
Qed.

Lemma allDigits_app (a b : string) :
  allDigits (a ++ b)%string = allDigits a && allDigits b.
Proof.
  induction a as [|c a IH]; [reflexivity|]. rewrite append_cons. simpl.
  destruct (Text.digitOf c); [exact IH | reflexivity].
Qed.

(** The decimal text of a natural number: digit characters only, at least
    one for a positive number, and [Text.digits] reads the number back. *)
Lemma pretty_N_go_digits (x : N) :
  exists ds : string,
    (forall s, pretty_N_go x s = (ds ++ s)%string) /\
    allDigits ds = true /\
    ((0 < x)%N -> ds <> "") /\
    forall acc n s,
      Text.digits acc n (ds ++ s)%string
      = Text.digits (acc * 10 ^ Z.of_nat (String.length ds) + Z.of_N x)
          (n + String.length ds) s.
Proof.
  induction (N.lt_wf_0 x) as [x _ IH].
  destruct (N.eq_0_gt_0_cases x) as [->|Hpos].
  - exists "". split; [reflexivity|]. split; [reflexivity|]. split; [lia|].
    intros acc n s. rewrite append_nil_l. simpl. f_equal; [f_equal|]; lia.
  - destruct (IH (x `div` 10)%N (N.div_lt x 10 Hpos eq_refl))
      as (ds & Hgo & Hall & _ & Hread).
    assert (x `mod` 10 < 10)%N as Hd by (apply N.mod_lt; lia).
    exists (ds ++ String (pretty_N_char (x `mod` 10)) "")%string.
    split; [|split; [|split]].
    + intros s. rewrite pretty_N_go_step, Hgo by assumption.
      rewrite append_assoc. reflexivity.
    + rewrite allDigits_app, Hall. simpl.
      rewrite digitOf_pretty_N_char by assumption. reflexivity.
    + intros _. destruct ds; discriminate.
    + intros acc n s. rewrite append_assoc, Hread, append_cons, append_nil_l. simpl.
      rewrite digitOf_pretty_N_char by assumption.
      rewrite length_append. simpl.
      f_equal; [|lia].
      rewrite Nat2Z.inj_add, Z.pow_add_r by lia.
      pose proof (N.div_mod x 10 ltac:(lia)) as Hx.
      change (Z.of_nat 1) with 1. rewrite Z.pow_1_r.
      assert (Z.of_N x = 10 * Z.of_N (x `div` 10) + Z.of_N (x `mod` 10)) as -> by lia.
      ring.
Qed.
Lemma digit_not_space_or_sign (c : ascii) (s : string) :
  is_Some (Text.digitOf c) ->
  Text.isWhiteSpace c = false /\ Text.sign (String c s) = (false, String c s).
Proof.
  intros [d Hd].
  destruct c as [[] [] [] [] [] [] [] []]; try discriminate; split; reflexivity.
Qed.

(** No white space starts with a digit or with the minus sign. *)
Lemma trimStart_digit (c : ascii) (s : string) :
  is_Some (Text.digitOf c) -> Text.trimStart (String c s) = String c s.
Proof.
  intros [d Hd].
  destruct c as [[] [] [] [] [] [] [] []]; try discriminate;
    destruct s as [|c2 [|c3 s3]]; reflexivity.
Qed.

Lemma trimStart_minus (s : string) : Text.trimStart (String "-" s) = String "-" s.
Proof. destruct s as [|c2 [|c3 s3]]; reflexivity. Qed.

Lemma parseInt_unfold (s s' rest r : string) (neg : bool) (v : Z) (n : nat) :
  Text.trimStart s = s' -> Text.sign s' = (neg, rest) ->
  Text.digits 0 0 rest = (v, n, r) ->
  Text.parseInt s
  = match n with
    | O => None
    | S _ => Some (if neg then - v else v)
    end.
Proof. intros H1 H2 H3. unfold Text.parseInt. rewrite H1, H2, H3. reflexivity. Qed.

Lemma parseInt_digits (ds : string) (x : Z) (neg : bool) :
  ds <> "" -> allDigits ds = true ->
  (forall acc n s,
      Text.digits acc n (ds ++ s)%string
      = Text.digits (acc * 10 ^ Z.of_nat (String.length ds) + x)
          (n + String.length ds) s) ->
  Text.parseInt ((if neg then "-" else "") ++ ds)
  = Some (if neg then - x else x).
Proof.
  intros Hne Hall Hread.
  destruct ds as [|c ds]; [congruence|].
  assert (is_Some (Text.digitOf c)) as Hc.
  { simpl in Hall. destruct (Text.digitOf c); [eauto | discriminate]. }
  destruct (digit_not_space_or_sign c ds Hc) as [Hw Hs].
  specialize (Hread 0 O ""). rewrite append_nil_r in Hread.
  simpl Text.digits at 2 in Hread.
  destruct neg.
  - change ("-" ++ String c ds)%string with (String "-" (String c ds)).
    rewrite (parseInt_unfold (String "-" (String c ds)) (String "-" (String c ds))
               (String c ds) "" true _ _ (trimStart_minus _) eq_refl Hread).
    reflexivity.
  - rewrite append_nil_l.
    assert (Text.trimStart (String c ds) = String c ds) as Ht
      by (apply trimStart_digit; exact Hc).
    rewrite (parseInt_unfold _ _ _ "" false _ _ Ht Hs Hread).
    reflexivity.
Qed.

(** [parseInt] reads back the decimal text of an integer. *)
Lemma parseInt_pretty (z : Z) : Text.parseInt (pretty z) = Some z.
Proof.
  destruct z as [|p|p]; [reflexivity| |].
  - destruct (pretty_N_go_digits (N.pos p)) as (ds & Hgo & Hall & Hne & Hread).
    change (pretty (Z.pos p)) with (pretty_N_go (N.pos p) "").
    rewrite Hgo, append_nil_r.
    apply (parseInt_digits ds (Z.pos p) false); auto. apply Hne. lia.
  - destruct (pretty_N_go_digits (N.pos p)) as (ds & Hgo & Hall & Hne & Hread).
    change (pretty (Z.neg p)) with ("-" ++ pretty_N_go (N.pos p) "")%string.
    rewrite Hgo, append_nil_r.
    apply (parseInt_digits ds (Z.pos p) true); auto. apply Hne. lia.
Qed.

Lemma occurs_app (c : ascii) (a b : string) :
  occurs c (a ++ b)%string = occurs c a || occurs c b.
Proof.
  induction a as [|x a IH]; [reflexivity|]. rewrite append_cons. simpl.
  rewrite IH, orb_assoc. reflexivity.
Qed.

Lemma allDigits_occurs (c : ascii) (ds : string) :
  allDigits ds = true -> occurs c ds = true -> is_Some (Text.digitOf c).
Proof.
  induction ds as [|x ds IH]; simpl; [discriminate|].
  destruct (Text.digitOf x) eqn:E; [|discriminate]. intros Hall Hocc.
  apply orb_true_iff in Hocc as [Hx|Hocc]; [|auto].
  apply Ascii.eqb_eq in Hx as <-. eauto.
Qed.

(** The decimal text of an integer holds digits and at most a minus sign. *)
Lemma pretty_Z_chars (z : Z) (c : ascii) :
  occurs c (pretty z) = true -> is_Some (Text.digitOf c) \/ c = "-"%char.
Proof.
  destruct z as [|p|p].
  - change (pretty 0) with "0". cbn [occurs]. rewrite orb_false_r.
    intros H. apply Ascii.eqb_eq in H as <-. left. eexists. reflexivity.
  - destruct (pretty_N_go_digits (N.pos p)) as (ds & Hgo & Hall & _).
    change (pretty (Z.pos p)) with (pretty_N_go (N.pos p) "").
    rewrite Hgo, append_nil_r. intros H. left. eauto using allDigits_occurs.
  - destruct (pretty_N_go_digits (N.pos p)) as (ds & Hgo & Hall & _).
    change (pretty (Z.neg p)) with (String "-" (pretty_N_go (N.pos p) "")).
    rewrite Hgo, append_nil_r. cbn [occurs]. intros H.
    apply orb_true_iff in H as [H|H].
    + apply Ascii.eqb_eq in H as <-. by right.
    + left. eauto using allDigits_occurs.
Qed.

Lemma split_no_sep (sep : ascii) (a : string) :
  occurs sep a = false -> Input.split sep a = [a].
Proof.
  induction a as [|c a IH]; simpl; [reflexivity|]. intros H.
  apply orb_false_iff in H as [Hc Ha]. rewrite Hc, IH by assumption. reflexivity.
Qed.

Lemma split_app (sep : ascii) (a b : string) :
  occurs sep a = false ->
  Input.split sep (a ++ String sep b)%string = a :: Input.split sep b.
Proof.
  induction a as [|c a IH]; intros H.
  - rewrite append_nil_l. simpl. rewrite Ascii.eqb_refl. reflexivity.
  - rewrite append_cons. simpl in *. apply orb_false_iff in H as [Hc Ha].
    rewrite Hc, IH by assumption. reflexivity.
Qed.

Lemma removeFirst_suffix (c : ascii) (pat a : string) :
  occurs c a = false ->
  Input.removeFirst (String c pat) (a ++ String c pat)%string = a.
Proof.
  assert (forall s, Input.dropPrefix s s = Some "") as Hself.
  { induction s as [|x s IH]; simpl; [reflexivity|]. rewrite Ascii.eqb_refl. exact IH. }
  induction a as [|x a IH]; intros H.
  - rewrite append_nil_l.
    change (Input.removeFirst (String c pat) (String c pat))
      with (match Input.dropPrefix (String c pat) (String c pat) with
            | Some rest => rest
            | None => String c (Input.removeFirst (String c pat) pat)
            end).
    rewrite Hself. reflexivity.
  - rewrite append_cons. simpl in H. apply orb_false_iff in H as [Hx Ha].
    change (Input.removeFirst (String c pat) (String x (a ++ String c pat)))
      with (match Input.dropPrefix (String c pat) (String x (a ++ String c pat)) with
            | Some rest => rest
            | None => String x (Input.removeFirst (String c pat) (a ++ String c pat))
            end).
    simpl Input.dropPrefix. rewrite Ascii.eqb_sym, Hx, IH by assumption. reflexivity.
Qed.

Lemma pretty_Z_no_char (z : Z) (c : ascii) :
  Text.digitOf c = None -> c <> "-"%char -> occurs c (pretty z) = false.
Proof.
  intros Hd Hm. destruct (occurs c (pretty z)) eqn:E; [|reflexivity].
  apply pretty_Z_chars in E as [[d Hc]|Hc]; congruence.
Qed.

(** The month part of a token: what [split], [replace] and [parseInt] make
    of it. *)
Lemma month_part_parse (m : Z) :
  0 <= m <= 11 ->
  let part := (padStart 2 "0" (pretty (m + 1)) ++ "月")%string in
  Input.split " " part = [part] /\
  Text.parseInt (Input.removeFirst "月" part) = Some (m + 1).
Proof.
  intros Hm.
  assert (m = 0 \/ m = 1 \/ m = 2 \/ m = 3 \/ m = 4 \/ m = 5 \/ m = 6 \/ m = 7
          \/ m = 8 \/ m = 9 \/ m = 10 \/ m = 11) as Hc by lia.
  repeat (destruct Hc as [-> | Hc]); try subst m; split; vm_compute; reflexivity.
Qed.

Lemma parseBillMonth_token (y m : Z) :
  0 <= m <= 11 ->
  Input.parseBillMonth
    (pretty y ++ "年 " ++ padStart 2 "0" (pretty (m + 1)) ++ "月")%string
  = Some (Some (Input.newDateYM y m)).
Proof.
  intros Hm. destruct (month_part_parse m Hm) as [Hsplit Hparse].
  set (part := (padStart 2 "0" (pretty (m + 1)) ++ "月")%string) in *.
  assert ((pretty y ++ "年 " ++ part)%string
          = ((pretty y ++ "年") ++ String " " part)%string) as ->.
  { rewrite append_assoc. reflexivity. }
  unfold Input.parseBillMonth.
  rewrite split_app, Hsplit.
  2:{ rewrite occurs_app, pretty_Z_no_char by (reflexivity || discriminate). reflexivity. }
  change "年" with (String "229" (String "185" (String "180" ""))) at 1.
  rewrite removeFirst_suffix by (apply pretty_Z_no_char; [reflexivity | discriminate]).
  rewrite parseInt_pretty, Hparse. do 3 f_equal. lia.
Qed.

(** ** The input screen *)

Lemma newDateYM_fields (y m : Z) :
  0 <= m <= 11 ->
  let yr := if (0 <=? y) && (y <=? 99) then 1900 + y else y in
  getFullYear (Input.newDateYM y m) = yr /\
  getMonth (Input.newDateYM y m) = m /\
  getDate (Input.newDateYM y m) = 1.
Proof.
  intros Hm yr. unfold getFullYear, getMonth, getDate, Input.newDateYM. simpl. fold yr.
  destruct (fields_MakeDate yr m 1 0) as (HY & HM & HD & _); auto.
  - pose proof (daysInMonth_ge yr m Hm). lia.
  - unfold Calendar.msPerDay. lia.
Qed.

(** X1.  The month of a calculated bill survives the way into the edit
    form: [parseBillMonth] reads the token written by [formatBillMonth] back
    as the first day of the same month, and formatting that date gives the
    token again, except that a year from 0 to 99 comes back as 1900 to 1999.
    A bill calculated without a date carries the token "N/A", on which
    [parseBillMonth] throws. *)
Theorem parseBillMonth_round_trip (st : Input.State) :
  exists data,
    Input.handleCalculate st = Some data /\
    match Input.billDate st with
    | Some d =>
        let back := Input.newDateYM (getFullYear d) (getMonth d) in
        Input.parseBillMonth (ResultData.billMonth data) = Some (Some back) /\
        getMonth back = getMonth d /\ getDate back = 1 /\
        (~ 0 <= getFullYear d <= 99 ->
         formatBillMonth (Some back) = ResultData.billMonth data) /\
        (0 <= getFullYear d <= 99 -> getFullYear back = 1900 + getFullYear d)
    | None => Input.parseBillMonth (ResultData.billMonth data) = None
    end.
Proof.
  eexists. split; [apply handleCalculate_eq|]. simpl.
  destruct (Input.billDate st) as [d|]; [|reflexivity].
  pose proof (MonthFromTime_range (getTime d)) as Hm. fold (getMonth d) in Hm.
  destruct (newDateYM_fields (getFullYear d) (getMonth d) Hm) as (HY & HM & HD).
  cbv zeta. split; [apply parseBillMonth_token; exact Hm|].
  split; [exact HM|]. split; [exact HD|]. split.
  - intros Hy. unfold formatBillMonth. rewrite HY, HM.
    destruct (Z.leb_spec 0 (getFullYear d)), (Z.leb_spec (getFullYear d) 99);
      simpl; (reflexivity || lia).
  - intros Hy. rewrite HY.
    destruct (Z.leb_spec 0 (getFullYear d)), (Z.leb_spec (getFullYear d) 99);
      simpl; (reflexivity || lia).
Qed.

Lemma parseBillMonth_round_trip_witness :
  let st := Input.mkState "300"
              [FamilyInBill.mk 1 "A" "2" (ExtraServiceInput.mk false "")]
              (Some (newDate 2024 2 18)) None in
  let old := Input.mkState "300" [] (Some (newDate 50 2 18)) None in
  (exists data,
      Input.handleCalculate st = Some data /\
      ~ 0 <= getFullYear (newDate 2024 2 18) <= 99 /\
      Input.parseBillMonth (ResultData.billMonth data) = Some (Some (newDate 2024 2 1)) /\
      formatBillMonth (Some (newDate 2024 2 1)) = ResultData.billMonth data)
  /\
  (0 <= getFullYear (newDate 50 2 18) <= 99 /\
   getFullYear (Input.newDateYM (getFullYear (newDate 50 2 18))
                  (getMonth (newDate 50 2 18))) = 1950).
Proof.
  intros st old. split.
  - destruct (parseBillMonth_round_trip st) as (data & Hd & Hrt).
    exists data. split; [exact Hd|].
    assert (~ 0 <= getFullYear (newDate 2024 2 18) <= 99) as Hy
      by (vm_compute; intros [_ H]; apply H; reflexivity).
    split; [exact Hy|].
    change (Input.billDate st) with (Some (newDate 2024 2 18)) in Hrt.
    destruct Hrt as (Hp & _ & _ & Hf & _).
    split; [exact Hp | exact (Hf Hy)].
  - destruct (parseBillMonth_round_trip old) as (data & Hd & Hrt).
    change (Input.billDate old) with (Some (newDate 50 2 18)) in Hrt.
    destruct Hrt as (_ & _ & _ & _ & Hc).
    assert (0 <= getFullYear (newDate 50 2 18) <= 99) as Hy
      by (vm_compute; split; discriminate).
    split; [exact Hy|]. exact (Hc Hy).
Defined.

Lemma existsb_id_elem (id : Z) (l : list FamilyInBill.t) :
  existsb (fun f => FamilyInBill.id f =? id) l = true <-> id ∈ map FamilyInBill.id l.
Proof.
  rewrite existsb_exists, list_elem_of_fmap. split.
  - intros (f & Hin & Heq). exists f. split; [symmetry; by apply Z.eqb_eq | by apply list_elem_of_In].
  - intros (f & -> & Hin). exists f. split; [by apply list_elem_of_In | apply Z.eqb_refl].
Qed.

Lemma handleSelectFamily_present (family : SavedFamily.t) (l : list FamilyInBill.t) :
  SavedFamily.id family ∈ map FamilyInBill.id l -> Input.handleSelectFamily family l = l.
Proof.
  intros H. unfold Input.handleSelectFamily.
  apply existsb_id_elem in H. rewrite H. reflexivity.
Qed.

Lemma handleSelectFamily_absent (family : SavedFamily.t) (l : list FamilyInBill.t) :
  SavedFamily.id family ∉ map FamilyInBill.id l ->
  Input.handleSelectFamily family l
  = l ++ [FamilyInBill.mk (SavedFamily.id family) (SavedFamily.name family)
            (pretty (Z.of_nat (length (SavedFamily.members family))))
            (ExtraServiceInput.mk false "")].
Proof.
  intros H. unfold Input.handleSelectFamily.
  destruct (existsb _ l) eqn:E; [|reflexivity].
  apply existsb_id_elem in E. contradiction.
Qed.

Lemma sumLines_app (a b : list FamilyData.t) : sumLines (a ++ b) = sumLines a + sumLines b.
Proof.
  induction a as [|f a IH]; [unfold sumLines at 2; simpl; lia|].
  rewrite <- app_comm_cons, !sumLines_cons, IH. lia.
Qed.

(** X2.  Selecting a saved family into the bill: a family already in the
    bill is not added again, so the identifiers in the bill stay pairwise
    distinct; a new family is added at the end, after the families already
    there, with its identifier and name, the number of its members as the
    text of its lines and no extra service, and the calculation counts one
    line for each of its members. *)
Theorem handleSelectFamily_lines (st : Input.State) (family : SavedFamily.t) :
  let selected := Input.handleSelectFamily family (Input.familiesInBill st) in
  (NoDup (map FamilyInBill.id (Input.familiesInBill st)) ->
   NoDup (map FamilyInBill.id selected)) /\
  Input.handleSelectFamily family selected = selected /\
  (SavedFamily.id family ∈ map FamilyInBill.id (Input.familiesInBill st) ->
   selected = Input.familiesInBill st) /\
  (SavedFamily.id family ∉ map FamilyInBill.id (Input.familiesInBill st) ->
   selected
   = Input.familiesInBill st
     ++ [FamilyInBill.mk (SavedFamily.id family) (SavedFamily.name family)
           (pretty (Z.of_nat (length (SavedFamily.members family))))
           (ExtraServiceInput.mk false "")] /\
   Input.totalLines (Input.setFamiliesInBill selected st)
   = Input.totalLines st + Z.of_nat (length (SavedFamily.members family))).
Proof.
  intros selected. unfold selected.
  destruct (decide (SavedFamily.id family ∈ map FamilyInBill.id (Input.familiesInBill st)))
    as [Hin|Hout].
  - rewrite !handleSelectFamily_present by assumption.
    split; [auto|]. split; [reflexivity|]. split; [reflexivity | contradiction].
  - rewrite (handleSelectFamily_absent _ _ Hout). split; [|split; [|split]].
    + intros Hnd. rewrite map_app. apply NoDup_app. split; [exact Hnd|]. split.
      * intros x Hx Hx'. apply list_elem_of_singleton in Hx'. simpl in Hx'. congruence.
      * apply NoDup_singleton.
    + apply handleSelectFamily_present. rewrite map_app. apply elem_of_app. right. left.
    + contradiction.
    + intros _. split; [reflexivity|].
      unfold Input.totalLines, Input.familiesWithParsedNumbers. simpl.
      fold (sumLines (map Input.parseFamily
                        (Input.familiesInBill st ++
                         [FamilyInBill.mk (SavedFamily.id family) (SavedFamily.name family)
                            (pretty (Z.of_nat (length (SavedFamily.members family))))
                            (ExtraServiceInput.mk false "")]))).
      fold (sumLines (map Input.parseFamily (Input.familiesInBill st))).
      rewrite map_app, sumLines_app. f_equal.
      unfold sumLines. simpl. rewrite parseInt_pretty. reflexivity.
Qed.

Lemma handleSelectFamily_lines_witness :
  let st := Input.mkState "300"
              [FamilyInBill.mk 1 "A" "2" (ExtraServiceInput.mk false "")]
              (Some (newDate 2024 2 18)) None in
  let b := SavedFamily.mk 2 "B" [Member.mk 21 "x"; Member.mk 22 "y"; Member.mk 23 "z"] in
  let a := SavedFamily.mk 1 "A again" [Member.mk 11 "u"] in
  NoDup (map FamilyInBill.id (Input.handleSelectFamily b (Input.familiesInBill st))) /\
  Input.handleSelectFamily a (Input.familiesInBill st) = Input.familiesInBill st /\
  Input.handleSelectFamily b (Input.familiesInBill st)
  = [FamilyInBill.mk 1 "A" "2" (ExtraServiceInput.mk false "");
     FamilyInBill.mk 2 "B" "3" (ExtraServiceInput.mk false "")] /\
  Input.totalLines
    (Input.setFamiliesInBill (Input.handleSelectFamily b (Input.familiesInBill st)) st)
  = 5.
Proof.
  intros st b a.
  destruct (handleSelectFamily_lines st b) as (Hnd & _ & _ & Hlines).
  destruct (handleSelectFamily_lines st a) as (_ & _ & Hsame & _).
  assert (SavedFamily.id b ∉ map FamilyInBill.id (Input.familiesInBill st)) as Hout.
  { simpl. intros H. apply list_elem_of_singleton in H. discriminate. }
  split; [|split; [|split]].
  - apply Hnd. simpl. apply NoDup_singleton.
  - apply Hsame. simpl. left.
  - rewrite (proj1 (Hlines Hout)). reflexivity.
  - rewrite (proj2 (Hlines Hout)). reflexivity.
Defined.

(** X3.  Removing a family from the bill removes every entry with that
    identifier and nothing else, and undoes the selection of a family that
    was not in the bill before. *)
Theorem removeFamilyFromBill_undoes_select (family : SavedFamily.t)
    (l : list FamilyInBill.t) (id : Z) :
  (forall f, f ∈ Input.removeFamilyFromBill id l <-> f ∈ l /\ FamilyInBill.id f <> id) /\
  (id ∉ map FamilyInBill.id l -> Input.removeFamilyFromBill id l = l) /\
  (SavedFamily.id family ∉ map FamilyInBill.id l ->
   Input.removeFamilyFromBill (SavedFamily.id family) (Input.handleSelectFamily family l) = l).
Proof.
  assert (forall i k, i ∉ map FamilyInBill.id k -> Input.removeFamilyFromBill i k = k) as Hid.
  { intros i k. induction k as [|f k IH]; intros H; [reflexivity|].
    simpl in *. apply not_elem_of_cons in H as [Hne Hk].
    destruct (Z.eqb_spec (FamilyInBill.id f) i); [congruence|]. simpl. f_equal. auto. }
  split; [|split].
  - intros f. unfold Input.removeFamilyFromBill.
    rewrite list_elem_of_In, filter_In, <- list_elem_of_In, negb_true_iff, Z.eqb_neq. tauto.
  - apply Hid.
  - intros Hout. rewrite (handleSelectFamily_absent _ _ Hout).
    unfold Input.removeFamilyFromBill. rewrite List.filter_app. simpl.
    rewrite Z.eqb_refl. simpl. rewrite app_nil_r. apply Hid, Hout.
Qed.

Lemma removeFamilyFromBill_undoes_select_witness :
  let l := [FamilyInBill.mk 1 "A" "2" (ExtraServiceInput.mk true "30")] in
  let b := SavedFamily.mk 2 "B" [Member.mk 21 "x"] in
  (SavedFamily.id b ∉ map FamilyInBill.id l) /\
  Input.removeFamilyFromBill 2 (Input.handleSelectFamily b l) = l /\
  Input.removeFamilyFromBill 7 l = l.
Proof.
  intros l b.
  assert (SavedFamily.id b ∉ map FamilyInBill.id l) as Hout.
  { simpl. intros H. apply list_elem_of_singleton in H. discriminate. }
  destruct (removeFamilyFromBill_undoes_select b l 7) as (_ & Hkeep & _).
  destruct (removeFamilyFromBill_undoes_select b l 2) as (_ & _ & Hundo).
  split; [exact Hout|]. split; [exact (Hundo Hout)|].
  apply Hkeep. simpl. intros H. apply list_elem_of_singleton in H. discriminate.
Defined.

(** X4.  Editing the extra service of a family touches that family's extra
    service only: identifiers, names and line texts of all families and
    every field of the other families stay as they are.  Switching the
    service off makes the calculation store no service and the cost 0 for
    that family, whatever amount was typed; the typed amount itself is kept
    and is back when the service is switched on again. *)
Theorem updateFamilyExtraService_scope (st : Input.State) (id : Z)
    (field : Input.ExtraServiceField) :
  let l := Input.familiesInBill st in
  let l' := Input.updateFamilyExtraService id field l in
  map (fun f => (FamilyInBill.id f, FamilyInBill.name f, FamilyInBill.lines f)) l'
  = map (fun f => (FamilyInBill.id f, FamilyInBill.name f, FamilyInBill.lines f)) l /\
  (forall (i : nat) f, l !! i = Some f -> FamilyInBill.id f <> id -> l' !! i = Some f) /\
  (field = Input.SetHasService false ->
   forall p, p ∈ Input.familiesWithParsedNumbers (Input.setFamiliesInBill l' st) ->
             FamilyData.id p = id ->
             FamilyData.extraService p = ExtraService.mk false 0%Q) /\
  ((forall f, f ∈ l -> FamilyInBill.id f = id ->
              ExtraServiceInput.hasService (FamilyInBill.extraService f) = true) ->
   Input.updateFamilyExtraService id (Input.SetHasService true)
     (Input.updateFamilyExtraService id (Input.SetHasService false) l) = l).
Proof.
  intros l l'. unfold l'. clearbody l. clear l'. split; [|split; [|split]].
  - induction l as [|f l IH]; [reflexivity|]. simpl. rewrite IH. f_equal.
    destruct (FamilyInBill.id f =? id); reflexivity.
  - intros i f Hf Hne. unfold Input.updateFamilyExtraService.
    rewrite list_lookup_fmap, Hf. simpl.
    destruct (Z.eqb_spec (FamilyInBill.id f) id); [congruence | reflexivity].
  - intros -> p Hp Hid. unfold Input.familiesWithParsedNumbers in Hp. simpl in Hp.
    apply list_elem_of_fmap in Hp as (f' & -> & Hf').
    apply list_elem_of_fmap in Hf' as (f & -> & _).
    cbv beta in Hid |- *.
    destruct (Z.eqb_spec (FamilyInBill.id f) id) as [Heq|Hne].
    + reflexivity.
    + simpl in Hid. congruence.
  - induction l as [|f l IH]; intros Hon; [reflexivity|]. simpl.
    rewrite IH by (intros g Hg; apply Hon; by right). f_equal.
    pose proof (Hon f ltac:(left)) as Hs.
    destruct f as [i n ls [hs c]]. simpl in *.
    destruct (Z.eqb_spec i id) as [Heq|Hne]; simpl.
    + rewrite (proj2 (Z.eqb_eq _ _) Heq). simpl. rewrite (Hs Heq). reflexivity.
    + rewrite (proj2 (Z.eqb_neq _ _) Hne). reflexivity.
Qed.

Lemma updateFamilyExtraService_scope_witness :
  let a := FamilyInBill.mk 1 "A" "2" (ExtraServiceInput.mk true "30") in
  let b := FamilyInBill.mk 2 "B" "1" (ExtraServiceInput.mk false "") in
  let st := Input.mkState "300" [a; b] (Some (newDate 2024 2 18)) None in
  let off := Input.updateFamilyExtraService 1 (Input.SetHasService false) [a; b] in
  off !! 1%nat = Some b /\
  (forall p, p ∈ Input.familiesWithParsedNumbers (Input.setFamiliesInBill off st) ->
             FamilyData.id p = 1 ->
             FamilyData.extraService p = ExtraService.mk false 0%Q) /\
  Input.updateFamilyExtraService 1 (Input.SetHasService true) off = [a; b].
Proof.
  intros a b st off.
  destruct (updateFamilyExtraService_scope st 1 (Input.SetHasService false))
    as (_ & Hother & Hoff & Hback).
  split; [|split].
  - apply Hother; [reflexivity | discriminate].
  - exact (Hoff eq_refl).
  - apply Hback. intros f Hf Hid.
    apply list_elem_of_In in Hf. destruct Hf as [<-|[<-|[]]]; [reflexivity | discriminate].
Defined.

(** ** Calculating and saving *)

Lemma Input_totalExtra_Qsum (st : Input.State) :
  Input.totalExtraServiceCost st
  = Qsum (map extraCostOf (Input.familiesWithParsedNumbers st)).
Proof. unfold Input.totalExtraServiceCost. rewrite Qsum_map_fold. reflexivity. Qed.

Lemma Batch_totalExtra_Qsum (st : Batch.State) :
  Batch.totalExtraServiceCost st = Qsum (map extraCostOf (Batch.familiesForBill st)).
Proof. unfold Batch.totalExtraServiceCost. rewrite Qsum_map_fold. reflexivity. Qed.

(** X5.  Nothing is lost or invented when there is a line to charge: the
    totals of the families of a calculated bill (lines times rate plus the
    stored extra cost) add up to the bill's total cost, in the single-bill
    path and for every bill of a batch.  Amounts are exact rationals. *)
Theorem family_totals_add_up_to_totalCost :
  (forall st : Input.State,
      0 < Input.totalLines st ->
      exists data,
        Input.handleCalculate st = Some data /\
        (Qsum (map (Result.familyTotalCost data) (ResultData.families data))
         == ResultData.totalCost data)%Q)
  /\
  (forall (st : Batch.State) (clock : nat -> Z) (store store' : BillStore) (n : nat),
      0 < Batch.totalLines st ->
      Batch.handleBatchCreate st clock store = Some (Batch.Created n, store') ->
      exists newBills,
        store' = Some (readBills store ++ newBills) /\
        forall bill, bill ∈ newBills ->
          (Qsum (map (Result.familyTotalCost bill) (ResultData.families bill))
           == ResultData.totalCost bill)%Q).
Proof.
  split.
  - intros st Hpos. eexists. split; [apply handleCalculate_eq|]. simpl.
    unfold guardedRate. destruct (Z.ltb_spec 0 (Input.totalLines st)); [|lia].
    rewrite Input_totalLines_sumLines in *.
    transitivity (Input.totalLineCost st
                  + Qsum (map extraCostOf (Input.familiesWithParsedNumbers st)))%Q.
    { apply (Qsum_allocation (Input.totalLineCost st)). lia. }
    unfold Input.totalLineCost. rewrite Input_totalExtra_Qsum. ring.
  - intros st clock store store' n Hpos Hrun.
    apply handleBatchCreate_created in Hrun as (s & e & _ & _ & _ & Hst).
    eexists. split; [exact Hst|]. intros bill Hb.
    apply newBills_costPerLine in Hb as (Hr & Hf & Ht).
    unfold Result.familyTotalCost, Result.familyLineCost. rewrite Hr, Hf, Ht.
    unfold guardedRate. destruct (Z.ltb_spec 0 (Batch.totalLines st)); [|lia].
    rewrite Batch_totalLines_sumLines in *.
    transitivity (Batch.totalLineCost st
                  + Qsum (map extraCostOf (Batch.familiesForBill st)))%Q.
    { apply (Qsum_allocation (Batch.totalLineCost st)). lia. }
    unfold Batch.totalLineCost. rewrite Batch_totalExtra_Qsum. ring.
Qed.

Lemma family_totals_add_up_to_totalCost_witness :
  let st := Input.mkState "300"
              [FamilyInBill.mk 1 "A" "2" (ExtraServiceInput.mk false "0");
               FamilyInBill.mk 2 "B" "1" (ExtraServiceInput.mk true "30")]
              (Some (newDate 2024 0 15)) None in
  let bst := Batch.mkState
               [SavedFamily.mk 1 "A" [Member.mk 1 "a"; Member.mk 2 "b"];
                SavedFamily.mk 2 "B" [Member.mk 3 "c"]]
               {[1; 2]} {[2 := "30"]} "300"
               (Some (newDate 2024 0 1)) (Some (newDate 2024 0 1)) in
  let families :=
    [FamilyData.mk 1 "A" 2 (ExtraService.mk false 0);
     FamilyData.mk 2 "B" 1 (ExtraService.mk true 30)] in
  let bill := ResultData.mk (Some 3404067200000) "2024年 01月" 300 (270 # 3) families in
  (exists data,
      Input.handleCalculate st = Some data /\
      (Qsum (map (Result.familyTotalCost data) (ResultData.families data)) == 300)%Q)
  /\
  (Batch.handleBatchCreate bst (fun _ => 1700000000000) None
     = Some (Batch.Created 1, Some [bill]) /\
   (Qsum (map (Result.familyTotalCost bill) (ResultData.families bill)) == 300)%Q).
Proof.
  intros st bst families bill.
  destruct family_totals_add_up_to_totalCost as [H1 H2]. split.
  - assert (0 < Input.totalLines st) as Hpos by (vm_compute; reflexivity).
    destruct (H1 st Hpos) as (data & Hd & Hsum).
    exists data. split; [exact Hd|]. rewrite Hsum.
    rewrite handleCalculate_eq in Hd. injection Hd as <-. reflexivity.
  - assert (0 < Batch.totalLines bst) as Hpos by (vm_compute; reflexivity).
    assert (Batch.handleBatchCreate bst (fun _ => 1700000000000) None
            = Some (Batch.Created 1, Some [bill])) as Hrun by (vm_compute; reflexivity).
    split; [exact Hrun|].
    destruct (H2 bst _ _ _ _ Hpos Hrun) as (newBills & [= <-] & Hall).
    rewrite (Hall bill ltac:(left)). reflexivity.
Defined.



Lemma findIndex_None (i : Z) (bills : list ResultData.t) :
  Result.findIndex i bills = None <-> Some i ∉ map ResultData.id bills.
Proof.
  induction bills as [|b bills IH]; simpl.
  - split; [intros _ H; inversion H | reflexivity].
  - destruct (decide (ResultData.id b = Some i)) as [Heq|Hne].
    + split; [discriminate|]. intros H. exfalso. apply H. rewrite Heq. left.
    + destruct (Result.findIndex i bills) as [k|]; simpl.
      * split; [discriminate|]. intros H. exfalso.
        apply not_elem_of_cons in H as [_ H]. apply IH in H. discriminate.
      * split; [|reflexivity]. intros _. apply not_elem_of_cons. split; [congruence|].
        by apply IH.
Qed.

Lemma findIndex_Some (i : Z) (bills : list ResultData.t) (n : nat) :
  Result.findIndex i bills = Some n ->
  (exists b, bills !! n = Some b /\ ResultData.id b = Some i) /\
  forall (k : nat) b, (k < n)%nat -> bills !! k = Some b -> ResultData.id b <> Some i.
Proof.
  revert n. induction bills as [|b bills IH]; intros n; simpl; [discriminate|].
  destruct (decide (ResultData.id b = Some i)) as [Heq|Hne].
  - intros [= <-]. split; [eauto|]. intros k b' Hk. lia.
  - destruct (Result.findIndex i bills) as [m|]; simpl; [|discriminate].
    intros [= <-]. destruct (IH m eq_refl) as [Hb Hfirst]. split; [exact Hb|].
    intros [|k] b' Hk; simpl; [intros [= <-]; exact Hne|].
    apply Hfirst. lia.
Qed.

(** X7.  Saving a bill that is new to the store (no identifier, as after
    calculating from scratch or from a copy, or an identifier no stored bill
    has) appends it under the current time and leaves every stored bill as it
    was; the identifiers stay pairwise distinct if they were and the current
    time is not one of them. *)
Theorem handleSaveBill_appends (now : Z) (data : ResultData.t) (store : BillStore) :
  (ResultData.id data = None \/ ResultData.id data = Some 0 \/
   ResultData.id data ∉ map ResultData.id (readBills store)) ->
  Result.handleSaveBill now data store
  = Some (readBills store ++ [ResultData.withId now data]) /\
  (NoDup (map ResultData.id (readBills store)) ->
   Some now ∉ map ResultData.id (readBills store) ->
   NoDup (map ResultData.id (readBills (Result.handleSaveBill now data store)))).
Proof.
  intros Hnew.
  assert (Result.handleSaveBill now data store
          = Some (readBills store ++ [ResultData.withId now data])) as Heq.
  { unfold Result.handleSaveBill. destruct (ResultData.id data) as [i|]; [|reflexivity].
    destruct (Z.eqb_spec i 0) as [|Hnz]; [reflexivity|].
    destruct Hnew as [Hn|[Hn|Hn]]; [discriminate|congruence|].
    apply findIndex_None in Hn. rewrite Hn. reflexivity. }
  split; [exact Heq|]. intros Hnd Hfresh. rewrite Heq. simpl.
  rewrite map_app. apply NoDup_app. split; [exact Hnd|]. split.
  - intros x Hx Hx'. apply list_elem_of_singleton in Hx'. simpl in Hx'. congruence.
  - apply NoDup_singleton.
Qed.

Lemma handleSaveBill_appends_witness :
  let stored := ResultData.mk (Some 1700000000000) "2023年 12月" 300 100 [] in
  let copy := ResultData.mk None "2024年 01月" 300 100 [] in
  ResultData.id copy = None /\
  Result.handleSaveBill 1700000500000 copy (Some [stored])
  = Some [stored; ResultData.withId 1700000500000 copy] /\
  NoDup (map ResultData.id
           (readBills (Result.handleSaveBill 1700000500000 copy (Some [stored])))).
Proof.
  intros stored copy.
  destruct (handleSaveBill_appends 1700000500000 copy (Some [stored]) (or_introl eq_refl))
    as [Heq Hnd].
  split; [reflexivity|]. split; [exact Heq|].
  apply Hnd.
  - simpl. apply NoDup_singleton.
  - simpl. intros H. apply list_elem_of_singleton in H. discriminate.
Defined.

(** X8.  Saving a bill that carries the identifier of a stored bill (as
    after modifying it) writes it over the first stored bill with that
    identifier: the store keeps its length and its identifiers, every other
    position keeps its bill, and the time of saving plays no part. *)
Theorem handleSaveBill_replaces (now : Z) (data : ResultData.t) (store : BillStore)
    (i : Z) :
  ResultData.id data = Some i -> i <> 0 ->
  Some i ∈ map ResultData.id (readBills store) ->
  exists n : nat,
    let saved := readBills (Result.handleSaveBill now data store) in
    saved !! n = Some data /\
    (forall (k : nat) b, (k < n)%nat -> readBills store !! k = Some b ->
                         ResultData.id b <> Some i) /\
    (forall k : nat, k <> n -> saved !! k = readBills store !! k) /\
    length saved = length (readBills store) /\
    map ResultData.id saved = map ResultData.id (readBills store).
Proof.
  intros Hid Hne Hin. unfold Result.handleSaveBill. rewrite Hid.
  destruct (Z.eqb_spec i 0) as [|_]; [contradiction|].
  destruct (Result.findIndex i (readBills store)) as [n|] eqn:E.
  2:{ apply findIndex_None in E. contradiction. }
  pose proof (findIndex_lt _ _ _ E) as Hlt.
  destruct (findIndex_Some _ _ _ E) as [(b & Hb & Hbid) Hfirst].
  exists n. simpl. split; [by apply list_lookup_insert_eq|].
  split; [exact Hfirst|]. split; [|split].
  - intros k Hk. by apply list_lookup_insert_ne.
  - apply length_insert.
  - rewrite list_fmap_insert, Hid, <- Hbid.
    apply list_insert_id. rewrite list_lookup_fmap, Hb. reflexivity.
Qed.

Lemma handleSaveBill_replaces_witness :
  let december := ResultData.mk (Some 1700000000000) "2023年 12月" 300 100 [] in
  let january := ResultData.mk (Some 1700000500000) "2024年 01月" 300 100 [] in
  let edited := ResultData.mk (Some 1700000500000) "2024年 01月" 330 110 [] in
  Some 1700000500000 ∈ map ResultData.id [december; january] /\
  readBills (Result.handleSaveBill 1700000900000 edited (Some [december; january]))
  = [december; edited].
Proof.
  intros december january edited.
  assert (Some 1700000500000 ∈ map ResultData.id [december; january]) as Hin
    by (simpl; right; left).
  split; [exact Hin|].
  destruct (handleSaveBill_replaces 1700000900000 edited (Some [december; january])
              1700000500000 eq_refl ltac:(lia) Hin) as (n & Hn & _).
  vm_compute. reflexivity.
Defined.

(** ** The bill history *)

Lemma List_filter_sublist {A : Type} (p : A -> bool) (l : list A) :
  sublist (List.filter p l) l.
Proof.
  induction l as [|x l IH]; simpl; [constructor|].
  destruct (p x); by constructor.
Qed.

Lemma elem_of_List_filter {A : Type} (p : A -> bool) (l : list A) (x : A) :
  x ∈ List.filter p l <-> x ∈ l /\ p x = true.
Proof. rewrite !list_elem_of_In. apply filter_In. Qed.

(** X9.  The history filter only ever hides bills: the bills shown are a
    sub-list of all bills, in their order, namely those that hold the chosen
    family (when one is chosen) and whose total cost is at least the minimum
    (when the minimum reads as a positive number).  With no family chosen
    and a minimum that is blank, not a number, zero, negative or minus
    infinity, every bill is shown; with a minimum that reads as [Infinity]
    (the literal, or a decimal too large for a double) none is.  Amounts are
    exact rationals. *)
Theorem applyFilters_shows (allBills : list ResultData.t) (filterFamilyId : option Z)
    (filterMinAmount : string) :
  let shown := Home.applyFilters allBills filterFamilyId filterMinAmount in
  sublist shown allBills /\
  (forall bill,
      bill ∈ shown <->
      bill ∈ allBills /\
      (forall id, filterFamilyId = Some id -> id <> 0 ->
                  id ∈ map FamilyData.id (ResultData.families bill)) /\
      Text.infinity filterMinAmount <> Some false /\
      (forall minAmount, Text.infinity filterMinAmount = None ->
                         Text.parseFloat filterMinAmount = Some minAmount ->
                         (0 < minAmount)%Q ->
                         (minAmount <= ResultData.totalCost bill)%Q)) /\
  ((filterFamilyId = None \/ filterFamilyId = Some 0) ->
   Text.infinity filterMinAmount <> Some false ->
   (forall minAmount, Text.infinity filterMinAmount = None ->
                      Text.parseFloat filterMinAmount = Some minAmount ->
                      (minAmount <= 0)%Q) ->
   shown = allBills) /\
  (Text.infinity filterMinAmount = Some false -> shown = []).
Proof.
  intros shown. unfold shown, Home.applyFilters. clear shown.
  set (byFamily :=
         match filterFamilyId with
         | Some id =>
             if id =? 0 then allBills
             else List.filter
                    (fun bill => existsb (fun f => FamilyData.id f =? id)
                                   (ResultData.families bill)) allBills
         | None => allBills
         end).
  assert (sublist byFamily allBills) as Hsub1.
  { unfold byFamily. destruct filterFamilyId as [id|]; [|reflexivity].
    destruct (id =? 0); [reflexivity | apply List_filter_sublist]. }
  assert (forall bill, bill ∈ byFamily <->
            bill ∈ allBills /\
            (forall id, filterFamilyId = Some id -> id <> 0 ->
                        id ∈ map FamilyData.id (ResultData.families bill))) as Hmem1.
  { intros bill. unfold byFamily. destruct filterFamilyId as [id|].
    - destruct (Z.eqb_spec id 0) as [->|Hne].
      + split; [intros H; split; [exact H|]; intros ? [= <-] ?; contradiction | tauto].
      + rewrite elem_of_List_filter, existsb_exists. split.
        * intros [Hin (f & Hf & Heq)]. split; [exact Hin|]. intros id' [= <-] _.
          apply Z.eqb_eq in Heq as <-. apply list_elem_of_fmap.
          exists f. split; [reflexivity | by apply list_elem_of_In].
        * intros [Hin Hfam]. split; [exact Hin|].
          specialize (Hfam id eq_refl Hne).
          apply list_elem_of_fmap in Hfam as (f & -> & Hf).
          exists f. split; [by apply list_elem_of_In | apply Z.eqb_refl].
    - split; [intros H; split; [exact H|]; intros ? [=] | tauto]. }
  assert (forall l : list ResultData.t,
             List.filter (fun _ : ResultData.t => false) l = []) as Hnone.
  { induction l as [|b l IH]; [reflexivity | exact IH]. }
  destruct (Text.infinity filterMinAmount) as [[|]|] eqn:Einf.
  - (* minus infinity *)
    split; [exact Hsub1|]. split; [|split].
    + intros bill. rewrite Hmem1. split; [|tauto].
      intros [Hin Hfam]. split; [exact Hin|]. split; [exact Hfam|].
      split; [discriminate|]. intros ? [=].
    + intros Hnofam _ _. unfold byFamily. destruct Hnofam as [-> | ->]; reflexivity.
    + discriminate.
  - (* infinity *)
    rewrite Hnone. split; [apply sublist_nil_l|]. split; [|split].
    + intros bill. split; [intros H; inversion H|]. intros (_ & _ & H & _). congruence.
    + intros _ H. congruence.
    + reflexivity.
  - split; [|split; [|split]].
    + destruct (Text.parseFloat filterMinAmount) as [q|]; [|exact Hsub1].
      destruct (Qle_bool q 0); simpl; [exact Hsub1|].
      etransitivity; [apply List_filter_sublist | exact Hsub1].
    + intros bill. destruct (Text.parseFloat filterMinAmount) as [q|].
      * destruct (Qle_bool q 0) eqn:Eq; simpl.
        -- rewrite Hmem1. apply Qle_bool_iff in Eq.
           split; [|tauto]. intros [Hin Hfam]. split; [exact Hin|]. split; [exact Hfam|].
           split; [discriminate|]. intros q' _ [= <-] Hpos. lra.
        -- rewrite elem_of_List_filter, Hmem1, Qle_bool_iff.
           assert (0 < q)%Q as Hpos.
           { destruct (Qlt_le_dec 0 q) as [|Hle]; [assumption|].
             apply Qle_bool_iff in Hle. congruence. }
           split.
           ++ intros [[Hin Hfam] Hle]. split; [exact Hin|]. split; [exact Hfam|].
              split; [discriminate|]. intros q' _ [= <-] _. exact Hle.
           ++ intros (Hin & Hfam & _ & Hmin). split; [tauto|]. by apply Hmin.
      * rewrite Hmem1. split; [|tauto].
        intros [Hin Hfam]. split; [exact Hin|]. split; [exact Hfam|].
        split; [discriminate|]. intros ? _ [=].
    + intros Hnofam _ Hnomin.
      assert (byFamily = allBills) as ->.
      { unfold byFamily. destruct Hnofam as [-> | ->]; reflexivity. }
      destruct (Text.parseFloat filterMinAmount) as [q|]; [|reflexivity].
      specialize (Hnomin q eq_refl eq_refl). apply Qle_bool_iff in Hnomin.
      rewrite Hnomin. reflexivity.
    + discriminate.
Qed.

Lemma applyFilters_shows_witness :
  let a := FamilyData.mk 1700000000001 "A" 2 (ExtraService.mk false 0) in
  let b := FamilyData.mk 1700000000002 "B" 1 (ExtraService.mk false 0) in
  let december := ResultData.mk (Some 1700000000000) "2023年 12月" 300 100 [a; b] in
  let january := ResultData.mk (Some 1700000500000) "2024年 01月" 120 60 [a] in
  let february := ResultData.mk (Some 1700000900000) "2024年 02月" 90 90 [b] in
  let allBills := [february; january; december] in
  Home.applyFilters allBills (Some 1700000000001) "100" = [january; december] /\
  (january ∈ Home.applyFilters allBills (Some 1700000000001) "100") /\
  Home.applyFilters allBills None "-5" = allBills /\
  Home.applyFilters allBills None "Infinity" = [].
Proof.
  intros a b december january february allBills.
  destruct (applyFilters_shows allBills (Some 1700000000001) "100") as (_ & Hmem & _).
  destruct (applyFilters_shows allBills None "-5") as (_ & _ & Hall & _).
  destruct (applyFilters_shows allBills None "Infinity") as (_ & _ & _ & Hinf).
  split; [vm_compute; reflexivity|]. split; [|split].
  - apply Hmem. split; [right; left|]. split; [|split].
    + intros id [= <-] _. simpl. left.
    + vm_compute. discriminate.
    + intros q _ [= <-] _. vm_compute. discriminate.
  - apply Hall; [by left| vm_compute; discriminate |].
    intros q _ [= <-]. vm_compute. discriminate.
  - apply Hinf. vm_compute. reflexivity.
Defined.

Lemma List_filter_all {A : Type} (p : A -> bool) (l : list A) :
  (forall x, x ∈ l -> p x = true) -> List.filter p l = l.
Proof.
  induction l as [|x l IH]; intros H; [reflexivity|]. simpl.
  rewrite (H x) by left. f_equal. apply IH. intros y Hy. apply H. by right.
Qed.

Lemma length_filter_NoDup_one (i : option Z) (l : list ResultData.t) :
  NoDup (map ResultData.id l) -> i ∈ map ResultData.id l ->
  S (length (List.filter (fun b => negb (bool_decide (ResultData.id b = i))) l))
  = length l.
Proof.
  induction l as [|b l IH]; intros Hnd Hin; [inversion Hin|].
  simpl in *. apply NoDup_cons in Hnd as [Hb Hnd].
  destruct (decide (ResultData.id b = i)) as [Heq|Hne].
  - rewrite bool_decide_eq_true_2 by assumption. simpl. f_equal.
    rewrite List_filter_all; [reflexivity|].
    intros x Hx. apply negb_true_iff, bool_decide_eq_false_2. intros Hxi.
    apply Hb. rewrite Heq, <- Hxi. by apply list_elem_of_fmap_2.
  - rewrite bool_decide_eq_false_2 by assumption. simpl. f_equal.
    apply IH; [exact Hnd|]. apply elem_of_cons in Hin as [Hin|Hin]; [congruence | exact Hin].
Qed.

(** X10.  Deleting a bill deletes every bill that has its identifier and
    keeps all others, in their order; when the identifiers in the history
    are pairwise distinct and the bill is in it, exactly one bill goes. *)
Theorem handleDeleteBill_removes (billToDelete : ResultData.t)
    (allBills : list ResultData.t) :
  let kept := Home.handleDeleteBill billToDelete allBills in
  sublist kept allBills /\
  (forall b, b ∈ kept <-> b ∈ allBills /\ ResultData.id b <> ResultData.id billToDelete) /\
  (NoDup (map ResultData.id allBills) -> billToDelete ∈ allBills ->
   S (length kept) = length allBills).
Proof.
  intros kept. unfold kept, Home.handleDeleteBill. split; [|split].
  - apply List_filter_sublist.
  - intros b. rewrite elem_of_List_filter, negb_true_iff, bool_decide_eq_false. tauto.
  - intros Hnd Hin. apply length_filter_NoDup_one; [exact Hnd|].
    by apply list_elem_of_fmap_2.
Qed.

Lemma handleDeleteBill_removes_witness :
  let december := ResultData.mk (Some 1700000000000) "2023年 12月" 300 100 [] in
  let january := ResultData.mk (Some 1700000500000) "2024年 01月" 120 60 [] in
  let allBills := [january; december] in
  NoDup (map ResultData.id allBills) /\ january ∈ allBills /\
  S (length (Home.handleDeleteBill january allBills)) = length allBills /\
  (december ∈ Home.handleDeleteBill january allBills).
Proof.
  intros december january allBills.
  assert (NoDup (map ResultData.id allBills)) as Hnd.
  { simpl. apply NoDup_cons. split; [|apply NoDup_singleton].
    intros H. apply list_elem_of_singleton in H. discriminate. }
  assert (january ∈ allBills) as Hin by left.
  destruct (handleDeleteBill_removes january allBills) as (_ & Hmem & Hone).
  split; [exact Hnd|]. split; [exact Hin|]. split; [exact (Hone Hnd Hin)|].
  apply Hmem. split; [right; left | discriminate].
Defined.

Lemma isSelected_singleton (i : Z) (b : ResultData.t) :
  Home.isSelected {[i]} b = bool_decide (ResultData.id b = Some i).
Proof.
  unfold Home.isSelected. destruct (ResultData.id b) as [j|].
  - destruct (decide (j = i)) as [->|Hne].
    + rewrite !bool_decide_eq_true_2; [reflexivity..|]. by apply elem_of_singleton.
    + rewrite !bool_decide_eq_false_2; [reflexivity|congruence|].
      intros H. apply elem_of_singleton in H. contradiction.
  - rewrite bool_decide_eq_false_2 by discriminate. reflexivity.
Qed.

(** X11.  Deleting the selected bills keeps exactly the bills whose
    identifier is not selected, in their order; with nothing selected
    nothing is deleted, and with one identifier selected the result is that
    of deleting one bill with that identifier. *)
Theorem handleBulkDelete_removes (selectedBillIds : gset Z)
    (allBills : list ResultData.t) :
  let kept := Home.handleBulkDelete selectedBillIds allBills in
  sublist kept allBills /\
  (forall b, b ∈ kept <->
             b ∈ allBills /\ forall i, ResultData.id b = Some i -> i ∉ selectedBillIds) /\
  Home.handleBulkDelete ∅ allBills = allBills /\
  (forall bill i, ResultData.id bill = Some i ->
                  Home.handleBulkDelete {[i]} allBills = Home.handleDeleteBill bill allBills).
Proof.
  intros kept. unfold kept, Home.handleBulkDelete. split; [|split; [|split]].
  - apply List_filter_sublist.
  - intros b. rewrite elem_of_List_filter, negb_true_iff. unfold Home.isSelected.
    destruct (ResultData.id b) as [j|].
    + rewrite bool_decide_eq_false. split.
      * intros [Hin Hj]. split; [exact Hin|]. by intros i [= <-].
      * intros [Hin Hj]. split; [exact Hin | by apply Hj].
    + split; [intros [Hin _]; split; [exact Hin | intros i [=]] | tauto].
  - apply List_filter_all. intros b _. unfold Home.isSelected.
    destruct (ResultData.id b); [|reflexivity].
    apply negb_true_iff, bool_decide_eq_false_2, not_elem_of_empty.
  - intros bill i Hid. unfold Home.handleDeleteBill. rewrite Hid.
    apply filter_ext. intros b. by rewrite isSelected_singleton.
Qed.

Lemma handleBulkDelete_removes_witness :
  let december := ResultData.mk (Some 1700000000000) "2023年 12月" 300 100 [] in
  let january := ResultData.mk (Some 1700000500000) "2024年 01月" 120 60 [] in
  let february := ResultData.mk (Some 1700000900000) "2024年 02月" 90 90 [] in
  let allBills := [february; january; december] in
  (january ∈ Home.handleBulkDelete {[1700000900000; 1700000000000]} allBills) /\
  Home.handleBulkDelete {[1700000500000]} allBills
  = Home.handleDeleteBill january allBills.
Proof.
  intros december january february allBills.
  destruct (handleBulkDelete_removes {[1700000900000; 1700000000000]} allBills)
    as (_ & Hmem & _).
  destruct (handleBulkDelete_removes {[1700000500000]} allBills) as (_ & _ & _ & Hone).
  split.
  - apply Hmem. split; [right; left|]. intros i [= <-].
    rewrite elem_of_union, !elem_of_singleton. intros [H|H]; discriminate.
  - apply (Hone january). reflexivity.
Defined.

(** X12.  Tapping a bill in edit mode, or a family on the batch screen,
    flips that one identifier in the selection and no other; tapping twice
    leaves the selection as it was. *)
Theorem toggle_twice (id : Z) (selectedBillIds : gset Z) (st : Batch.State) :
  Home.toggleBillSelection id (Home.toggleBillSelection id selectedBillIds)
  = selectedBillIds /\
  (forall j, j ∈ Home.toggleBillSelection id selectedBillIds <->
             (j = id /\ id ∉ selectedBillIds) \/ (j <> id /\ j ∈ selectedBillIds)) /\
  Batch.toggleFamilySelection id (Batch.toggleFamilySelection id st) = st /\
  (forall j, j ∈ Batch.selectedFamilyIds (Batch.toggleFamilySelection id st) <->
             (j = id /\ id ∉ Batch.selectedFamilyIds st)
             \/ (j <> id /\ j ∈ Batch.selectedFamilyIds st)).
Proof.
  assert (forall (s : gset Z) j,
             j ∈ (if decide (id ∈ s) then s ∖ {[id]} else s ∪ {[id]}) <->
             (j = id /\ id ∉ s) \/ (j <> id /\ j ∈ s)) as Hflip.
  { intros s j. destruct (decide (id ∈ s)) as [Hin|Hout].
    - rewrite elem_of_difference, elem_of_singleton. tauto.
    - rewrite elem_of_union, elem_of_singleton.
      destruct (decide (j = id)) as [->|Hne]; tauto. }
  assert (forall s : gset Z,
             (if decide (id ∈ (if decide (id ∈ s) then s ∖ {[id]} else s ∪ {[id]}))
              then (if decide (id ∈ s) then s ∖ {[id]} else s ∪ {[id]}) ∖ {[id]}
              else (if decide (id ∈ s) then s ∖ {[id]} else s ∪ {[id]}) ∪ {[id]}) = s)
    as Htwice.
  { intros s. apply set_eq. intros j. rewrite Hflip.
    pose proof (Hflip s id) as Hid. pose proof (Hflip s j) as Hj.
    destruct (decide (j = id)) as [->|Hne]; destruct (decide (id ∈ s)); tauto. }
  split; [apply Htwice|]. split; [apply Hflip|]. split; [|apply Hflip].
  unfold Batch.toggleFamilySelection. simpl. rewrite Htwice. destruct st; reflexivity.
Qed.

Lemma toggle_twice_witness :
  let selected : gset Z := {[1700000000000]} in
  Home.toggleBillSelection 1700000500000
    (Home.toggleBillSelection 1700000500000 selected) = selected /\
  (1700000500000 ∈ Home.toggleBillSelection 1700000500000 selected) /\
  (1700000000000 ∈ Home.toggleBillSelection 1700000500000 selected).
Proof.
  intros selected.
  destruct (toggle_twice 1700000500000 selected
              (Batch.mkState [] ∅ ∅ "" None None)) as (Htwice & Hflip & _).
  split; [exact Htwice|].
  assert (1700000500000 ∉ selected) as Hout.
  { unfold selected. rewrite elem_of_singleton. discriminate. }
  split; apply Hflip.
  - left. split; [reflexivity | exact Hout].
  - right. split; [discriminate|]. unfold selected. by apply elem_of_singleton.
Defined.

(** ** The total of a summary *)

Lemma Qsum_cons (x : Q) (l : list Q) : (Qsum (x :: l) == x + Qsum l)%Q.
Proof.
  pose proof (Qsum_map_cons (fun q : Q => q) x l) as H.
  rewrite !List.map_id in H. exact H.
Qed.

Lemma Qsum_app (a b : list Q) : (Qsum (a ++ b) == Qsum a + Qsum b)%Q.
Proof.
  induction a as [|x a IH]; simpl.
  - change (Qsum []) with 0%Q. ring.
  - rewrite !Qsum_cons, IH. ring.
Qed.

Lemma Qsum_Permutation (a b : list Q) : a ≡ₚ b -> (Qsum a == Qsum b)%Q.
Proof.
  induction 1 as [|x a b _ IH|x y a|a b c _ IH1 _ IH2].
  - reflexivity.
  - rewrite !Qsum_cons, IH. reflexivity.
  - rewrite !Qsum_cons. ring.
  - rewrite IH1. exact IH2.
Qed.

Lemma objectTotal_set (k : string) (v : Home.Totals.t) (o : JsObject.t Home.Totals.t) :
  (objectTotal (JsObject.set k v o)
   == objectTotal o - totalUnder o k + Home.Totals.totalCost v)%Q.
Proof.
  unfold objectTotal, totalUnder. induction o as [|[k' v'] o IH]; simpl.
  - rewrite Qsum_cons. change (Qsum []) with 0%Q. simpl. ring.
  - destruct (decide (k' = k)) as [->|Hne]; simpl.
    + rewrite !Qsum_cons. simpl. ring.
    + rewrite !Qsum_cons, IH. simpl. ring.
Qed.

Lemma totalUnder_set_eq (k : string) (v : Home.Totals.t) (o : JsObject.t Home.Totals.t) :
  totalUnder (JsObject.set k v o) k = Home.Totals.totalCost v.
Proof. unfold totalUnder. rewrite get_set_eq. reflexivity. Qed.

Lemma objectTotal_addParticipation (o : JsObject.t Home.Totals.t)
    (p : ResultData.t * FamilyData.t) :
  (objectTotal (addParticipation o p)
   == objectTotal o + Home.Breakdown.cost (contribution p))%Q.
Proof.
  unfold addParticipation. rewrite objectTotal_set.
  unfold totalUnder, addContribution, contribution, Home.Totals.add, Home.Totals.empty.
  destruct (JsObject.get (Home.familyName p.2) o) as [e|];
    cbn [default from_option Home.Totals.totalCost Home.Breakdown.cost]; unfold id; ring.
Qed.

Lemma objectTotal_fold (ps : list (ResultData.t * FamilyData.t))
    (o : JsObject.t Home.Totals.t) :
  (objectTotal (fold_left addParticipation ps o)
   == objectTotal o + Qsum (map (fun p => Home.Breakdown.cost (contribution p)) ps))%Q.
Proof.
  revert o. induction ps as [|p ps IH]; intros o.
  - simpl. change (Qsum []) with 0%Q. ring.
  - cbn [fold_left map]. rewrite IH, objectTotal_addParticipation, Qsum_cons. ring.
Qed.

Lemma totalUnder_keys (o : JsObject.t Home.Totals.t) :
  NoDup (map fst o) ->
  map (totalUnder o) (map fst o) = map (fun kv => Home.Totals.totalCost kv.2) o.
Proof.
  induction o as [|[k v] o IH]; intros Hnd; [reflexivity|].
  simpl in *. apply NoDup_cons in Hnd as [Hk Hnd]. f_equal.
  - unfold totalUnder. simpl. rewrite decide_True by reflexivity. reflexivity.
  - rewrite <- IH by assumption. apply map_ext_in. intros k' Hk'.
    unfold totalUnder. simpl. rewrite decide_False; [reflexivity|].
    intros ->. apply Hk. by apply list_elem_of_In.
Qed.

Lemma summaryArray_totals (o : JsObject.t Home.Totals.t) :
  map (fun item => Home.Totals.totalCost (Home.SummaryResult.totals item))
    (Home.summaryArray o)
  = map (totalUnder o) (JsObject.keys o).
Proof.
  unfold Home.summaryArray.
  assert (forall k, k ∈ JsObject.keys o -> is_Some (JsObject.get k o)) as H.
  { intros k Hk. rewrite keys_Permutation in Hk. by apply elem_get_is_Some. }
  induction (JsObject.keys o) as [|k ks IH]; [reflexivity|].
  simpl. destruct (H k) as [t Ht]; [left|]. unfold totalUnder at 1. rewrite Ht. simpl.
  f_equal. apply IH. intros k' Hk'. apply H. by right.
Qed.

Lemma totalAmount_objectTotal (o : JsObject.t Home.Totals.t) :
  NoDup (map fst o) -> (Home.totalAmount (Home.summaryArray o) == objectTotal o)%Q.
Proof.
  intros Hnd. unfold Home.totalAmount, objectTotal.
  rewrite <- Qsum_map_fold, summaryArray_totals, <- totalUnder_keys by assumption.
  apply Qsum_Permutation, fmap_Permutation, keys_Permutation.
Qed.

(** X13.  The last row of the summary report, when a summary is shown: the
    total over the families equals the sum, over every participation of every
    bill in range, of lines times rate plus the stored extra cost; grouping
    by name moves amounts between rows and loses none.  Amounts are exact
    rationals. *)
Theorem summary_total_is_sum_of_contributions (st : Home.State)
    (summaryData : list Home.SummaryResult.t) (dateRange : string) :
  Home.handleCalculateSummary st = Home.Summary summaryData dateRange ->
  (Home.totalAmount summaryData
   == Qsum (map (fun p =>
                   inject_Z (FamilyData.lines p.2) * ResultData.costPerLine p.1
                   + ExtraService.cost (FamilyData.extraService p.2))
              (participations (billsInRange st))))%Q.
Proof.
  intros Hrun. apply handleCalculateSummary_shown in Hrun as [-> _].
  rewrite totalAmount_objectTotal by apply summaryObject_keys_NoDup.
  unfold summaryObject. rewrite objectTotal_fold.
  change (objectTotal []) with 0%Q. rewrite Qplus_0_l. reflexivity.
Qed.

Lemma summary_total_is_sum_of_contributions_witness :
  let a := FamilyData.mk 1 "A" 2 (ExtraService.mk false 5) in
  let b := FamilyData.mk 2 "B" 1 (ExtraService.mk true 30) in
  let january := ResultData.mk (Some 1700000000000) "2024年 01月" 305 90 [a; b] in
  let february := ResultData.mk (Some 1700000500000) "2024年 02月" 300 100 [a; b] in
  let st := Home.mkState (Some (newDate 2024 0 1)) (Some (newDate 2024 1 1))
              [february; january] in
  let entryA :=
    Home.SummaryResult.mk "A"
      (Home.Totals.mk 0 0 0 390
         [Home.Breakdown.mk "2024年 02月" 205; Home.Breakdown.mk "2024年 01月" 185]) in
  let entryB :=
    Home.SummaryResult.mk "B"
      (Home.Totals.mk 0 0 0 250
         [Home.Breakdown.mk "2024年 02月" 130; Home.Breakdown.mk "2024年 01月" 120]) in
  Home.handleCalculateSummary st
    = Home.Summary [entryA; entryB] "2024年 01月 至 2024年 02月" /\
  (Home.totalAmount [entryA; entryB] == 640)%Q.
Proof.
  intros a b january february st entryA entryB.
  assert (Home.handleCalculateSummary st
          = Home.Summary [entryA; entryB] "2024年 01月 至 2024年 02月") as Hrun
    by (vm_compute; reflexivity).
  split; [exact Hrun|].
  rewrite (summary_total_is_sum_of_contributions st _ _ Hrun). reflexivity.
Defined.

(** ** Batches *)

Lemma length_newBills (st : Batch.State) (rate : Q) (clock : nat -> Z)
    (startDate endDate : Date) :
  length (Batch.newBills st rate clock startDate endDate)
  = length (Batch.months startDate endDate).
Proof.
  rewrite <- (length_map ResultData.billMonth), newBills_billMonth.
  apply length_map.
Qed.

(** X14.  Batch creation on aligned months: when a run reports success, the
    start is on a day that every month has (the 28th at the latest) and the
    end is not earlier within its month than the start, the stored bills are
    kept and exactly one bill is appended for every calendar month from the
    start's to the end's, in calendar order; the number reported is the
    number of those months. *)
Theorem handleBatchCreate_aligned_creates_every_month (st : Batch.State)
    (clock : nat -> Z) (store store' : BillStore) (n : nat)
    (startDate endDate : Date) :
  Batch.startDate st = Some startDate -> Batch.endDate st = Some endDate ->
  getDate startDate <= 28 -> notLaterInMonth startDate endDate ->
  Batch.handleBatchCreate st clock store = Some (Batch.Created n, store') ->
  n = Z.to_nat (monthIndex endDate - monthIndex startDate + 1) /\
  exists newBills,
    store' = Some (readBills store ++ newBills) /\
    length newBills = n /\
    map ResultData.billMonth newBills
    = map monthToken
        (seqZ (monthIndex startDate) (monthIndex endDate - monthIndex startDate + 1)).
Proof.
  intros Hs He Hday Hpos Hrun.
  apply handleBatchCreate_created in Hrun as (s & e & Hs' & He' & Hn & Hst).
  assert (s = startDate) as -> by congruence. assert (e = endDate) as -> by congruence.
  cbv zeta in Hn, Hst.
  assert (n = Z.to_nat (monthIndex endDate - monthIndex startDate + 1)) as Hcount.
  { rewrite Hn, length_newBills.
    rewrite <- (length_map (fun d => formatBillMonth (Some d))).
    rewrite months_aligned by assumption.
    rewrite length_map, length_seqZ. reflexivity. }
  split; [exact Hcount|].
  eexists. split; [exact Hst|]. split; [symmetry; exact Hn|].
  rewrite newBills_billMonth. by apply months_aligned.
Qed.

Lemma handleBatchCreate_aligned_creates_every_month_witness :
  let st := Batch.mkState
              [SavedFamily.mk 1 "A" [Member.mk 1 "a"; Member.mk 2 "b"];
               SavedFamily.mk 2 "B" [Member.mk 3 "c"]]
              {[1; 2]} {[2 := "30"]} "300"
              (Some (newDate 2023 10 15)) (Some (newDate 2024 1 20)) in
  let stored := Some [ResultData.mk (Some 1700000000000) "2023年 10月" 300 100 []] in
  let families :=
    [FamilyData.mk 1 "A" 2 (ExtraService.mk false 0);
     FamilyData.mk 2 "B" 1 (ExtraService.mk true 30)] in
  let created :=
    [ResultData.mk (Some 3400006400000) "2023年 11月" 300 (270 # 3) families;
     ResultData.mk (Some 3402598400000) "2023年 12月" 300 (270 # 3) families;
     ResultData.mk (Some 3405276800000) "2024年 01月" 300 (270 # 3) families;
     ResultData.mk (Some 3407955200000) "2024年 02月" 300 (270 # 3) families] in
  Batch.handleBatchCreate st (fun _ => 1700000000000) stored
    = Some (Batch.Created 4, Some (readBills stored ++ created)) /\
  4%nat = Z.to_nat (monthIndex (newDate 2024 1 20) - monthIndex (newDate 2023 10 15) + 1) /\
  exists newBills,
    Some (readBills stored ++ created) = Some (readBills stored ++ newBills) /\
    length newBills = 4%nat /\
    map ResultData.billMonth newBills
    = ["2023年 11月"; "2023年 12月"; "2024年 01月"; "2024年 02月"].
Proof.
  intros st stored families created.
  assert (Batch.handleBatchCreate st (fun _ => 1700000000000) stored
          = Some (Batch.Created 4, Some (readBills stored ++ created))) as Hrun
    by (vm_compute; reflexivity).
  split; [exact Hrun|].
  apply (handleBatchCreate_aligned_creates_every_month st (fun _ => 1700000000000) stored
           _ 4 (newDate 2023 10 15) (newDate 2024 1 20)).
  - reflexivity.
  - reflexivity.
  - vm_compute. discriminate.
  - left. vm_compute. reflexivity.
  - exact Hrun.
Defined.

(** X15.  Batch creation always ends with an alert (no quotient by zero is
    ever taken) and never removes or changes a stored bill: the store
    afterwards holds the bills it held, followed by the new ones, of which
    there are none after a validation alert and as many as the success alert
    reports otherwise. *)
Theorem handleBatchCreate_keeps_stored_bills (st : Batch.State) (clock : nat -> Z)
    (store : BillStore) :
  exists alert store' newBills,
    Batch.handleBatchCreate st clock store = Some (alert, store') /\
    readBills store' = readBills store ++ newBills /\
    length newBills = match alert with Batch.Created n => n | _ => 0%nat end.
Proof.
  rewrite handleBatchCreate_eq.
  destruct (Batch.startDate st) as [s|], (Batch.endDate st) as [e|];
    repeat match goal with
           | |- context [if ?c then _ else _] => destruct c
           end;
    try (exists Batch.Incomplete, store, []; rewrite app_nil_r; auto; fail);
    try (exists Batch.DateError, store, []; rewrite app_nil_r; auto; fail);
    try (exists Batch.AmountError, store, []; rewrite app_nil_r; auto; fail).
  eexists _, _, _. split; [reflexivity|]. split; reflexivity.
Qed.

(** X16.  A batch that reports success created at least one bill, and the
    first one is the bill of the start month, identified by the clock of the
    first round plus the time value of the start. *)
Theorem handleBatchCreate_first_bill (st : Batch.State) (clock : nat -> Z)
    (store store' : BillStore) (n : nat) :
  Batch.handleBatchCreate st clock store = Some (Batch.Created n, store') ->
  exists startDate first rest,
    Batch.startDate st = Some startDate /\
    store' = Some (readBills store ++ first :: rest) /\
    n = S (length rest) /\
    ResultData.billMonth first = formatBillMonth (Some startDate) /\
    ResultData.id first = Some (clock 0%nat + getTime startDate).
Proof.
  rewrite handleBatchCreate_eq. intros [= H].
  destruct (Batch.startDate st) as [s|], (Batch.endDate st) as [e|]; try discriminate.
  destruct (_ || _); [discriminate|].
  destruct (Z.ltb_spec (getTime e) (getTime s)) as [|Hle]; [discriminate|].
  destruct (Qlt_le_dec _ _); [discriminate|].
  cbv zeta in H. unfold Batch.newBills in H. rewrite months_unfold in H.
  destruct (Z.leb_spec (getTime s) (getTime e)) as [_|]; [|lia].
  simpl in H. injection H as <- <-.
  eexists s, _, _. repeat split.
Qed.

Lemma handleBatchCreate_first_bill_witness :
  let st := Batch.mkState
              [SavedFamily.mk 1 "A" [Member.mk 1 "a"; Member.mk 2 "b"]]
              {[1]} ∅ "300"
              (Some (newDate 2024 0 31)) (Some (newDate 2024 0 31)) in
  let bill :=
    ResultData.mk (Some 3406659200000) "2024年 01月" 300 (300 # 2)
      [FamilyData.mk 1 "A" 2 (ExtraService.mk false 0)] in
  Batch.handleBatchCreate st (fun _ => 1700000000000) None
    = Some (Batch.Created 1, Some [bill]) /\
  exists startDate first rest,
    Batch.startDate st = Some startDate /\
    Some [bill] = Some (readBills None ++ first :: rest) /\
    1%nat = S (length rest) /\
    ResultData.billMonth first = formatBillMonth (Some startDate) /\
    ResultData.id first = Some (1700000000000 + getTime startDate).
Proof.
  intros st bill.
  assert (Batch.handleBatchCreate st (fun _ => 1700000000000) None
          = Some (Batch.Created 1, Some [bill])) as Hrun by (vm_compute; reflexivity).
  split; [exact Hrun|].
  exact (handleBatchCreate_first_bill st (fun _ => 1700000000000) None _ 1 Hrun).
Defined.

Lemma familiesForBill_handleExtraServiceChange (familyId : Z) (cost : string)
    (st : Batch.State) :
  familyId ∉ Batch.selectedFamilyIds st ->
  Batch.familiesForBill (Batch.handleExtraServiceChange familyId cost st)
  = Batch.familiesForBill st.
Proof.
  intros Hsel. unfold Batch.familiesForBill.
  change (Batch.selectedFamilies (Batch.handleExtraServiceChange familyId cost st))
    with (Batch.selectedFamilies st).
  apply map_ext_in. intros f Hf. apply list_elem_of_In in Hf.
  unfold Batch.selectedFamilies in Hf. apply list_elem_of_filter in Hf as [Hf _].
  assert (Batch.extraCost (Batch.handleExtraServiceChange familyId cost st) f
          = Batch.extraCost st f) as Hc.
  { unfold Batch.extraCost, Batch.handleExtraServiceChange. simpl.
    rewrite lookup_insert_ne; [reflexivity|]. intros ->. contradiction. }
  unfold Batch.familyForBill. rewrite Hc. reflexivity.
Qed.

(** X17.  The extra-service cost typed for a family that is not selected
    plays no part in batch creation: the alert and the store afterwards are
    the same with and without it. *)
Theorem handleExtraServiceChange_unselected (familyId : Z) (cost : string)
    (st : Batch.State) (clock : nat -> Z) (store : BillStore) :
  familyId ∉ Batch.selectedFamilyIds st ->
  Batch.handleBatchCreate (Batch.handleExtraServiceChange familyId cost st) clock store
  = Batch.handleBatchCreate st clock store.
Proof.
  intros Hsel.
  pose proof (familiesForBill_handleExtraServiceChange familyId cost st Hsel) as Hf.
  set (st' := Batch.handleExtraServiceChange familyId cost st) in *.
  assert (Batch.totalLineCost st' = Batch.totalLineCost st) as Hl.
  { unfold Batch.totalLineCost, Batch.totalExtraServiceCost. rewrite Hf. reflexivity. }
  assert (Batch.costPerLine st' = Batch.costPerLine st) as Hr.
  { unfold Batch.costPerLine, Batch.totalLines. rewrite Hl, Hf. reflexivity. }
  assert (forall rate s e,
             Batch.newBills st' rate clock s e = Batch.newBills st rate clock s e) as Hn.
  { intros rate s e. unfold Batch.newBills, Batch.newBill. rewrite Hf. reflexivity. }
  unfold Batch.handleBatchCreate. rewrite Hl, Hr.
  change (Batch.startDate st') with (Batch.startDate st).
  change (Batch.endDate st') with (Batch.endDate st).
  change (Batch.selectedFamilyIds st') with (Batch.selectedFamilyIds st).
  change (Batch.totalCost st') with (Batch.totalCost st).
  destruct (Batch.startDate st), (Batch.endDate st); try reflexivity.
  destruct (_ || _); [reflexivity|].
  destruct (_ <? _); [reflexivity|].
  destruct (Qlt_le_dec _ _); [reflexivity|].
  destruct (Batch.costPerLine st); [|reflexivity]. simpl. rewrite Hn. reflexivity.
Qed.

Lemma handleExtraServiceChange_unselected_witness :
  let st := Batch.mkState
              [SavedFamily.mk 1 "A" [Member.mk 1 "a"; Member.mk 2 "b"];
               SavedFamily.mk 2 "B" [Member.mk 3 "c"]]
              {[1]} ∅ "300"
              (Some (newDate 2024 0 1)) (Some (newDate 2024 0 1)) in
  let bill :=
    ResultData.mk (Some 3404067200000) "2024年 01月" 300 (300 # 2)
      [FamilyData.mk 1 "A" 2 (ExtraService.mk false 0)] in
  Batch.handleBatchCreate st (fun _ => 1700000000000) None
    = Some (Batch.Created 1, Some [bill]) /\
  Batch.handleBatchCreate (Batch.handleExtraServiceChange 2 "500" st)
    (fun _ => 1700000000000) None
    = Some (Batch.Created 1, Some [bill]).
Proof.
  intros st bill.
  assert (Batch.handleBatchCreate st (fun _ => 1700000000000) None
          = Some (Batch.Created 1, Some [bill])) as Hrun by (vm_compute; reflexivity).
  split; [exact Hrun|].
  rewrite (handleExtraServiceChange_unselected 2 "500" st (fun _ => 1700000000000) None).
  - exact Hrun.
  - vm_compute. intros H. discriminate H.
Defined.

(** ** The months of a summary *)

Lemma compare_cons (c1 c2 : ascii) (s1 s2 : string) :
  String.compare (String c1 s1) (String c2 s2)
  = match Ascii.compare c1 c2 with
    | Eq => String.compare s1 s2
    | ne => ne
    end.
Proof. reflexivity. Qed.

Lemma Ascii_compare_refl (c : ascii) : Ascii.compare c c = Eq.
Proof. unfold Ascii.compare. apply N.compare_refl. Qed.

Lemma Ascii_compare_digit (a b : Z) :
  0 <= a < 10 -> 0 <= b < 10 ->
  Ascii.compare (pretty_N_char (Z.to_N a)) (pretty_N_char (Z.to_N b)) = (a ?= b).
Proof.
  intros Ha Hb.
  assert (a = 0 \/ a = 1 \/ a = 2 \/ a = 3 \/ a = 4 \/ a = 5 \/ a = 6 \/ a = 7
          \/ a = 8 \/ a = 9) as Hc by lia.
  assert (b = 0 \/ b = 1 \/ b = 2 \/ b = 3 \/ b = 4 \/ b = 5 \/ b = 6 \/ b = 7
          \/ b = 8 \/ b = 9) as Hd by lia.
  repeat (destruct Hc as [-> | Hc]); try subst a;
    repeat (destruct Hd as [-> | Hd]); try subst b; reflexivity.
Qed.

(** The text of a year of four digits. *)
Lemma pretty_four_digits (y : Z) :
  1000 <= y <= 9999 ->
  pretty y
  = String (pretty_N_char (Z.to_N (y / 1000)))
      (String (pretty_N_char (Z.to_N (y / 100 mod 10)))
         (String (pretty_N_char (Z.to_N (y / 10 mod 10)))
            (String (pretty_N_char (Z.to_N (y mod 10))) ""))).
Proof.
  intros Hy. destruct y as [|p|p]; try lia.
  change (pretty (Z.pos p)) with (pretty_N_go (N.pos p) "").
  set (x := N.pos p). assert (Z.pos p = Z.of_N x) as -> by reflexivity.
  assert (1000 <= x <= 9999)%N as Hx by (unfold x; lia). clearbody x. clear Hy.
  assert (forall a b : N, (0 < b)%N -> Z.of_N (a `div` b) = Z.of_N a / Z.of_N b) as Hdiv
    by (intros; apply N2Z.inj_div).
  assert (forall a b : N, (0 < b)%N -> Z.of_N (a `mod` b) = Z.of_N a mod Z.of_N b) as Hmod
    by (intros; apply N2Z.inj_mod).
  set (x1 := (x `div` 10)%N). set (x2 := (x1 `div` 10)%N). set (x3 := (x2 `div` 10)%N).
  pose proof (Hdiv x 10%N eq_refl) as E1. fold x1 in E1.
  pose proof (Hdiv x1 10%N eq_refl) as E2. fold x2 in E2.
  pose proof (Hdiv x2 10%N eq_refl) as E3. fold x3 in E3.
  pose proof (Hdiv x3 10%N eq_refl) as E4.
  pose proof (Hmod x 10%N eq_refl) as M1.
  pose proof (Hmod x1 10%N eq_refl) as M2.
  pose proof (Hmod x2 10%N eq_refl) as M3.
  pose proof (Hmod x3 10%N eq_refl) as M4.
  change (Z.of_N 10) with 10 in *.
  rewrite (pretty_N_go_step x) by lia. fold x1.
  rewrite (pretty_N_go_step x1) by (apply N2Z.inj_lt; rewrite E1; simpl; divmod).
  fold x2.
  rewrite (pretty_N_go_step x2) by (apply N2Z.inj_lt; rewrite E2, E1; simpl; divmod).
  fold x3.
  rewrite (pretty_N_go_step x3) by (apply N2Z.inj_lt; rewrite E3, E2, E1; simpl; divmod).
  assert (x3 `div` 10 = 0)%N as -> by (apply N2Z.inj; rewrite E4, E3, E2, E1; simpl; divmod).
  rewrite pretty_N_go_0.
  assert (forall (a : N) (b : Z), Z.of_N a = b -> a = Z.to_N b) as Hto
    by (intros a b <-; symmetry; apply N2Z.id).
  repeat f_equal; apply Hto.
  - rewrite M4, E3, E2, E1. divmod.
  - rewrite M3, E2, E1. divmod.
  - rewrite M2, E1. divmod.
  - rewrite M1. reflexivity.
Qed.

(** The text of a month number, padded to two digits. *)
Lemma padStart_month (k : Z) :
  1 <= k <= 12 ->
  padStart 2 "0" (pretty k)
  = String (pretty_N_char (Z.to_N (k / 10))) (String (pretty_N_char (Z.to_N (k mod 10))) "").
Proof.
  intros Hk.
  assert (k = 1 \/ k = 2 \/ k = 3 \/ k = 4 \/ k = 5 \/ k = 6 \/ k = 7 \/ k = 8
          \/ k = 9 \/ k = 10 \/ k = 11 \/ k = 12) as Hc by lia.
  repeat (destruct Hc as [-> | Hc]); try subst k; reflexivity.
Qed.

(** Between the years 1000 and 9999 the order of the month tokens, as texts,
    is the order of the months. *)
Lemma monthToken_compare (M1 M2 : Z) :
  12000 <= M1 < 120000 -> 12000 <= M2 < 120000 ->
  String.compare (monthToken M1) (monthToken M2) = (M1 ?= M2).
Proof.
  intros H1 H2. unfold monthToken.
  rewrite (pretty_four_digits (M1 / 12)), (pretty_four_digits (M2 / 12)) by divmod.
  rewrite (padStart_month (M1 mod 12 + 1)), (padStart_month (M2 mod 12 + 1)) by divmod.
  rewrite !append_cons, !append_nil_l.
  rewrite !compare_cons, !Ascii_compare_refl, !Ascii_compare_digit by divmod.
  change (String.compare "月" "月") with Eq.
  set (y1 := M1 / 12) in *. set (k1 := M1 mod 12 + 1) in *.
  set (y2 := M2 / 12) in *. set (k2 := M2 mod 12 + 1) in *.
  assert (M1 = 12 * y1 + k1 - 1 /\ 1 <= k1 <= 12 /\ 1000 <= y1 <= 9999) as (EM1 & Hk1 & Hy1)
    by (unfold y1, k1; divmod).
  assert (M2 = 12 * y2 + k2 - 1 /\ 1 <= k2 <= 12 /\ 1000 <= y2 <= 9999) as (EM2 & Hk2 & Hy2)
    by (unfold y2, k2; divmod).
  clearbody y1 k1 y2 k2. subst M1 M2.
  assert (y1 = 1000 * (y1 / 1000) + 100 * (y1 / 100 mod 10) + 10 * (y1 / 10 mod 10)
               + y1 mod 10) as Ey1 by divmod.
  assert (y2 = 1000 * (y2 / 1000) + 100 * (y2 / 100 mod 10) + 10 * (y2 / 10 mod 10)
               + y2 mod 10) as Ey2 by divmod.
  assert (k1 = 10 * (k1 / 10) + k1 mod 10) as Ek1 by divmod.
  assert (k2 = 10 * (k2 / 10) + k2 mod 10) as Ek2 by divmod.
  assert (0 <= y1 / 100 mod 10 < 10 /\ 0 <= y1 / 10 mod 10 < 10 /\ 0 <= y1 mod 10 < 10
          /\ 0 <= k1 mod 10 < 10) as (? & ? & ? & ?) by divmod.
  assert (0 <= y2 / 100 mod 10 < 10 /\ 0 <= y2 / 10 mod 10 < 10 /\ 0 <= y2 mod 10 < 10
          /\ 0 <= k2 mod 10 < 10) as (? & ? & ? & ?) by divmod.
  generalize dependent (y1 / 1000). generalize dependent (y1 / 100 mod 10).
  generalize dependent (y1 / 10 mod 10). generalize dependent (y1 mod 10).
  generalize dependent (k1 / 10). generalize dependent (k1 mod 10).
  generalize dependent (y2 / 1000). generalize dependent (y2 / 100 mod 10).
  generalize dependent (y2 / 10 mod 10). generalize dependent (y2 mod 10).
  generalize dependent (k2 / 10). generalize dependent (k2 mod 10).
  intros. symmetry.
  repeat match goal with
         | |- context [match ?a ?= ?b with _ => _ end] =>
             destruct (Z.compare_spec a b)
         end;
    first [apply Z.compare_eq_iff | apply Z.compare_lt_iff | apply Z.compare_gt_iff]; lia.
Qed.

Lemma monthIndex_range (d : Date) :
  1000 <= getFullYear d <= 9999 -> 12000 <= monthIndex d < 120000.
Proof.
  intros Hy. pose proof (MonthFromTime_range (getTime d)) as Hm.
  unfold monthIndex, getMonth. lia.
Qed.

Lemma leb_monthToken (M1 M2 : Z) :
  12000 <= M1 < 120000 -> 12000 <= M2 < 120000 ->
  String.leb (monthToken M1) (monthToken M2) = true <-> M1 <= M2.
Proof.
  intros H1 H2. unfold String.leb. rewrite monthToken_compare by assumption.
  destruct (Z.compare_spec M1 M2); split; intros; try lia; try reflexivity; discriminate.
Qed.

(** X18.  The months of a summary are compared as texts, and for years of
    four digits this is the calendar: a stored bill whose month was written
    by [formatBillMonth] enters the summary of a range exactly when its month
    is not before the start's and not after the end's. *)
Theorem filteredBills_is_calendar_range (startDate endDate d : Date)
    (allBills : list ResultData.t) (bill : ResultData.t) :
  1000 <= getFullYear startDate <= 9999 ->
  1000 <= getFullYear endDate <= 9999 ->
  1000 <= getFullYear d <= 9999 ->
  bill ∈ allBills ->
  ResultData.billMonth bill = formatBillMonth (Some d) ->
  bill ∈ Home.filteredBills (formatBillMonth (Some startDate))
           (formatBillMonth (Some endDate)) allBills
  <-> monthIndex startDate <= monthIndex d <= monthIndex endDate.
Proof.
  intros Hs He Hd Hin Hmonth.
  apply monthIndex_range in Hs, He, Hd.
  unfold Home.filteredBills. rewrite elem_of_List_filter.
  unfold Home.inRange. rewrite Hmonth, !formatBillMonth_monthToken.
  rewrite andb_true_iff, !leb_monthToken by assumption.
  tauto.
Qed.

Lemma filteredBills_is_calendar_range_witness :
  let december := ResultData.mk (Some 1) "2023年 12月" 300 100 [] in
  let february := ResultData.mk (Some 2) "2024年 02月" 300 100 [] in
  let october := ResultData.mk (Some 3) "2024年 10月" 300 100 [] in
  let allBills := [october; february; december] in
  february ∈ Home.filteredBills "2023年 12月" "2024年 09月" allBills /\
  ~ october ∈ Home.filteredBills "2023年 12月" "2024年 09月" allBills.
Proof.
  intros december february october allBills.
  pose proof (filteredBills_is_calendar_range (newDate 2023 11 5) (newDate 2024 8 30)
                (newDate 2024 1 1) allBills february) as Hfeb.
  pose proof (filteredBills_is_calendar_range (newDate 2023 11 5) (newDate 2024 8 30)
                (newDate 2024 9 1) allBills october) as Hoct.
  split.
  - apply Hfeb; try (vm_compute; split; discriminate); try reflexivity.
    right. left.
  - intros Hin. apply Hoct in Hin; try (vm_compute; split; discriminate); try reflexivity.
    + vm_compute in Hin. destruct Hin as [_ Hin]. apply Hin. reflexivity.
    + left.
Defined.

(** ** The families screen *)

Lemma Families_findIndex_Some (id : Z) (fs : list SavedFamily.t) (i : nat) :
  Families.findIndex id fs = Some i ->
  exists f, fs !! i = Some f /\ SavedFamily.id f = id.
Proof.
  revert i. induction fs as [|f fs IH]; intros i; simpl; [discriminate|].
  destruct (Z.eqb_spec (SavedFamily.id f) id) as [Heq|_].
  - intros [= <-]. eauto.
  - destruct (Families.findIndex id fs) as [k|]; simpl; [|discriminate].
    intros [= <-]. apply (IH k eq_refl).
Qed.

Lemma Families_findIndex_None (id : Z) (fs : list SavedFamily.t) :
  Families.findIndex id fs = None <-> id ∉ map SavedFamily.id fs.
Proof.
  induction fs as [|f fs IH]; simpl.
  - split; [intros _ H; inversion H | reflexivity].
  - destruct (Z.eqb_spec (SavedFamily.id f) id) as [Heq|Hne].
    + split; [discriminate|]. intros H. exfalso. apply H. rewrite Heq. left.
    + destruct (Families.findIndex id fs) as [k|]; simpl.
      * split; [discriminate|]. intros H. exfalso.
        assert (id ∉ map SavedFamily.id fs) as H' by (intros H'; apply H; by right).
        apply IH in H'. discriminate.
      * split; [|reflexivity]. intros _ H. apply elem_of_cons in H as [H|H]; [congruence|].
        revert H. by apply IH.
Qed.

Lemma lookup_map_id (fs : list SavedFamily.t) (i : nat) (f : SavedFamily.t) :
  fs !! i = Some f -> map SavedFamily.id fs !! i = Some (SavedFamily.id f).
Proof.
  intros H. change (map SavedFamily.id fs) with (SavedFamily.id <$> fs).
  rewrite list_lookup_fmap, H. reflexivity.
Qed.

(** Among families with distinct identifiers, the identifier tells the
    family. *)
Lemma family_of_id (fs : list SavedFamily.t) (i j : nat) (f g : SavedFamily.t) :
  NoDup (map SavedFamily.id fs) ->
  fs !! i = Some f -> fs !! j = Some g -> SavedFamily.id f = SavedFamily.id g -> i = j.
Proof.
  intros Hnd Hi Hj Hid. apply lookup_map_id in Hi, Hj. rewrite Hid in Hi.
  exact (NoDup_lookup _ _ _ _ Hnd Hi Hj).
Qed.

Lemma map_id_insert (fs : list SavedFamily.t) (i : nat) (f g : SavedFamily.t) :
  fs !! i = Some f -> SavedFamily.id g = SavedFamily.id f ->
  map SavedFamily.id (<[i := g]> fs) = map SavedFamily.id fs.
Proof.
  intros Hi Hid. change (SavedFamily.id <$> <[i := g]> fs = SavedFamily.id <$> fs).
  rewrite list_fmap_insert. apply list_insert_id.
  rewrite list_lookup_fmap, Hi, Hid. reflexivity.
Qed.

(** X19.  Saving a family whose name is filled in, among stored families
    with distinct identifiers: the form closes; a stored family with the
    same identifier is replaced where it stands, otherwise the family is
    added at the end; identifiers stay distinct; the family then found under
    the identifier is the edited one without its blank members; and every
    family with another identifier is kept as it was. *)
Theorem handleSaveFamily_stores (st : Families.State) (cur : SavedFamily.t) :
  NoDup (map SavedFamily.id (Families.families st)) ->
  Families.currentFamily st = Some cur ->
  SavedFamily.name cur <> "" ->
  exists newFamilies,
    Families.handleSaveFamily st
    = Families.Saved (Families.mkState newFamilies false None) /\
    map SavedFamily.id newFamilies
    = (if decide (SavedFamily.id cur ∈ map SavedFamily.id (Families.families st))
       then map SavedFamily.id (Families.families st)
       else map SavedFamily.id (Families.families st) ++ [SavedFamily.id cur]) /\
    NoDup (map SavedFamily.id newFamilies) /\
    Families.finalFamily cur ∈ newFamilies /\
    (forall f, f ∈ newFamilies -> SavedFamily.id f = SavedFamily.id cur ->
               f = Families.finalFamily cur) /\
    (forall f, SavedFamily.id f <> SavedFamily.id cur ->
               (f ∈ newFamilies <-> f ∈ Families.families st)).
Proof.
  intros Hnd Hcur Hname.
  unfold Families.handleSaveFamily. rewrite Hcur.
  destruct (Text.falsy (SavedFamily.name cur)) eqn:Ef.
  { apply falsy_empty in Ef. contradiction. }
  cbv zeta. unfold Families.closeModal. cbn [Families.families].
  change (SavedFamily.id (Families.finalFamily cur)) with (SavedFamily.id cur).
  set (fs := Families.families st) in *. set (g := Families.finalFamily cur).
  destruct (Families.findIndex (SavedFamily.id cur) fs) as [i|] eqn:Ei.
  - apply Families_findIndex_Some in Ei as (f0 & Hi & Hid0).
    assert (SavedFamily.id cur ∈ map SavedFamily.id fs) as Hin.
    { apply list_elem_of_lookup. exists i. rewrite <- Hid0. by apply lookup_map_id. }
    assert (i < length fs)%nat as Hlt by (apply lookup_lt_is_Some; eauto).
    eexists. split; [reflexivity|].
    rewrite decide_True by assumption.
    rewrite (map_id_insert fs i f0 g Hi) by (symmetry; exact Hid0).
    split; [reflexivity|]. split; [assumption|]. split; [|split].
    + apply list_elem_of_lookup. exists i. by apply list_lookup_insert_eq.
    + intros f Hf Hid. apply list_elem_of_lookup in Hf as [j Hj].
      destruct (decide (i = j)) as [<-|Hne].
      * rewrite list_lookup_insert_eq in Hj by assumption. congruence.
      * rewrite list_lookup_insert_ne in Hj by assumption.
        exfalso. apply Hne. apply (family_of_id fs i j f0 f Hnd Hi Hj). congruence.
    + intros f Hid. rewrite !list_elem_of_lookup. split; intros [j Hj].
      * destruct (decide (i = j)) as [<-|Hne].
        -- rewrite list_lookup_insert_eq in Hj by assumption.
           injection Hj as <-. contradiction.
        -- rewrite list_lookup_insert_ne in Hj by assumption. eauto.
      * exists j. rewrite list_lookup_insert_ne; [assumption|].
        intros <-. congruence.
  - apply Families_findIndex_None in Ei.
    eexists. split; [reflexivity|].
    rewrite decide_False by assumption.
    rewrite map_app. split; [reflexivity|]. split; [|split; [|split]].
    + apply NoDup_app. split; [assumption|]. split; [|apply NoDup_singleton].
      intros x Hx Hx'. apply list_elem_of_singleton in Hx'. subst x. contradiction.
    + apply elem_of_app. right. left.
    + intros f Hf Hid. apply elem_of_app in Hf as [Hf|Hf].
      * exfalso. apply Ei. rewrite <- Hid. apply list_elem_of_In, in_map.
        by apply list_elem_of_In.
      * by apply list_elem_of_singleton in Hf.
    + intros f Hid. rewrite elem_of_app, list_elem_of_singleton. split; [|tauto].
      intros [Hf| ->]; [assumption|]. contradiction.
Qed.

Lemma NoDup_two {A : Type} (x y : A) : x <> y -> NoDup [x; y].
Proof.
  intros Hne. apply NoDup_cons. split; [|apply NoDup_singleton].
  intros H. apply list_elem_of_singleton in H. contradiction.
Qed.

Lemma handleSaveFamily_stores_witness :
  let a := SavedFamily.mk 1 "A" [Member.mk 11 "a"] in
  let b := SavedFamily.mk 2 "B" [Member.mk 21 "b"] in
  let edited :=
    SavedFamily.mk 1 "A2" [Member.mk 11 "a"; Member.mk 12 "  "; Member.mk 13 "c"] in
  let saved := SavedFamily.mk 1 "A2" [Member.mk 11 "a"; Member.mk 13 "c"] in
  let st := Families.mkState [a; b] true (Some edited) in
  Families.handleSaveFamily st = Families.Saved (Families.mkState [saved; b] false None) /\
  exists newFamilies,
    Families.handleSaveFamily st
    = Families.Saved (Families.mkState newFamilies false None) /\
    map SavedFamily.id newFamilies = [1; 2] /\
    saved ∈ newFamilies.
Proof.
  intros a b edited saved st.
  split; [vm_compute; reflexivity|].
  destruct (handleSaveFamily_stores st edited)
    as (newFamilies & Hrun & Hids & _ & Hin & _).
  - apply NoDup_two. discriminate.
  - reflexivity.
  - discriminate.
  - exists newFamilies. split; [exact Hrun|]. split; [exact Hids | exact Hin].
Defined.

(** X20.  Deleting a family that was just saved as a new one (its
    identifier was not stored before) gives back the stored families as they
    were. *)
Theorem handleDeleteFamily_undoes_new_save (st : Families.State) (cur : SavedFamily.t) :
  SavedFamily.id cur ∉ map SavedFamily.id (Families.families st) ->
  Families.currentFamily st = Some cur ->
  SavedFamily.name cur <> "" ->
  exists newFamilies,
    Families.handleSaveFamily st
    = Families.Saved (Families.mkState newFamilies false None) /\
    length newFamilies = S (length (Families.families st)) /\
    Families.handleDeleteFamily (SavedFamily.id cur) newFamilies = Families.families st.
Proof.
  intros Hnew Hcur Hname.
  unfold Families.handleSaveFamily. rewrite Hcur.
  destruct (Text.falsy (SavedFamily.name cur)) eqn:Ef.
  { apply falsy_empty in Ef. contradiction. }
  cbv zeta. unfold Families.closeModal. cbn [Families.families].
  change (SavedFamily.id (Families.finalFamily cur)) with (SavedFamily.id cur).
  pose proof Hnew as Hnone. apply Families_findIndex_None in Hnone. rewrite Hnone.
  eexists. split; [reflexivity|]. split.
  - rewrite length_app. simpl. lia.
  - unfold Families.handleDeleteFamily. rewrite List.filter_app. simpl.
    change (SavedFamily.id (Families.finalFamily cur)) with (SavedFamily.id cur).
    rewrite Z.eqb_refl. simpl. rewrite app_nil_r.
    apply List_filter_all. intros f Hf.
    destruct (Z.eqb_spec (SavedFamily.id f) (SavedFamily.id cur)) as [Heq|_]; [|reflexivity].
    exfalso. apply Hnew. rewrite <- Heq. apply list_elem_of_In, in_map.
    by apply list_elem_of_In.
Qed.

Lemma handleDeleteFamily_undoes_new_save_witness :
  let a := SavedFamily.mk 1 "A" [Member.mk 11 "a"] in
  let new := SavedFamily.mk 1700000000000 "B" [Member.mk 1700000000001 "b"] in
  let st := Families.mkState [a] true (Some new) in
  exists newFamilies,
    Families.handleSaveFamily st
    = Families.Saved (Families.mkState newFamilies false None) /\
    length newFamilies = 2%nat /\
    Families.handleDeleteFamily 1700000000000 newFamilies = [a].
Proof.
  intros a new st.
  apply (handleDeleteFamily_undoes_new_save st new).
  - intros H. apply list_elem_of_singleton in H. discriminate.
  - reflexivity.
  - discriminate.
Defined.

Lemma finalFamily_id (f : SavedFamily.t) :
  (forall m, m ∈ SavedFamily.members f -> Families.blank (Member.name m) = false) ->
  Families.finalFamily f = f.
Proof.
  intros Hm. unfold Families.finalFamily. rewrite List_filter_all.
  - by destruct f.
  - intros m Hin. rewrite (Hm m Hin). reflexivity.
Qed.

(** X21.  Opening a stored family and saving it untouched changes nothing,
    when identifiers are distinct, the family has a name and none of its
    members has a blank name: the stored families are the same list as
    before. *)
Theorem reopen_and_save_changes_nothing (st : Families.State) (f : SavedFamily.t)
    (now1 now2 : Z) :
  NoDup (map SavedFamily.id (Families.families st)) ->
  f ∈ Families.families st ->
  SavedFamily.name f <> "" ->
  (forall m, m ∈ SavedFamily.members f -> Families.blank (Member.name m) = false) ->
  Families.handleSaveFamily (Families.openModal (Some f) now1 now2 st)
  = Families.Saved (Families.mkState (Families.families st) false None).
Proof.
  intros Hnd Hin Hname Hm.
  unfold Families.handleSaveFamily, Families.openModal.
  cbn [Families.currentFamily Families.families Families.isModalVisible].
  destruct (Text.falsy (SavedFamily.name f)) eqn:Ef.
  { apply falsy_empty in Ef. contradiction. }
  cbv zeta. rewrite (finalFamily_id f Hm).
  apply list_elem_of_lookup in Hin as [j Hj].
  destruct (Families.findIndex (SavedFamily.id f) (Families.families st)) as [i|] eqn:Ei.
  - apply Families_findIndex_Some in Ei as (g & Hi & Hid).
    assert (i = j) as -> by exact (family_of_id _ i j g f Hnd Hi Hj Hid).
    rewrite list_insert_id by assumption. reflexivity.
  - apply Families_findIndex_None in Ei. exfalso. apply Ei.
    apply list_elem_of_lookup. exists j. by apply lookup_map_id.
Qed.

Lemma reopen_and_save_changes_nothing_witness :
  let a := SavedFamily.mk 1 "A" [Member.mk 11 "a"] in
  let b := SavedFamily.mk 2 "B" [Member.mk 21 "b"; Member.mk 22 " c "] in
  let st := Families.mkState [a; b] false None in
  Families.handleSaveFamily (Families.openModal (Some b) 1700000000000 1700000000000 st)
  = Families.Saved st.
Proof.
  intros a b st.
  apply (reopen_and_save_changes_nothing st b 1700000000000 1700000000000).
  - apply NoDup_two. discriminate.
  - right. left.
  - discriminate.
  - intros m Hm. apply elem_of_cons in Hm as [->|Hm]; [reflexivity|].
    apply list_elem_of_singleton in Hm as ->. reflexivity.
Defined.

(** X22.  Typing a member's name, when the members of the edited family have
    distinct identifiers: the member at that place gets the name and keeps
    its identifier, and every other member, the family's name and identifier
    and the stored families are as before. *)
Theorem updateMemberName_in_place (st : Families.State) (cur : SavedFamily.t)
    (i : nat) (m : Member.t) (name : string) :
  Families.currentFamily st = Some cur ->
  NoDup (map Member.id (SavedFamily.members cur)) ->
  SavedFamily.members cur !! i = Some m ->
  Families.updateMemberName (Member.id m) name st
  = Families.mkState (Families.families st) (Families.isModalVisible st)
      (Some (SavedFamily.mk (SavedFamily.id cur) (SavedFamily.name cur)
               (<[i := Member.mk (Member.id m) name]> (SavedFamily.members cur)))).
Proof.
  intros Hcur Hnd Hi. unfold Families.updateMemberName, Families.setMembers.
  rewrite Hcur. cbv zeta. do 3 f_equal.
  apply list_eq. intros j.
  change (map ?f ?l) with (f <$> l). rewrite list_lookup_fmap.
  destruct (decide (i = j)) as [<-|Hne].
  - rewrite list_lookup_insert_eq by (apply lookup_lt_is_Some; eauto).
    rewrite Hi. simpl. rewrite Z.eqb_refl. reflexivity.
  - rewrite list_lookup_insert_ne by assumption.
    destruct (SavedFamily.members cur !! j) as [m'|] eqn:Ej; [|reflexivity]. simpl.
    destruct (Z.eqb_spec (Member.id m') (Member.id m)) as [Heq|_]; [|reflexivity].
    exfalso. apply Hne.
    assert (forall k x, SavedFamily.members cur !! k = Some x ->
                        map Member.id (SavedFamily.members cur) !! k = Some (Member.id x))
      as Hl.
    { intros k x Hk. change (map ?f ?l) with (f <$> l).
      rewrite list_lookup_fmap, Hk. reflexivity. }
    apply Hl in Hi, Ej. rewrite Heq in Ej. exact (NoDup_lookup _ _ _ _ Hnd Hi Ej).
Qed.

Lemma updateMemberName_in_place_witness :
  let cur := SavedFamily.mk 1 "A" [Member.mk 11 "a"; Member.mk 12 ""] in
  let st := Families.mkState [] true (Some cur) in
  Families.updateMemberName 12 "b" st
  = Families.mkState [] true
      (Some (SavedFamily.mk 1 "A" [Member.mk 11 "a"; Member.mk 12 "b"])).
Proof.
  intros cur st.
  apply (updateMemberName_in_place st cur 1 (Member.mk 12 "") "b").
  - reflexivity.
  - apply NoDup_two. discriminate.
  - reflexivity.
Defined.

(** X23.  Removing a member field that was just added gives back the form
    as it was, when the clock reading that identifies the new member is not
    the identifier of a member already there. *)
Theorem removeMemberField_undoes_add (st : Families.State) (cur : SavedFamily.t)
    (now : Z) :
  Families.currentFamily st = Some cur ->
  now ∉ map Member.id (SavedFamily.members cur) ->
  Families.removeMemberField now (Families.addMemberField now st) = st.
Proof.
  intros Hcur Hnew.
  unfold Families.removeMemberField, Families.addMemberField, Families.setMembers.
  rewrite Hcur. cbv zeta.
  cbn [Families.currentFamily Families.families Families.isModalVisible
       SavedFamily.id SavedFamily.name SavedFamily.members].
  rewrite List.filter_app. simpl. rewrite Z.eqb_refl. simpl. rewrite app_nil_r.
  rewrite List_filter_all.
  - destruct st as [fs vis c]. simpl in Hcur. subst c. by destruct cur.
  - intros m Hm. destruct (Z.eqb_spec (Member.id m) now) as [Heq|_]; [|reflexivity].
    exfalso. apply Hnew. rewrite <- Heq. apply list_elem_of_In, in_map.
    by apply list_elem_of_In.
Qed.

Lemma removeMemberField_undoes_add_witness :
  let cur := SavedFamily.mk 1 "A" [Member.mk 11 "a"; Member.mk 12 "b"] in
  let st := Families.mkState [] true (Some cur) in
  Families.removeMemberField 1700000000000 (Families.addMemberField 1700000000000 st) = st.
Proof.
  intros cur st.
  apply (removeMemberField_undoes_add st cur 1700000000000).
  - reflexivity.
  - intros H. apply elem_of_cons in H as [H|H]; [discriminate|].
    apply list_elem_of_singleton in H. discriminate.
Defined.

(** X24.  A new family for which only the name is typed is stored at the end
    of the list with the clock reading of the opening of the form as its
    identifier and with no member (the empty member field of the new form is
    dropped), when no stored family has that identifier. *)
Theorem new_family_with_name_only (st : Families.State) (now1 now2 : Z) (name : string) :
  name <> "" ->
  now1 ∉ map SavedFamily.id (Families.families st) ->
  Families.handleSaveFamily (Families.setName name (Families.openModal None now1 now2 st))
  = Families.Saved
      (Families.mkState (Families.families st ++ [SavedFamily.mk now1 name []]) false None).
Proof.
  intros Hname Hnew.
  unfold Families.handleSaveFamily, Families.setName, Families.openModal.
  cbn [Families.currentFamily Families.families Families.isModalVisible
       SavedFamily.id SavedFamily.name SavedFamily.members].
  destruct (Text.falsy name) eqn:Ef.
  { apply falsy_empty in Ef. contradiction. }
  cbv zeta.
  change (SavedFamily.id (Families.finalFamily _)) with now1.
  apply Families_findIndex_None in Hnew. rewrite Hnew. reflexivity.
Qed.

Lemma new_family_with_name_only_witness :
  let a := SavedFamily.mk 1 "A" [Member.mk 11 "a"] in
  Families.handleSaveFamily
    (Families.setName "B"
       (Families.openModal None 1700000000000 1700000000000
          (Families.mkState [a] false None)))
  = Families.Saved
      (Families.mkState [a; SavedFamily.mk 1700000000000 "B" []] false None).
Proof.
  intros a.
  apply (new_family_with_name_only (Families.mkState [a] false None)
           1700000000000 1700000000000 "B").
  - discriminate.
  - intros H. apply list_elem_of_singleton in H. discriminate.
Defined.

(** ** Modifying and duplicating a bill *)

(** The amounts of a bill that the edit form reads back: the total cost and
    the extra costs of the enabled services. *)
Lemma parseFamily_familyWithStringValues (toString : Q -> string) (f : FamilyInBill.t) :
  let g := Input.parseFamily f in
  (ExtraService.hasService (FamilyData.extraService g) = true ->
   Text.parseFloat (toString (ExtraService.cost (FamilyData.extraService g)))
   = Some (ExtraService.cost (FamilyData.extraService g))) ->
  Input.parseFamily (Input.familyWithStringValues toString g) = g.
Proof.
  intros g Hcost. unfold Input.parseFamily, Input.familyWithStringValues.
  cbn [FamilyInBill.id FamilyInBill.name FamilyInBill.lines FamilyInBill.extraService
       ExtraServiceInput.hasService ExtraServiceInput.cost].
  rewrite parseInt_pretty. cbn [Text.orZeroZ].
  unfold g in *. unfold Input.parseFamily in *.
  cbn [FamilyData.id FamilyData.name FamilyData.lines FamilyData.extraService
       ExtraService.hasService ExtraService.cost] in *.
  destruct (ExtraServiceInput.hasService (FamilyInBill.extraService f)).
  - rewrite Hcost by reflexivity. reflexivity.
  - reflexivity.
Qed.

Lemma familiesWithParsedNumbers_reload (toString : Q -> string)
    (fs : list FamilyInBill.t) :
  (forall g, g ∈ map Input.parseFamily fs ->
             ExtraService.hasService (FamilyData.extraService g) = true ->
             Text.parseFloat (toString (ExtraService.cost (FamilyData.extraService g)))
             = Some (ExtraService.cost (FamilyData.extraService g))) ->
  map Input.parseFamily
    (map (Input.familyWithStringValues toString) (map Input.parseFamily fs))
  = map Input.parseFamily fs.
Proof.
  induction fs as [|f fs IH]; intros H; [reflexivity|]. simpl. f_equal.
  - apply parseFamily_familyWithStringValues. apply H. left.
  - apply IH. intros g Hg. apply H. by right.
Qed.

(** A form that reads the same numbers calculates the same bill. *)
Lemma handleCalculate_ext (st st' : Input.State) :
  Input.parsedTotalCost st' = Input.parsedTotalCost st ->
  Input.familiesWithParsedNumbers st' = Input.familiesWithParsedNumbers st ->
  Input.handleCalculate st'
  = Some (ResultData.mk (Input.editingBillId st')
            (match Input.billDate st' with
             | Some d => formatBillMonth (Some d)
             | None => "N/A"
             end)
            (Input.parsedTotalCost st)
            (guardedRate (Input.totalLineCost st) (Input.totalLines st))
            (Input.familiesWithParsedNumbers st)).
Proof.
  intros Ht Hf. rewrite handleCalculate_eq.
  unfold Input.totalLineCost, Input.totalExtraServiceCost, Input.totalLines.
  rewrite Ht, Hf. reflexivity.
Qed.

Lemma formatBillMonth_newDateYM (d : Date) :
  ~ 0 <= getFullYear d <= 99 ->
  formatBillMonth (Some (Input.newDateYM (getFullYear d) (getMonth d)))
  = formatBillMonth (Some d).
Proof.
  intros Hy.
  pose proof (MonthFromTime_range (getTime d)) as Hm. fold (getMonth d) in Hm.
  destruct (newDateYM_fields (getFullYear d) (getMonth d) Hm) as (HY & HM & _).
  unfold formatBillMonth. rewrite HY, HM.
  destruct (Z.leb_spec 0 (getFullYear d)), (Z.leb_spec (getFullYear d) 99);
    simpl; (reflexivity || lia).
Qed.

(** X25.  Modifying a calculated bill and calculating again without touching
    the form gives the same bill: identifier, month, total cost, rate and
    families.  The bill has a date whose year is not from 0 to 99, and
    [parseFloat] reads back the text that [toString] gives for the total
    cost and for the extra cost of every enabled service, as it does for
    every finite number in JavaScript. *)
Theorem modify_and_recalculate (toString : Q -> string) (st : Input.State)
    (d : Date) (data : ResultData.t) :
  Input.handleCalculate st = Some data ->
  Input.billDate st = Some d ->
  ~ 0 <= getFullYear d <= 99 ->
  Text.parseFloat (toString (ResultData.totalCost data)) = Some (ResultData.totalCost data) ->
  (forall f, f ∈ ResultData.families data ->
             ExtraService.hasService (FamilyData.extraService f) = true ->
             Text.parseFloat (toString (ExtraService.cost (FamilyData.extraService f)))
             = Some (ExtraService.cost (FamilyData.extraService f))) ->
  exists st',
    Input.loadBillToModify toString data = Input.Filled st' /\
    Input.handleCalculate st' = Some data.
Proof.
  intros Hcalc Hdate Hy Htotal Hextra.
  rewrite handleCalculate_eq in Hcalc. injection Hcalc as <-.
  cbn [ResultData.totalCost ResultData.families ResultData.billMonth ResultData.id] in *.
  pose proof (MonthFromTime_range (getTime d)) as Hm. fold (getMonth d) in Hm.
  unfold Input.loadBillToModify.
  cbn [ResultData.totalCost ResultData.families ResultData.billMonth ResultData.id].
  rewrite Hdate.
  cbv zeta. rewrite (parseBillMonth_token (getFullYear d) (getMonth d) Hm).
  eexists. split; [reflexivity|].
  rewrite (handleCalculate_ext st).
  - cbn [Input.editingBillId Input.billDate].
    rewrite formatBillMonth_newDateYM by assumption. reflexivity.
  - unfold Input.parsedTotalCost at 1. cbn [Input.totalCost]. rewrite Htotal. reflexivity.
  - unfold Input.familiesWithParsedNumbers at 1. cbn [Input.familiesInBill].
    apply familiesWithParsedNumbers_reload. exact Hextra.
Qed.

Lemma modify_and_recalculate_witness :
  let toString := fun q : Q => pretty (Qnum q) in
  let st := Input.mkState "300"
              [FamilyInBill.mk 1 "A" "2" (ExtraServiceInput.mk false "12");
               FamilyInBill.mk 2 "B" "1" (ExtraServiceInput.mk true "30")]
              (Some (newDate 2024 2 18)) (Some 1700000000000) in
  let data :=
    ResultData.mk (Some 1700000000000) "2024年 03月" 300 (270 # 3)
      [FamilyData.mk 1 "A" 2 (ExtraService.mk false 0);
       FamilyData.mk 2 "B" 1 (ExtraService.mk true 30)] in
  Input.handleCalculate st = Some data /\
  exists st',
    Input.loadBillToModify toString data = Input.Filled st' /\
    Input.handleCalculate st' = Some data.
Proof.
  intros toString st data.
  assert (Input.handleCalculate st = Some data) as Hcalc by (vm_compute; reflexivity).
  split; [exact Hcalc|].
  apply (modify_and_recalculate toString st (newDate 2024 2 18) data Hcalc).
  - reflexivity.
  - vm_compute. intros [_ H]. apply H. reflexivity.
  - vm_compute. reflexivity.
  - intros f Hf Hs. apply elem_of_cons in Hf as [->|Hf]; [discriminate Hs|].
    apply list_elem_of_singleton in Hf as ->. vm_compute. reflexivity.
Defined.

(** X26.  Duplicating a calculated bill and calculating at once gives a bill
    with the same total cost, rate and families, with no identifier (it is
    saved as a new bill) and with the month the form shows, not the month of
    the original; under the same reading of [toString]. *)
Theorem duplicate_and_recalculate (toString : Q -> string) (st form : Input.State)
    (data : ResultData.t) :
  Input.handleCalculate st = Some data ->
  Text.parseFloat (toString (ResultData.totalCost data)) = Some (ResultData.totalCost data) ->
  (forall f, f ∈ ResultData.families data ->
             ExtraService.hasService (FamilyData.extraService f) = true ->
             Text.parseFloat (toString (ExtraService.cost (FamilyData.extraService f)))
             = Some (ExtraService.cost (FamilyData.extraService f))) ->
  Input.handleCalculate
    (Input.loadDuplicatedData toString (Home.handleDuplicateBill data) form)
  = Some (ResultData.mk None
            (match Input.billDate form with
             | Some d => formatBillMonth (Some d)
             | None => "N/A"
             end)
            (ResultData.totalCost data) (ResultData.costPerLine data)
            (ResultData.families data)).
Proof.
  intros Hcalc Htotal Hextra.
  rewrite handleCalculate_eq in Hcalc. injection Hcalc as <-.
  cbn [ResultData.totalCost ResultData.families ResultData.costPerLine] in *.
  unfold Input.loadDuplicatedData, Home.handleDuplicateBill.
  cbn [DuplicatedData.totalCost DuplicatedData.families
       ResultData.totalCost ResultData.families].
  rewrite (handleCalculate_ext st).
  - reflexivity.
  - unfold Input.parsedTotalCost at 1. cbn [Input.totalCost]. rewrite Htotal. reflexivity.
  - unfold Input.familiesWithParsedNumbers at 1. cbn [Input.familiesInBill].
    apply familiesWithParsedNumbers_reload. exact Hextra.
Qed.

Lemma duplicate_and_recalculate_witness :
  let toString := fun q : Q => pretty (Qnum q) in
  let st := Input.mkState "300"
              [FamilyInBill.mk 1 "A" "2" (ExtraServiceInput.mk false "12");
               FamilyInBill.mk 2 "B" "1" (ExtraServiceInput.mk true "30")]
              (Some (newDate 2024 2 18)) (Some 1700000000000) in
  let form := Input.mkState "" [] (Some (newDate 2024 5 2)) None in
  let families :=
    [FamilyData.mk 1 "A" 2 (ExtraService.mk false 0);
     FamilyData.mk 2 "B" 1 (ExtraService.mk true 30)] in
  let data := ResultData.mk (Some 1700000000000) "2024年 03月" 300 (270 # 3) families in
  Input.handleCalculate st = Some data /\
  Input.handleCalculate
    (Input.loadDuplicatedData toString (Home.handleDuplicateBill data) form)
  = Some (ResultData.mk None "2024年 06月" 300 (270 # 3) families).
Proof.
  intros toString st form families data.
  assert (Input.handleCalculate st = Some data) as Hcalc by (vm_compute; reflexivity).
  split; [exact Hcalc|].
  apply (duplicate_and_recalculate toString st form data Hcalc).
  - vm_compute. reflexivity.
  - intros f Hf Hs. apply elem_of_cons in Hf as [->|Hf]; [discriminate Hs|].
    apply list_elem_of_singleton in Hf as ->. vm_compute. reflexivity.
Defined.

(** ** The order of the rows of a summary *)

Lemma addParticipation_keys (o : JsObject.t Home.Totals.t)
    (p : ResultData.t * FamilyData.t) :
  map fst (addParticipation o p)
  = if decide (Home.familyName p.2 ∈ map fst o) then map fst o
    else map fst o ++ [Home.familyName p.2].
Proof.
  unfold addParticipation. rewrite set_keys.
  destruct (JsObject.get (Home.familyName p.2) o) as [e|] eqn:E.
  - rewrite decide_True; [reflexivity|]. eapply get_Some_elem, E.
  - rewrite decide_False; [reflexivity|]. by apply get_None_elem.
Qed.

Lemma filter_filter_ne (ks0 : list string) (k : string) (l : list string) :
  k ∈ ks0 ->
  filter (fun x => x ∉ ks0) (filter (fun x => x <> k) l) = filter (fun x => x ∉ ks0) l.
Proof.
  intros Hk. induction l as [|x l IH]; [reflexivity|].
  rewrite !filter_cons. destruct (decide (x <> k)) as [Hne|Heq].
  - rewrite filter_cons, IH. reflexivity.
  - assert (x = k) as -> by (destruct (decide (x = k)); tauto).
    rewrite decide_False by tauto. exact IH.
Qed.

Lemma filter_not_in_snoc (ks0 : list string) (k : string) (l : list string) :
  filter (fun x => x ∉ ks0 ++ [k]) l
  = filter (fun x => x ∉ ks0) (filter (fun x => x <> k) l).
Proof.
  induction l as [|x l IH]; [reflexivity|].
  rewrite !filter_cons. destruct (decide (x <> k)) as [Hne|Heq].
  - rewrite filter_cons, <- IH.
    destruct (decide (x ∉ ks0)) as [Hout|Hin].
    + rewrite decide_True; [reflexivity|].
      rewrite elem_of_app, list_elem_of_singleton. tauto.
    + rewrite decide_False; [reflexivity|].
      rewrite elem_of_app. tauto.
  - rewrite <- IH. rewrite decide_False; [reflexivity|].
    assert (x = k) as -> by (destruct (decide (x = k)); tauto).
    intros H. apply H. apply elem_of_app. right. left.
Qed.

(** The keys of the summary object, in creation order. *)
Lemma fold_addParticipation_keys (ps : list (ResultData.t * FamilyData.t))
    (o : JsObject.t Home.Totals.t) :
  map fst (fold_left addParticipation ps o)
  = map fst o
    ++ filter (fun k => k ∉ map fst o)
         (firstSeen (map (fun p => Home.familyName p.2) ps)).
Proof.
  revert o. induction ps as [|p ps IH]; intros o.
  - simpl. rewrite app_nil_r. reflexivity.
  - cbn [fold_left map firstSeen]. rewrite IH, addParticipation_keys.
    rewrite filter_cons.
    destruct (decide (Home.familyName p.2 ∈ map fst o)) as [Hin|Hout].
    + rewrite decide_False by tauto. rewrite filter_filter_ne by assumption. reflexivity.
    + rewrite decide_True by assumption.
      rewrite filter_not_in_snoc, <- app_assoc. reflexivity.
Qed.

Lemma filter_all_true {A : Type} (P : A -> Prop) `{forall x, Decision (P x)} (l : list A) :
  (forall x, x ∈ l -> P x) -> filter P l = l.
Proof.
  induction l as [|x l IH]; intros Hl; [reflexivity|].
  rewrite filter_cons, decide_True by (apply Hl; left).
  f_equal. apply IH. intros y Hy. apply Hl. by right.
Qed.

Lemma filter_all_false {A : Type} (P : A -> Prop) `{forall x, Decision (P x)} (l : list A) :
  (forall x, x ∈ l -> ~ P x) -> filter P l = [].
Proof.
  induction l as [|x l IH]; intros Hl; [reflexivity|].
  rewrite filter_cons, decide_False by (apply Hl; left).
  apply IH. intros y Hy. apply Hl. by right.
Qed.

(** Without array index keys, [Object.keys] lists the keys as created. *)
Lemma keys_creation_order {V : Type} (o : JsObject.t V) :
  (forall k, k ∈ map fst o -> JsObject.arrayIndex k = None) ->
  JsObject.keys o = map fst o.
Proof.
  intros Hk. unfold JsObject.keys. cbv zeta.
  rewrite (filter_all_false (fun k => is_Some (JsObject.arrayIndex k))).
  - rewrite (filter_all_true (fun k => ~ is_Some (JsObject.arrayIndex k))); [reflexivity|].
    intros k Hin [v Hv]. rewrite (Hk k Hin) in Hv. discriminate.
  - intros k Hin [v Hv]. rewrite (Hk k Hin) in Hv. discriminate.
Qed.

Lemma firstSeen_elem (l : list string) (k : string) : k ∈ firstSeen l -> k ∈ l.
Proof.
  induction l as [|x l IH]; simpl; [tauto|].
  intros H. apply elem_of_cons in H as [->|H]; [left|].
  apply list_elem_of_filter in H as [_ H]. right. by apply IH.
Qed.

(** X27.  The rows of a summary that is shown come in the order in which the
    families are first met, going through the bills in range in the order of
    the screen's list of bills and through each bill's families in turn, each
    name once; this when no name (or fallback label) is the decimal numeral
    of an array index, which [Object.keys] would list first. *)
Theorem summary_rows_in_order_of_first_appearance (st : Home.State)
    (summaryData : list Home.SummaryResult.t) (dateRange : string) :
  Home.handleCalculateSummary st = Home.Summary summaryData dateRange ->
  (forall p, p ∈ participations (billsInRange st) ->
             JsObject.arrayIndex (Home.familyName p.2) = None) ->
  map Home.SummaryResult.name summaryData
  = firstSeen (map (fun p => Home.familyName p.2) (participations (billsInRange st))).
Proof.
  intros Hrun Hnames. apply handleCalculateSummary_shown in Hrun as [-> _].
  rewrite summaryArray_names.
  assert (map fst (summaryObject (billsInRange st))
          = firstSeen (map (fun p => Home.familyName p.2)
                         (participations (billsInRange st)))) as Hkeys.
  { unfold summaryObject. rewrite fold_addParticipation_keys. simpl.
    apply filter_all_true. intros k _ H. inversion H. }
  rewrite keys_creation_order; [exact Hkeys|].
  intros k Hk. rewrite Hkeys in Hk. apply firstSeen_elem in Hk.
  apply list_elem_of_In, in_map_iff in Hk as (p & <- & Hp).
  apply Hnames. by apply list_elem_of_In.
Qed.

Lemma summary_rows_in_order_of_first_appearance_witness :
  let a := FamilyData.mk 1 "A" 2 (ExtraService.mk false 0) in
  let b := FamilyData.mk 2 "B" 1 (ExtraService.mk true 30) in
  let c := FamilyData.mk 3 "C" 1 (ExtraService.mk false 0) in
  let february := ResultData.mk (Some 1700000500000) "2024年 02月" 300 100 [b; a] in
  let january := ResultData.mk (Some 1700000000000) "2024年 01月" 305 90 [a; c; b] in
  let st := Home.mkState (Some (newDate 2024 0 1)) (Some (newDate 2024 1 1))
              [february; january] in
  exists summaryData dateRange,
    Home.handleCalculateSummary st = Home.Summary summaryData dateRange /\
    map Home.SummaryResult.name summaryData = ["B"; "A"; "C"].
Proof.
  intros a b c february january st.
  destruct (Home.handleCalculateSummary st) as [| |summaryData dateRange|] eqn:Hrun;
    [vm_compute in Hrun; discriminate Hrun ..| |vm_compute in Hrun; discriminate Hrun].
  exists summaryData, dateRange. split; [reflexivity|].
  rewrite (summary_rows_in_order_of_first_appearance st summaryData dateRange Hrun).
  - vm_compute. reflexivity.
  - assert (billsInRange st = [february; january]) as -> by (vm_compute; reflexivity).
    intros p Hp. simpl in Hp.
    repeat (apply elem_of_cons in Hp as [->|Hp]; [vm_compute; reflexivity|]).
    inversion Hp.
Defined.

(** ** A summary that throws *)

Lemma existsb_throwsOn (ps : list (ResultData.t * FamilyData.t)) :
  existsb throwsOn ps = true
  <-> exists p, p ∈ ps /\ JsObject.inherited (Home.familyName p.2) = true.
Proof.
  rewrite existsb_exists. unfold throwsOn.
  split; intros (p & Hp & Hi); exists p; (split; [by apply list_elem_of_In | exact Hi]).
Qed.

(** X28.  With both months chosen and a bill in range, the summary handler
    throws a TypeError, and shows nothing, exactly when a family of a bill in
    range is filed under a name that every object inherits from
    [Object.prototype] (constructor, toString, valueOf, hasOwnProperty,
    __proto__ and the like): the lookup in the summary object finds the
    inherited value, no entry is made, and [push] is called on [undefined].
    Otherwise a summary is shown. *)
Theorem handleCalculateSummary_throws_on_inherited_name (st : Home.State)
    (startDate endDate : Date) :
  Home.startDate st = Some startDate -> Home.endDate st = Some endDate ->
  billsInRange st <> [] ->
  (Home.handleCalculateSummary st = Home.Throws
   <-> exists p, p ∈ participations (billsInRange st) /\
                 JsObject.inherited (Home.familyName p.2) = true) /\
  (Home.handleCalculateSummary st <> Home.Throws ->
   exists summaryData dateRange,
     Home.handleCalculateSummary st = Home.Summary summaryData dateRange).
Proof.
  intros Hs He Hne.
  rewrite (handleCalculateSummary_total st startDate endDate Hs He Hne).
  rewrite <- existsb_throwsOn.
  destruct (existsb throwsOn (participations (billsInRange st))).
  - split; [tauto|]. intros H. contradiction.
  - split; [split; discriminate|]. intros _. eauto.
Qed.

Lemma handleCalculateSummary_throws_on_inherited_name_witness :
  let a := FamilyData.mk 1 "A" 2 (ExtraService.mk false 0) in
  let c := FamilyData.mk 2 "constructor" 1 (ExtraService.mk false 0) in
  let january := ResultData.mk (Some 1700000000000) "2024年 01月" 300 100 [a; c] in
  let st := Home.mkState (Some (newDate 2024 0 1)) (Some (newDate 2024 0 1)) [january] in
  Home.handleCalculateSummary st = Home.Throws.
Proof.
  intros a c january st.
  assert (billsInRange st = [january]) as Hin by (vm_compute; reflexivity).
  apply (handleCalculateSummary_throws_on_inherited_name st (newDate 2024 0 1)
           (newDate 2024 0 1)).
  - reflexivity.
  - reflexivity.
  - rewrite Hin. discriminate.
  - exists (january, c). split.
    + rewrite Hin. simpl. right. left.
    + vm_compute. reflexivity.
Defined.
